(** * ast_code_parse: relocation of declarations between Python files

    A shallow embedding of [py_object_actions.py] (the relocation
    operation [move_objects]) and of [return_py_object_info.py] (the
    dependency analyzer, the metadata extractor and the regex
    enumerator), with the properties of the specification stated over
    it.

    Conventions of the embedding.
    - Source text is a [string]; the parser and the serializer of the
      [ast] library are parameters of the development ([ast_parse],
      [ast_unparse]).
    - The syntax tree keeps the node classes the program tests with
      [isinstance] (FunctionDef, ClassDef, Import, ImportFrom, Name) and
      a few more to give them a context.  Nodes of classes no test
      inspects (alias, arguments, expression contexts) are not
      enumerated by [walk].
    - Python compares syntax nodes by identity.  Definition nodes carry
      the [lineno]/[col_offset] attributes the parser gives them, and
      [same_node] compares those: two distinct statements of one parsed
      tree never start at the same place.
    - The file system is a finite map from (resolved) paths to text:
      the regular files that can be read as text.  A path the map lacks
      is a missing file; directories and files that cannot be read or
      decoded are not modelled.  A run also records what it printed and
      every file write it issued.
    - What the surroundings can refuse or raise is given from outside:
      the exception of the parser for a text, of [open] for a path to
      write, of an object's [__str__], of reading an attribute, of
      comparing a parameter's default. *)

From Stdlib Require Import String Ascii List Bool Arith Lia Permutation.
From stdpp Require Import base gmap strings.
Import ListNotations.
Open Scope string_scope.
Open Scope list_scope.
Set Warnings "-register-all".

(** ** Syntax trees *)

Module Ast.

Inductive expr_context := Load | Store | Del.

Record alias := Alias { alias_name : string; asname : option string }.

Inductive expr :=
| Name (id : string) (ctx : expr_context)
| Constant (value : string)
| Attribute (value : expr) (attr : string) (ctx : expr_context)
| Call (func : expr) (args : list expr).

Inductive stmt :=
| FunctionDef (lineno col_offset : nat) (name : string) (args : list string)
              (body : list stmt) (decorator_list : list expr)
| ClassDef (lineno col_offset : nat) (name : string) (bases : list expr)
           (body : list stmt) (decorator_list : list expr)
| Return (value : option expr)
| Assign (targets : list expr) (value : expr)
| Expr (value : expr)
| Import (names : list alias)
| ImportFrom (module : option string) (names : list alias) (level : nat)
| Pass.

Record module_ := Module_ { body : list stmt }.

(** Any node of a tree, as [ast.walk] yields them. *)
Inductive node :=
| NModule (m : module_)
| NStmt (s : stmt)
| NExpr (e : expr).

(** [ast.iter_child_nodes]: the direct children, in field order. *)
Definition iter_child_nodes (n : node) : list node :=
  match n with
  | NModule m => map NStmt (body m)
  | NStmt (FunctionDef _ _ _ _ b d) => map NStmt b ++ map NExpr d
  | NStmt (ClassDef _ _ _ bs b d) => map NExpr bs ++ map NStmt b ++ map NExpr d
  | NStmt (Return (Some e)) => [NExpr e]
  | NStmt (Return None) => []
  | NStmt (Assign ts v) => map NExpr ts ++ [NExpr v]
  | NStmt (Expr v) => [NExpr v]
  | NStmt (Import _) => []
  | NStmt (ImportFrom _ _ _) => []
  | NStmt Pass => []
  | NExpr (Attribute v _ _) => [NExpr v]
  | NExpr (Call f a) => NExpr f :: map NExpr a
  | NExpr (Name _ _) => []
  | NExpr (Constant _) => []
  end.

(** The nodes of a tree by structural recursion (depth first); this is
    the reference for "occurs somewhere in the tree". *)
Fixpoint preorder_expr (e : expr) : list node :=
  NExpr e ::
  match e with
  | Attribute v _ _ => preorder_expr v
  | Call f a => preorder_expr f ++ flat_map preorder_expr a
  | Name _ _ => []
  | Constant _ => []
  end.

Fixpoint preorder_stmt (s : stmt) : list node :=
  NStmt s ::
  match s with
  | FunctionDef _ _ _ _ b d =>
      flat_map preorder_stmt b ++ flat_map preorder_expr d
  | ClassDef _ _ _ bs b d =>
      flat_map preorder_expr bs ++ flat_map preorder_stmt b
        ++ flat_map preorder_expr d
  | Return (Some e) => preorder_expr e
  | Return None => []
  | Assign ts v => flat_map preorder_expr ts ++ preorder_expr v
  | Expr v => preorder_expr v
  | Import _ => []
  | ImportFrom _ _ _ => []
  | Pass => []
  end.

Definition preorder (n : node) : list node :=
  match n with
  | NModule m => NModule m :: flat_map preorder_stmt (body m)
  | NStmt s => preorder_stmt s
  | NExpr e => preorder_expr e
  end.

Definition node_size (n : node) : nat := length (preorder n).

(** [ast.walk]: a queue seeded with the node; pop the left end, push the
    children at the right end, yield the popped node.  The loop runs as
    long as the queue is non-empty, which is at most [node_size] times. *)
Fixpoint walk_loop (fuel : nat) (todo : list node) : list node :=
  match fuel, todo with
  | S fuel', n :: rest => n :: walk_loop fuel' (rest ++ iter_child_nodes n)
  | _, _ => []
  end.

Definition walk (n : node) : list node := walk_loop (node_size n) [n].

(** [isinstance(node, ast.FunctionDef) or isinstance(node, ast.ClassDef)] *)
Definition is_def (s : stmt) : bool :=
  match s with
  | FunctionDef _ _ _ _ _ _ => true
  | ClassDef _ _ _ _ _ _ => true
  | _ => false
  end.

Definition is_import (s : stmt) : bool :=
  match s with
  | Import _ => true
  | ImportFrom _ _ _ => true
  | _ => false
  end.

(** [node.name] of a definition node (the empty string elsewhere, where
    the program never reads it). *)
Definition stmt_name (s : stmt) : string :=
  match s with
  | FunctionDef _ _ n _ _ _ => n
  | ClassDef _ _ n _ _ _ => n
  | _ => ""
  end.

(** [node.name = new_name] *)
Definition set_name (new_name : string) (s : stmt) : stmt :=
  match s with
  | FunctionDef l c _ a b d => FunctionDef l c new_name a b d
  | ClassDef l c _ bs b d => ClassDef l c new_name bs b d
  | _ => s
  end.

(** Identity of two definition nodes of one parsed tree. *)
Definition same_node (a b : stmt) : bool :=
  match a, b with
  | FunctionDef l c _ _ _ _, FunctionDef l' c' _ _ _ _ =>
      Nat.eqb l l' && Nat.eqb c c'
  | ClassDef l c _ _ _ _, ClassDef l' c' _ _ _ _ =>
      Nat.eqb l l' && Nat.eqb c c'
  | _, _ => false
  end.

(** The statements among a list of nodes. *)
Definition stmts_of (ns : list node) : list stmt :=
  flat_map (fun n => match n with NStmt s => [s] | _ => [] end) ns.

End Ast.

(** ** Exceptions, printed notices and the world a run acts on *)

(** The exception classes the program raises or meets, with the data
    their messages are built from. *)
Inductive exn :=
| FileNotFoundError (filename : string)
| SyntaxError
| ImportError (module_name : string)
| AttributeError (attr : string)
| TypeError_compile_arg        (* compile() arg 1 must be a string, bytes or AST object *)
| TypeError_not_iterable       (* 'NoneType' object is not iterable *)
| TypeError_unsupported_callable
| ValueError_not_found (missing_objects : gset string) (path : string)
                               (* Objects {missing_objects} not found in {path}. *)
| ValueError_handle_conflicts (value : string)
                               (* Invalid value for handle_conflicts: {value} *)
| ValueError_list_remove       (* list.remove(x): x not in list *)
| FileNotFoundError_tagged (filename : string)
                               (* File not found: {filename} *)
| SyntaxError_tagged (source_file_path : string)
                               (* Invalid syntax in the source file: {path} *)
| Exception_ (cause : exn)     (* An error occurred: {str(cause)} *)
| ValueError_null_bytes        (* source code string cannot contain null bytes *)
| IsADirectoryError (filename : string)
| PermissionError (filename : string)
| ValueError_ (message : string)
                               (* The truth value of an array ... is ambiguous *)
| ZeroDivisionError.           (* raised by code of the user's *)

(** [except (ValueError, TypeError)] *)
Definition is_value_or_type_error (e : exn) : bool :=
  match e with
  | TypeError_compile_arg | TypeError_not_iterable
  | TypeError_unsupported_callable => true
  | ValueError_not_found _ _ | ValueError_handle_conflicts _
  | ValueError_list_remove | ValueError_null_bytes | ValueError_ _ => true
  | _ => false
  end.

(** [except AttributeError], which [hasattr] and the three-argument
    [getattr] have built in. *)
Definition is_attribute_error (e : exn) : bool :=
  match e with AttributeError _ => true | _ => false end.

(** What the program prints. *)
Inductive notice :=
| Renamed (object_name new_object_name : string)
| Skipping (object_name dest_file_path : string)
| TargetNotFound (position dest_file_path : string)
| MovedSuccessfully (object_names : list string) (source dest : string)
| DependencyError (e : exn)
| ObjectNotFound (obj_name : string)
| ProcessingError (obj_name : option string) (e : exn).

Record world := World {
  files : gmap string string;          (* path -> text, readable files *)
  stdout : list notice;                (* printed so far, oldest first *)
  writes : list (string * string)      (* open(path, 'w') ... write(text) *)
}.

(** Computations that act on the world and may raise. *)
Definition M (A : Type) : Type := world -> (exn + A) * world.

Definition ret {A} (a : A) : M A := fun w => (inr a, w).

Definition raise {A} (e : exn) : M A := fun w => (inl e, w).

Definition bind {A B} (m : M A) (k : A -> M B) : M B :=
  fun w =>
    match m w with
    | (inl e, w') => (inl e, w')
    | (inr a, w') => k a w'
    end.

(** [try: m except (classes) as e: h e]; an exception outside
    [classes] propagates. *)
Definition try_except {A} (m : M A) (classes : exn -> bool) (h : exn -> M A)
  : M A :=
  fun w =>
    match m w with
    | (inl e, w') => if classes e then h e w' else (inl e, w')
    | (inr a, w') => (inr a, w')
    end.

Declare Scope py_scope.
Delimit Scope py_scope with py.
Notation "x <- m ;; k" := (bind m (fun x => k))
  (at level 100, m at next level, right associativity) : py_scope.
Notation "m ;;; k" := (bind m (fun _ => k))
  (at level 100, right associativity) : py_scope.
Open Scope py_scope.

Definition lift {A} (r : exn + A) : M A :=
  match r with inl e => raise e | inr a => ret a end.

(** [print(message)] for a message already built.  The messages built
    from text, lists of names and paths are built without raising;
    where an arbitrary object is formatted, [format_object] comes
    first. *)
Definition print (n : notice) : M unit :=
  fun w => (inr tt, World (files w) (stdout w ++ [n]) (writes w)).

(** [with open(path, 'r') as f: f.read()], for a path that is a
    readable text file or is missing. *)
Definition read_file (path : string) : M string :=
  fun w =>
    match files w !! path with
    | Some text => (inr text, w)
    | None => (inl (FileNotFoundError path), w)
    end.

(** [Path.is_file()] *)
Definition is_file (path : string) : M bool :=
  fun w => (inr (bool_decide (is_Some (files w !! path))), w).

(** The effect of [with open(path, 'w') as f: f.write(text)] once the
    file is open. *)
Definition write_file (path text : string) : M unit :=
  fun w =>
    (inr tt, World (<[path := text]> (files w)) (stdout w)
                   (writes w ++ [(path, text)])).

(** A [for] loop with loop-carried variables of type [S]. *)
Fixpoint for_each {S X} (body : S -> X -> M S) (xs : list X) (s : S) : M S :=
  match xs with
  | [] => ret s
  | x :: xs' => s' <- body s x ;; for_each body xs' s'
  end.

(** ** return_py_object_info.py *)

Module ReturnPyObjectInfo.
Import Ast.

(** *** The live runtime, as far as the program inspects it *)

(** What [inspect] answers about a live value: [ismodule],
    [isfunction], [isclass], [ismethod], one of [ismethoddescriptor] /
    [ismemberdescriptor], the value [None], or none of these. *)
Inductive py_kind :=
| KModule | KFunction | KClass | KMethod | KDescriptor | KNone | KOther.

(** A value reached by [getattr(obj, name)].  Reading the attribute
    runs code of the user's (a descriptor, a property of the
    metaclass) and so does formatting the value; either may raise, and
    then the other fields are not looked at. *)
Record py_attr := PyAttr {
  attr_getattr_error : option exn;       (* what getattr(obj, name) raises *)
  attr_kind : py_kind;
  attr_module : option string;           (* __module__, when present *)
  attr_str_error : option exn;           (* what str(value) raises *)
  attr_str : string                      (* str(value) *)
}.

(** A parameter of a signature.  Comparing its annotation or its
    default with [Parameter.empty], and taking the truth value of the
    result, runs code of the value's class (the default may be an
    array, say) and may raise. *)
Record py_parameter := PyParameter {
  param_name : string;
  annotation : option string;            (* None: Parameter.empty *)
  default : option string;
  param_error : option exn               (* what the comparisons raise *)
}.

Record py_signature := PySignature {
  parameters : list py_parameter;
  return_annotation : option string;     (* None: Signature.empty *)
  return_error : option exn              (* what its comparison raises *)
}.

(** A live object: its kind, its dunder attributes and what the
    [inspect] functions return for it ([None] where they raise). *)
Record py_object := PyObject {
  kind : py_kind;
  dunder_name : option string;           (* __name__ *)
  dunder_module : option string;         (* __module__ *)
  getdoc : option string;
  getsourcelines : option (list string * nat);
  getsource : option string;
  signature : option py_signature;
  dir : list (string * py_attr)          (* dir(obj) with getattr *)
}.

Record py_module := PyModule {
  module_name : string;                  (* module.__name__ *)
  module_attrs : gmap string py_object
}.

(** The value passed as [source_code]: the annotation says [str], the
    relocation passes the list of requested names. *)
Inductive py_arg :=
| PyStr (s : string)
| PyStrList (l : list string).

(** The result dictionary of the analyzer ([list(set)] has no
    specified order, so the sets are kept). *)
Record dependencies := Dependencies {
  local : gset string;
  imported : gset (option string);
  stdlib : gset string
}.

(** Iterating a dictionary yields its keys. *)
Definition dependencies_keys (d : dependencies) : list string :=
  ["local"; "imported"; "stdlib"].

Inductive object_type := class_ | function_.

Record meta_data := MetaData {
  md_name : string;
  md_docstring : option string;
  md_orig_file : string;
  md_start_line : option nat;
  md_end_line : option nat;
  md_type : object_type;
  md_module : option string;
  md_source_code : option string;
  md_attributes : option (list (string * string));
  md_parameters : option (list py_parameter);
  md_signature : option py_signature;
  md_return_type : option (option string);
  md_dependencies : option dependencies
}.

(** Python dictionaries keep insertion order; assigning to a key that
    is present replaces its value in place. *)
Fixpoint dict_set {V} (k : string) (v : V) (d : list (string * V))
  : list (string * V) :=
  match d with
  | [] => [(k, v)]
  | (k', v') :: d' =>
      if String.eqb k k' then (k, v) :: d' else (k', v') :: dict_set k v d'
  end.

Fixpoint dict_get {V} (k : string) (d : list (string * V)) : option V :=
  match d with
  | [] => None
  | (k', v) :: d' => if String.eqb k k' then Some v else dict_get k d'
  end.

Definition dict_keys {V} (d : list (string * V)) : list string := map fst d.

(** *** get_primary_functions_and_classes_regex *)

(** Character classes of [re] on text, for the ASCII range. *)
Definition is_space (c : ascii) : bool :=
  let n := nat_of_ascii c in
  ((9 <=? n) && (n <=? 13) || (28 <=? n) && (n <=? 32))%nat.

Definition is_upper (c : ascii) : bool :=
  let n := nat_of_ascii c in ((65 <=? n) && (n <=? 90))%nat.

Definition is_lower (c : ascii) : bool :=
  let n := nat_of_ascii c in ((97 <=? n) && (n <=? 122))%nat.

Definition is_digit (c : ascii) : bool :=
  let n := nat_of_ascii c in ((48 <=? n) && (n <=? 57))%nat.

Definition is_word (c : ascii) : bool :=
  is_upper c || is_lower c || is_digit c || (nat_of_ascii c =? 95)%nat.

Fixpoint string_forallb (p : ascii -> bool) (s : string) : bool :=
  match s with
  | EmptyString => true
  | String c s' => p c && string_forallb p s'
  end.

Fixpoint string_existsb (p : ascii -> bool) (s : string) : bool :=
  match s with
  | EmptyString => false
  | String c s' => p c || string_existsb p s'
  end.

(** [str.islower()]: no cased character is uppercase and there is at
    least one cased character. *)
Definition islower (s : string) : bool :=
  string_forallb (fun c => negb (is_upper c)) s && string_existsb is_lower s.

(** The longest prefix of characters in a class, and the rest. *)
Fixpoint span (p : ascii -> bool) (s : string) : string * string :=
  match s with
  | EmptyString => (EmptyString, EmptyString)
  | String c s' =>
      if p c then let (a, b) := span p s' in (String c a, b)
      else (EmptyString, s)
  end.

Fixpoint strip_prefix (p s : string) : option string :=
  match p, s with
  | EmptyString, _ => Some s
  | String a p', String b s' =>
      if Ascii.eqb a b then strip_prefix p' s' else None
  | String _ _, EmptyString => None
  end.

(** One attempt of [(?:def|class)\s+(\w+)] at the head of [s]: the
    captured group and the length of the whole match.  The two greedy
    runs never need to give a character back, since no character is
    both a space and a word character. *)
Definition match_here (s : string) : option (string * nat) :=
  let keyword :=
    match strip_prefix "def" s with
    | Some r => Some (r, 3)
    | None =>
        match strip_prefix "class" s with
        | Some r => Some (r, 5)
        | None => None
        end
    end in
  match keyword with
  | None => None
  | Some (r, k) =>
      let (spaces, r') := span is_space r in
      let (name, _) := span is_word r' in
      match spaces, name with
      | EmptyString, _ => None
      | _, EmptyString => None
      | _, _ => Some (name, k + String.length spaces + String.length name)
      end
  end.

(** [re.findall(pattern, content, re.MULTILINE)]: attempts are made
    left to right; [^] holds at the start of the text and after a
    newline; after a match the scan resumes at its end ([skip] counts
    the characters of the last match still to pass). *)
Fixpoint findall_scan (content : string) (bol : bool) (skip : nat)
  : list string :=
  match content with
  | EmptyString => []
  | String c rest =>
      let bol' := Ascii.eqb c "010"%char in
      match skip with
      | S k => findall_scan rest bol' k
      | O =>
          match (if bol then match_here content else None) with
          | Some (name, len) => name :: findall_scan rest bol' (len - 1)
          | None => findall_scan rest bol' 0
          end
      end
  end.

Definition findall (content : string) : list string :=
  findall_scan content true 0.

(** The loop over the matches. *)
Definition classify_matches (matches : list string)
  : list string * list string :=
  fold_left
    (fun (acc : list string * list string) (m : string) =>
       let (functions, classes) := acc in
       if islower m then (functions ++ [m], classes)
       else (functions, classes ++ [m]))
    matches ([], []).

Definition get_primary_functions_and_classes_regex (file_path : string)
  : M (list string * list string) :=
  content <- read_file file_path ;;
  ret (classify_matches (findall content)).

(** *** The analyzer, the enumeration and the metadata extractor *)

Section Runtime.

(** [ast.parse(text)]: the tree, or the exception raised.  That is
    SyntaxError as a rule; for some texts it is another one (ValueError
    for a text with a NUL byte before Python 3.12). *)
Variable ast_parse : string -> exn + module_.
Variable stdlib_module_names : gset string.      (* sys.stdlib_module_names *)
Variable sys_modules : gmap string py_module.    (* sys.modules *)
Variable import_ : string -> exn + py_module.    (* __import__(name) *)
Variable stem : string -> string.                (* Path(file_path).stem *)
(** What formatting [{obj}] into a message raises, if anything: the
    [__str__] or [__repr__] of the object is code of the user's. *)
Variable format_error : py_object -> option exn.

(** [ast.parse(source)]: [compile] refuses what is not text. *)
Definition ast_parse_arg (source : py_arg) : exn + module_ :=
  match source with
  | PyStr s => ast_parse s
  | PyStrList _ => inl TypeError_compile_arg
  end.

(** The f-string of a message is evaluated before [print] is called. *)
Definition format_object (obj : py_object) : M unit :=
  match format_error obj with
  | Some e => raise e
  | None => ret tt
  end.

(** [stdlib.add(name) if name in sys.stdlib_module_names else
    imported.add(name)] *)
Definition add_module_dependency (name : option string) (d : dependencies)
  : dependencies :=
  match name with
  | Some n =>
      if bool_decide (n ∈ stdlib_module_names)
      then Dependencies (local d) (imported d) ({[n]} ∪ stdlib d)
      else Dependencies (local d) ({[Some n]} ∪ imported d) (stdlib d)
  | None => Dependencies (local d) ({[None]} ∪ imported d) (stdlib d)
  end.

(** The branch for [ast.Name] nodes in a [Load] context. *)
Definition resolve_name (obj : py_object) (id : string) (d : dependencies)
  : exn + dependencies :=
  match dunder_module obj with
  | Some m =>
      match sys_modules !! m with
      | Some module =>
          match module_attrs module !! id with
          | Some attr =>
              match kind attr with
              | KModule =>
                  match dunder_name attr with
                  | Some n => inr (add_module_dependency (Some n) d)
                  | None => inl (AttributeError "__name__")
                  end
              | KFunction | KClass =>
                  if bool_decide (dunder_module attr = Some (module_name module))
                  then inr (Dependencies ({[id]} ∪ local d) (imported d) (stdlib d))
                  else inr d
              | _ => inr d
              end
          | None => inr d
          end
      | None => inr d
      end
  | None =>
      match dict_get id (dir obj) with
      | Some attr =>
          match attr_getattr_error attr with
          | Some e => if is_attribute_error e then inr d else inl e
          | None =>
              if bool_decide (attr_module attr = Some "builtins")
              then inr (Dependencies (local d) (imported d)
                          ({[id]} ∪ stdlib d))
              else inr d
          end
      | None => inr d
      end
  end.

Definition visit (obj : py_object) (d : dependencies) (n : node)
  : exn + dependencies :=
  match n with
  | NStmt (Import names) =>
      inr (fold_left
             (fun d a => add_module_dependency (Some (alias_name a)) d)
             names d)
  | NStmt (ImportFrom module _ _) => inr (add_module_dependency module d)
  | NExpr (Name id Load) => resolve_name obj id d
  | _ => inr d
  end.

Fixpoint visit_all (obj : py_object) (ns : list node) (d : dependencies)
  : exn + dependencies :=
  match ns with
  | [] => inr d
  | n :: ns' =>
      match visit obj d n with
      | inl e => inl e
      | inr d' => visit_all obj ns' d'
      end
  end.

(** [except (SyntaxError, TypeError, AttributeError)] *)
Definition analyzer_catches (e : exn) : bool :=
  match e with
  | SyntaxError | SyntaxError_tagged _ | AttributeError _ => true
  | TypeError_compile_arg | TypeError_not_iterable
  | TypeError_unsupported_callable => true
  | _ => false
  end.

Definition get_object_dependencies (obj : py_object) (source_code : py_arg)
  : M (option dependencies) :=
  try_except
    (tree <- lift (ast_parse_arg source_code) ;;
     d <- lift (visit_all obj (walk (NModule tree)) (Dependencies ∅ ∅ ∅)) ;;
     ret (Some d))
    analyzer_catches
    (fun e => format_object obj ;;; print (DependencyError e) ;;; ret None).

(** One turn of the loop of [get_user_defined_objects]:
    [objects[node.name] = 'class' if isinstance(node, ast.ClassDef)
    else 'function'] for a ClassDef or FunctionDef node. *)
Definition record_def (objects : list (string * object_type)) (n : node)
  : list (string * object_type) :=
  match n with
  | NStmt (ClassDef _ _ name _ _ _) => dict_set name class_ objects
  | NStmt (FunctionDef _ _ name _ _ _) => dict_set name function_ objects
  | _ => objects
  end.

(** The loop over [ast.walk(tree)]. *)
Definition enumerate_objects (tree : module_) : list (string * object_type) :=
  fold_left record_def (walk (NModule tree)) [].

Definition hasattr_module (module : py_module) (name : string) : bool :=
  bool_decide (is_Some (module_attrs module !! name)).

Definition get_user_defined_objects (file_path : string)
  : M (list (string * object_type)) :=
  text <- read_file file_path ;;
  tree <- lift (ast_parse_arg (PyStr text)) ;;
  let objects := enumerate_objects tree in
  module <- lift (import_ (stem file_path)) ;;
  ret (List.filter (fun o => hasattr_module module (fst o)) objects).

Definition startswith_underscore (s : string) : bool :=
  match s with
  | String c _ => Ascii.eqb c "_"%char
  | EmptyString => false
  end.

(** One turn of the loop of [get_class_attributes]:
    [getattr(obj, attr_name, None)] gives None where the attribute
    raises AttributeError and lets every other exception through, and
    so does [str(attr_value)]. *)
Definition class_attribute (attributes : list (string * string))
    (a : string * py_attr) : exn + list (string * string) :=
  let (attr_name, attr_value) := a in
  if negb (startswith_underscore attr_name) then
    match attr_getattr_error attr_value with
    | Some e => if is_attribute_error e then inr attributes else inl e
    | None =>
        match attr_kind attr_value with
        | KNone | KMethod | KFunction => inr attributes
        | _ =>
            match attr_str_error attr_value with
            | Some e => inl e
            | None =>
                inr (dict_set attr_name (attr_str attr_value) attributes)
            end
        end
    end
  else inr attributes.

(** A loop that an exception leaves. *)
Fixpoint loop {S X} (body : S -> X -> exn + S) (xs : list X) (s : S)
  : exn + S :=
  match xs with
  | [] => inr s
  | x :: xs' =>
      match body s x with
      | inl e => inl e
      | inr s' => loop body xs' s'
      end
  end.

Definition get_class_attributes (obj : py_object)
  : exn + list (string * string) :=
  loop class_attribute (dir obj) [].

(** The loop of [get_function_parameters], inside its [try]: a
    ValueError or TypeError ends the loop and the parameters collected
    so far are returned; any other exception leaves the function. *)
Fixpoint collect_parameters (ps acc : list py_parameter)
  : exn + list py_parameter :=
  match ps with
  | [] => inr acc
  | p :: ps' =>
      match param_error p with
      | Some e => if is_value_or_type_error e then inr acc else inl e
      | None => collect_parameters ps' (acc ++ [p])
      end
  end.

Definition get_function_parameters (obj : py_object)
  : exn + list py_parameter :=
  match signature obj with
  | Some sig => collect_parameters (parameters sig) []
  | None => inr []
  end.

Definition get_function_return_type (obj : py_object)
  : exn + option string :=
  match signature obj with
  | Some sig =>
      match return_error sig with
      | Some e => if is_value_or_type_error e then inr None else inl e
      | None => inr (return_annotation sig)
      end
  | None => inr None
  end.

Definition get_object_metadata (obj : py_object) (file_path : string)
  : M meta_data :=
  name <- match dunder_name obj with
          | Some n => ret n
          | None => raise (AttributeError "__name__")
          end ;;
  let lines :=
    match getsourcelines obj with
    | Some (source_lines, start_line_number) =>
        (Some start_line_number,
         Some (start_line_number + length source_lines - 1))
    | None => (None, None)
    end in
  let type := match kind obj with KClass => class_ | _ => function_ end in
  attributes <- match kind obj with
                | KClass =>
                    attributes <- lift (get_class_attributes obj) ;;
                    ret (Some attributes)
                | _ => ret None
                end ;;
  (* parameters, arg_spec, signature, return_type *)
  function_ <- match kind obj with
               | KFunction =>
                   parameters <- lift (get_function_parameters obj) ;;
                   sig <- match signature obj with
                          | Some sig => ret sig
                          | None => raise TypeError_unsupported_callable
                          end ;;
                   return_type <- lift (get_function_return_type obj) ;;
                   ret (Some (parameters, sig, return_type))
               | _ => ret None
               end ;;
  deps <- match getsource obj with
          | Some (String c rest) =>
              get_object_dependencies obj (PyStr (String c rest))
          | _ => ret None
          end ;;
  ret (MetaData name (getdoc obj) file_path (fst lines) (snd lines) type
         (dunder_module obj) (getsource obj) attributes
         (option_map (fun f => fst (fst f)) function_)
         (option_map (fun f => snd (fst f)) function_)
         (option_map snd function_)
         deps).

(** [{key: all_objects[key] for key in obj_names if key in all_objects}] *)
Definition restrict_objects (obj_names : list string)
    (all_objects : list (string * object_type))
  : list (string * object_type) :=
  fold_left
    (fun d key =>
       match dict_get key all_objects with
       | Some v => dict_set key v d
       | None => d
       end)
    obj_names [].

Definition is_import_error (e : exn) : bool :=
  match e with ImportError _ => true | _ => false end.

(** One turn of the loop of [get_meta_data]. *)
Definition extract_one (module : py_module) (file_path : string)
    (meta_data_list : list meta_data) (item : string * object_type)
  : M (list meta_data) :=
  let obj_name := fst item in
  match module_attrs module !! obj_name with
  | None => print (ObjectNotFound obj_name) ;;; ret meta_data_list
  | Some obj =>
      match kind obj with
      | KMethod | KDescriptor => ret meta_data_list
      | _ =>
          try_except
            (meta <- get_object_metadata obj file_path ;;
             ret (meta_data_list ++ [meta]))
            (fun _ => true)
            (fun e => format_object obj ;;;
                      print (ProcessingError (dunder_name obj) e) ;;;
                      ret meta_data_list)
      end
  end.

(** [if obj_names: all_objects = {...}]: [None] and the empty list
    are false. *)
Definition select_objects (obj_names : option (list string))
    (all_objects : list (string * object_type))
  : list (string * object_type) :=
  match obj_names with
  | Some (n :: ns) => restrict_objects (n :: ns) all_objects
  | _ => all_objects
  end.

Definition get_meta_data (file_path : string) (obj_names : option (list string))
  : M (list meta_data) :=
  all_objects <- get_user_defined_objects file_path ;;
  let all_objects := select_objects obj_names all_objects in
  let module_name := stem file_path in
  module <- try_except (lift (import_ module_name)) is_import_error
              (fun e => raise (ImportError module_name)) ;;
  for_each (extract_one module file_path) all_objects [].

End Runtime.

End ReturnPyObjectInfo.

(** ** py_object_actions.py *)

Module PyObjectActions.
Import Ast ReturnPyObjectInfo.

Section Relocation.

Variable ast_parse : string -> exn + module_.    (* as in the analyzer *)
Variable ast_unparse : node -> string.
Variable stdlib_module_names : gset string.
Variable sys_modules : gmap string py_module.
Variable path_object : string -> py_object.      (* a resolved Path, live *)
(** What [open(path, 'w')] raises, if anything: FileNotFoundError for
    a missing directory, IsADirectoryError, PermissionError.  The
    program changes neither directories nor permissions. *)
Variable write_error : string -> option exn.

(** [with open(path, 'w') as f: f.write(text)] *)
Definition write_text (path text : string) : M unit :=
  match write_error path with
  | Some e => raise e
  | None => write_file path text
  end.

(** The local variables the loop of [move_objects] updates:
    [source_tree.body] and [dest_tree.body]. *)
Record trees := Trees { source_body : list stmt; dest_body : list stmt }.

(** [(isinstance(node, ast.FunctionDef) or isinstance(node, ast.ClassDef))
    and node.name == name] *)
Definition is_named_def (name : string) (node : stmt) : bool :=
  is_def node && String.eqb (stmt_name node) name.

(** Lines 20-28: the definitions named in [object_names], anywhere in
    the tree, and the import statements inside each of them. *)
Definition find_objects (object_names : list string) (source_tree : module_)
  : list stmt * list stmt :=
  fold_left
    (fun (acc : list stmt * list stmt) (n : node) =>
       let (object_nodes, import_nodes) := acc in
       match n with
       | NStmt s =>
           if is_def s && existsb (String.eqb (stmt_name s)) object_names
           then (object_nodes ++ [s],
                 import_nodes ++ List.filter is_import (stmts_of (walk (NStmt s))))
           else acc
       | _ => acc
       end)
    (walk (NModule source_tree)) ([], []).

(** Lines 30-32. *)
Definition check_found (object_names : list string) (object_nodes : list stmt)
    (source_file_path : string) : M unit :=
  if negb (length object_nodes =? length object_names)%nat then
    let missing_objects : gset string :=
      list_to_set object_names ∖ list_to_set (map stmt_name object_nodes) in
    raise (ValueError_not_found missing_objects source_file_path)
  else ret tt.

(** [if not any(ast.unparse(node) == ast.unparse(new) for node in body):
       body.insert(0, new)] *)
Definition insert_if_absent (body : list stmt) (new : stmt) : list stmt :=
  if existsb
       (fun node =>
          String.eqb (ast_unparse (NStmt node)) (ast_unparse (NStmt new)))
       body
  then body
  else new :: body.

(** [for dependency in unique_dependencies]: [None] is not iterable, a
    dictionary yields its keys. *)
Definition iterate (unique_dependencies : option dependencies)
  : M (list string) :=
  match unique_dependencies with
  | None => raise TypeError_not_iterable
  | Some d => ret (dependencies_keys d)
  end.

(** Lines 52-65; [None] is the [continue] of the 'skip' policy. *)
Definition resolve_conflict (handle_conflicts dest_file_path : string)
    (body : list stmt) (object_node : stmt)
  : M (option (stmt * list stmt)) :=
  let object_name := stmt_name object_node in
  if existsb (is_named_def object_name) body then
    if String.eqb handle_conflicts "rename" then
      let new_object_name := (object_name ++ "_moved")%string in
      print (Renamed object_name new_object_name) ;;;
      ret (Some (set_name new_object_name object_node, body))
    else if String.eqb handle_conflicts "overwrite" then
      ret (Some (object_node,
                 List.filter (fun node => negb (is_named_def object_name node)) body))
    else if String.eqb handle_conflicts "skip" then
      print (Skipping object_name dest_file_path) ;;;
      ret None
    else raise (ValueError_handle_conflicts handle_conflicts)
  else ret (Some (object_node, body)).

Fixpoint find_index (p : stmt -> bool) (l : list stmt) : option nat :=
  match l with
  | [] => None
  | x :: l' => if p x then Some 0 else option_map S (find_index p l')
  end.

(** [l.insert(i, x)] *)
Definition list_insert_at (i : nat) (x : stmt) (l : list stmt) : list stmt :=
  firstn i l ++ x :: skipn i l.

(** Lines 79-99.  The target is the first definition of the top level
    named [position]; [body.index(target_node)] is where it stands. *)
Definition place (position : option string) (dest_file_path : string)
    (body : list stmt) (object_node : stmt) : M (list stmt) :=
  match position with
  | None => ret (body ++ [object_node])
  | Some p =>
      if String.eqb p "bottom" then ret (body ++ [object_node])
      else if String.eqb p "top" then ret (object_node :: body)
      else
        match find_index (is_named_def p) body with
        | None =>
            print (TargetNotFound p dest_file_path) ;;;
            ret (body ++ [object_node])
        | Some target_index =>
            ret (list_insert_at (target_index + 1) object_node body)
        end
  end.

(** [l.remove(x)] on nodes: the first element that is [x]; [None]
    stands for the ValueError of a node that is not in the list. *)
Fixpoint list_remove (x : stmt) (l : list stmt) : option (list stmt) :=
  match l with
  | [] => None
  | y :: l' =>
      if same_node y x then Some l'
      else option_map (cons y) (list_remove x l')
  end.

(** The body of the loop over [object_nodes] (lines 47-103).  Python
    renames the node in place; here the renamed node is the one the
    rest of the turn uses, and the other holders of that node (the
    source tree, an enclosing definition placed in an earlier turn)
    keep the old name.  With [unique_dependencies] the [None] that
    [move_objects] passes, a turn that renames a node raises, so no
    renamed node reaches a file. *)
Definition process_object (unique_dependencies : option dependencies)
    (import_nodes : list stmt) (dest_file_path : string)
    (remove_from_source : bool) (position : option string)
    (handle_conflicts : string) (st : trees) (object_node : stmt) : M trees :=
  r <- resolve_conflict handle_conflicts dest_file_path (dest_body st)
         object_node ;;
  match r with
  | None => ret st
  | Some (object_node', body) =>
      let body := fold_left insert_if_absent import_nodes body in
      names <- iterate unique_dependencies ;;
      let body :=
        fold_left
          (fun b dependency =>
             insert_if_absent b (Import [Alias dependency None]))
          names body in
      body <- place position dest_file_path body object_node' ;;
      source <-
        (if remove_from_source then
           match list_remove object_node' (source_body st) with
           | Some l => ret l
           | None => raise ValueError_list_remove
           end
         else ret (source_body st)) ;;
      ret (Trees source body)
  end.

(** Lines 8-120, inside the [try]. Paths are taken as already resolved. *)
Definition move_objects_try (object_names : list string)
    (source_file_path dest_file_path : string) (remove_from_source : bool)
    (position : option string) (handle_conflicts : string) : M unit :=
  source_code <- read_file source_file_path ;;
  source_tree <- lift (ast_parse_arg ast_parse (PyStr source_code)) ;;
  let found := find_objects object_names source_tree in
  let object_nodes := fst found in
  let import_nodes := snd found in
  check_found object_names object_nodes source_file_path ;;;
  (* the object the analyzer formats into its message is the Path,
     whose [__str__] does not raise *)
  unique_dependencies <-
    get_object_dependencies ast_parse stdlib_module_names sys_modules
      (fun _ => None) (path_object source_file_path)
      (PyStrList object_names) ;;
  present <- is_file dest_file_path ;;
  dest_code <- (if (present : bool) then read_file dest_file_path else ret "") ;;
  dest_tree <- lift (ast_parse_arg ast_parse (PyStr dest_code)) ;;
  st <- for_each
          (process_object unique_dependencies import_nodes dest_file_path
             remove_from_source position handle_conflicts)
          object_nodes (Trees (body source_tree) (body dest_tree)) ;;
  write_text dest_file_path (ast_unparse (NModule (Module_ (dest_body st)))) ;;;
  (if remove_from_source
   then write_text source_file_path
          (ast_unparse (NModule (Module_ (source_body st))))
   else ret tt) ;;;
  print (MovedSuccessfully object_names source_file_path dest_file_path).

(** The three [except] clauses (lines 122-127). *)
Definition reraise (source_file_path : string) (e : exn) : exn :=
  match e with
  | FileNotFoundError f | FileNotFoundError_tagged f =>
      FileNotFoundError_tagged f
  | SyntaxError | SyntaxError_tagged _ => SyntaxError_tagged source_file_path
  | _ => Exception_ e
  end.

Definition move_objects (object_names : list string)
    (source_file_path dest_file_path : string) (remove_from_source : bool)
    (position : option string) (handle_conflicts : string) : M unit :=
  try_except
    (move_objects_try object_names source_file_path dest_file_path
       remove_from_source position handle_conflicts)
    (fun _ => true)
    (fun e => raise (reraise source_file_path e)).

End Relocation.

End PyObjectActions.

(** ** Concrete files for the examples

    The theorems below hold for every parser and serializer.  The
    examples run the program on small files; for them the parser is the
    table of the files' texts with their trees, and the serializer
    prints the tree subset the way [ast.unparse] does. *)

Module Scenario.
Import Ast ReturnPyObjectInfo PyObjectActions.

Definition nl : string := String "010"%char EmptyString.

Fixpoint join (sep : string) (l : list string) : string :=
  match l with
  | [] => ""
  | [x] => x
  | x :: l' => (x ++ sep ++ join sep l')%string
  end.

Fixpoint unparse_expr (e : expr) : string :=
  match e with
  | Name id _ => id
  | Constant value => value
  | Attribute value attr _ => (unparse_expr value ++ "." ++ attr)%string
  | Call func args =>
      (unparse_expr func ++ "(" ++ join ", " (map unparse_expr args) ++ ")")%string
  end.

Definition unparse_alias (a : alias) : string :=
  match asname a with
  | Some n => (alias_name a ++ " as " ++ n)%string
  | None => alias_name a
  end.

Fixpoint indentation (n : nat) : string :=
  match n with
  | O => ""
  | S n' => ("    " ++ indentation n')%string
  end.

(** The serializer appends to the text produced so far; a new line is
    started only when that text is not empty. *)
Definition maybe_newline (out : string) : string :=
  match out with
  | EmptyString => out
  | _ => (out ++ nl)%string
  end.

Definition fill (indent : nat) (out text : string) : string :=
  (maybe_newline out ++ indentation indent ++ text)%string.

Fixpoint unparse_stmt (indent : nat) (out : string) (s : stmt) : string :=
  match s with
  | FunctionDef _ _ name args body decorator_list =>
      let out := maybe_newline out in
      let out :=
        fold_left
          (fun o d => fill indent o ("@" ++ unparse_expr d)%string)
          decorator_list out in
      let out := fill indent out ("def " ++ name ++ "(" ++ join ", " args ++ "):")%string in
      fold_left (fun o b => unparse_stmt (S indent) o b) body out
  | ClassDef _ _ name bases body decorator_list =>
      let out := maybe_newline out in
      let out :=
        fold_left
          (fun o d => fill indent o ("@" ++ unparse_expr d)%string)
          decorator_list out in
      let header :=
        match bases with
        | [] => ("class " ++ name ++ ":")%string
        | _ => ("class " ++ name ++ "(" ++ join ", " (map unparse_expr bases) ++ "):")%string
        end in
      let out := fill indent out header in
      fold_left (fun o b => unparse_stmt (S indent) o b) body out
  | Return (Some value) => fill indent out ("return " ++ unparse_expr value)%string
  | Return None => fill indent out "return"
  | Assign targets value =>
      fill indent out
        (join " = " (map unparse_expr targets) ++ " = " ++ unparse_expr value)%string
  | Expr value => fill indent out (unparse_expr value)
  | Import names =>
      fill indent out ("import " ++ join ", " (map unparse_alias names))%string
  | ImportFrom module names level =>
      fill indent out
        ("from " ++ match module with Some m => m | None => "." end
           ++ " import " ++ join ", " (map unparse_alias names))%string
  | Pass => fill indent out "pass"
  end.

Definition unparse (n : node) : string :=
  match n with
  | NModule m => fold_left (fun o s => unparse_stmt 0 o s) (body m) ""
  | NStmt s => unparse_stmt 0 "" s
  | NExpr e => unparse_expr e
  end.

(** A parser given by the texts of the files at hand; every other
    text is a syntax error. *)
Definition parse_table (table : list (string * module_)) (text : string)
  : exn + module_ :=
  match dict_get text table with
  | Some tree => inr tree
  | None => inl SyntaxError
  end.

(** A path as a live object: an instance of a class of [pathlib]. *)
Definition path_object (p : string) : py_object :=
  PyObject KOther None (Some "pathlib") None None None None [].

Definition files_of (l : list (string * string)) : gmap string string :=
  list_to_map l.

Definition fresh (l : list (string * string)) : world :=
  World (files_of l) [] [].

(** Every path can be written. *)
Definition writable (path : string) : option exn := None.

(** A source file without write permission. *)
Definition read_only_source (path : string) : option exn :=
  if String.eqb path "src.py" then Some (PermissionError path) else None.

(** No directory [out]. *)
Definition no_such_directory (path : string) : option exn :=
  if String.prefix "out/" path then Some (FileNotFoundError path) else None.

(** Every object can be formatted. *)
Definition printable (obj : py_object) : option exn := None.

(** The relocation on a given parse table, with no module loaded. *)
Definition run (table : list (string * module_)) :=
  move_objects (parse_table table) unparse ∅ ∅ path_object writable.

(** [def foo(): return 1] and friends. *)
Definition def_ (lineno : nat) (name value : string) : stmt :=
  FunctionDef lineno 0 name [] [Return (Some (Constant value))] [].

Definition text_def (name value : string) : string :=
  ("def " ++ name ++ "(): return " ++ value)%string.

(** *** Files for the relocation *)

Definition foo_new : module_ := Module_ [def_ 1 "foo" "1"].
Definition foo_old : module_ := Module_ [def_ 1 "foo" "0"].
Definition bar_new : module_ := Module_ [def_ 1 "bar" "1"].
Definition baz_old : module_ := Module_ [def_ 1 "baz" "2"].
Definition a_old : module_ := Module_ [def_ 1 "a" "0"].

(** Two declarations of one name at the top level. *)
Definition two_foo_text : string :=
  (text_def "foo" "0" ++ nl ++ text_def "foo" "2")%string.

Definition two_foo : module_ := Module_ [def_ 1 "foo" "0"; def_ 2 "foo" "2"].

(** A function [a] and a class with a method of the same name. *)
Definition two_a_text : string :=
  ("def a(): return 1" ++ nl ++ "class K:" ++ nl
     ++ "    def a(self): return 2")%string.

Definition two_a : module_ :=
  Module_
    [def_ 1 "a" "1";
     ClassDef 2 0 "K" []
       [FunctionDef 3 4 "a" ["self"] [Return (Some (Constant "2"))] []] []].

(** The texts of the examples and their trees; the last two entries
    are serialized trees read back. *)
Definition table : list (string * module_) :=
  [("", Module_ []);
   (text_def "foo" "1", foo_new);
   (text_def "foo" "0", foo_old);
   (text_def "bar" "1", bar_new);
   (text_def "baz" "2", baz_old);
   (text_def "a" "0", a_old);
   (two_foo_text, two_foo);
   (two_a_text, two_a);
   (unparse (NModule foo_old), foo_old);
   (unparse (NModule two_foo), Module_ [def_ 1 "foo" "0"; def_ 4 "foo" "2"])].

Definition relocate := run table.

(** *** A module for the metadata extractor

    [m.py] defines [f], rebinds the name to the integer 3 and defines
    [g]; once loaded, [m.f] is a value without [__name__]. *)
Definition meta_text : string :=
  ("def f(): pass" ++ nl ++ "f = 3" ++ nl ++ "def g(): pass")%string.

Definition meta_tree : module_ :=
  Module_ [FunctionDef 1 0 "f" [] [Pass] [];
           Assign [Name "f" Store] (Constant "3");
           FunctionDef 3 0 "g" [] [Pass] []].

Definition meta_parse : string -> exn + module_ :=
  parse_table
    [(meta_text, meta_tree);
     ("def g(): pass", Module_ [FunctionDef 1 0 "g" [] [Pass] []])].

Definition live_three : py_object :=
  PyObject KOther None None None None None None [].

Definition live_g : py_object :=
  PyObject KFunction (Some "g") (Some "m") None
    (Some (["def g(): pass"], 3)) (Some "def g(): pass")
    (Some (PySignature [] None None)) [].

Definition live_m : py_module :=
  PyModule "m" (list_to_map [("f", live_three); ("g", live_g)]).

Definition meta_import (name : string) : exn + py_module :=
  if String.eqb name "m" then inr live_m else inl (ImportError name).

Definition meta_stem (file_path : string) : string :=
  if String.eqb file_path "m.py" then "m" else file_path.

Definition meta_modules : gmap string py_module := {[ "m" := live_m ]}.

End Scenario.

(** ** The words of the specification

    Predicates that follow the wording of the specification, to be
    compared with what the program computes. *)

Module Stated.
Import Ast ReturnPyObjectInfo PyObjectActions.

(** The declarations of a module's top scope, and their names. *)
Definition declarations (body : list stmt) : list stmt := List.filter is_def body.

Definition declaration_names (body : list stmt) : list string :=
  map stmt_name (declarations body).

(** "Defined directly in the module's top scope". *)
Definition top_level_name (tree : module_) (name : string) : Prop :=
  In name (declaration_names (body tree)).

(** "A name whose letters are all lowercase": every letter in it is a
    lowercase one. *)
Definition letters_all_lowercase (name : string) : bool :=
  string_forallb (fun c => implb (is_upper c || is_lower c) (is_lower c)) name.

(** The writes a run issued, and those that went to a given path. *)
Definition new_writes (w w' : world) : list (string * string) :=
  skipn (length (writes w)) (writes w').

Definition writes_to (path : string) (l : list (string * string))
  : list (string * string) :=
  List.filter (fun wr => String.eqb (fst wr) path) l.

(** A computation that only prints: it returns or raises the same way
    in every world and leaves the files alone. *)
Definition prints_only {A} (m : M A) (r : exn + A) (out : list notice) : Prop :=
  forall w, m w = (r, World (files w) (stdout w ++ out) (writes w)).

(** Weakest precondition of a computation: [P] holds of the value
    and the world when it returns, [Q] of the exception and the world
    when it raises. *)
Definition wp {A} (m : M A) (w : world)
    (P : A -> world -> Prop) (Q : exn -> world -> Prop) : Prop :=
  match m w with
  | (inr a, w') => P a w'
  | (inl e, w') => Q e w'
  end.

(** The text the relocation reads for the destination: the file's, or
    the empty text when there is no such file. *)
Definition dest_code_of (w : world) (dest_file_path : string) : string :=
  match files w !! dest_file_path with
  | Some text => text
  | None => ""
  end.

(** The conflict policy skips a node: the destination has a
    declaration of its name and the policy is 'skip'. *)
Definition skipped (handle_conflicts : string) (dest_body : list stmt)
    (node : stmt) : Prop :=
  existsb (is_named_def (stmt_name node)) dest_body = true
  /\ handle_conflicts = "skip".

(** A run that wrote nothing. *)
Definition untouched (w w' : world) : Prop :=
  files w' = files w /\ writes w' = writes w.

Section Returned.

Variable ast_parse : string -> exn + module_.
Variable ast_unparse : node -> string.

(** What a relocation that returns has done: both files parsed, as
    many definitions found as names requested, every one of them
    skipped, the destination tree written back and, on request, the
    source tree too. *)
Definition returned (object_names : list string)
    (source_file_path dest_file_path : string) (remove_from_source : bool)
    (handle_conflicts : string) (w w' : world) : Prop :=
  exists source_code source_tree dest_tree,
    files w !! source_file_path = Some source_code
    /\ ast_parse source_code = inr source_tree
    /\ ast_parse (dest_code_of w dest_file_path) = inr dest_tree
    /\ length (fst (find_objects object_names source_tree))
       = length object_names
    /\ Forall (skipped handle_conflicts (body dest_tree))
         (fst (find_objects object_names source_tree))
    /\ writes w'
       = writes w
           ++ (dest_file_path, ast_unparse (NModule dest_tree))
           :: (if remove_from_source
               then [(source_file_path, ast_unparse (NModule source_tree))]
               else [])
    /\ files w'
       = (if remove_from_source
          then <[source_file_path := ast_unparse (NModule source_tree)]>
                 (<[dest_file_path := ast_unparse (NModule dest_tree)]>
                    (files w))
          else <[dest_file_path := ast_unparse (NModule dest_tree)]>
                 (files w)).

End Returned.

Section Extraction.

Variable ast_parse : string -> exn + module_.
Variable stdlib_module_names : gset string.
Variable sys_modules : gmap string py_module.
Variable format_error : py_object -> option exn.

(** How the extraction of one object's metadata ends. *)
Definition metadata_outcome (obj : py_object) (file_path : string)
  : exn + meta_data :=
  fst (get_object_metadata ast_parse stdlib_module_names sys_modules
         format_error obj file_path (World ∅ [] [])).

(** What one enumerated name contributes to the returned list: the
    record of its object when the extraction returns one, nothing for
    a name without attribute, a method or descriptor, or an extraction
    that fails. *)
Definition contribution (module : py_module) (file_path : string)
    (item : string * object_type) : list meta_data :=
  match module_attrs module !! fst item with
  | Some obj =>
      match kind obj with
      | KMethod | KDescriptor => []
      | _ =>
          match metadata_outcome obj file_path with
          | inr meta => [meta]
          | inl _ => []
          end
      end
  | None => []
  end.

(** An object whose extraction is attempted and fails with [e]. *)
Definition extraction_fails (module : py_module) (file_path : string)
    (item : string * object_type) (obj : py_object) (e : exn) : Prop :=
  module_attrs module !! fst item = Some obj
  /\ kind obj <> KMethod /\ kind obj <> KDescriptor
  /\ metadata_outcome obj file_path = inl e.

(** What the notice of a failed extraction raises, if anything: the
    object is formatted into the message when its extraction has failed,
    and only then. *)
Definition notice_error (module : py_module) (file_path : string)
    (item : string * object_type) : option exn :=
  match module_attrs module !! fst item with
  | Some obj =>
      match kind obj with
      | KMethod | KDescriptor => None
      | _ =>
          match metadata_outcome obj file_path with
          | inl _ => format_error obj
          | inr _ => None
          end
      end
  | None => None
  end.

(** The first notice that raises, over the names of a batch. *)
Fixpoint first_notice_error (module : py_module) (file_path : string)
    (items : list (string * object_type)) : option exn :=
  match items with
  | [] => None
  | item :: items' =>
      match notice_error module file_path item with
      | Some e => Some e
      | None => first_notice_error module file_path items'
      end
  end.

End Extraction.

End Stated.

(** ** Further notions the properties are stated with *)

Module Observed.
Import Ast ReturnPyObjectInfo PyObjectActions Stated.

Section Classification.

Variable stdlib_module_names : gset string.
Variable sys_modules : gmap string py_module.

(** A name that the module owning [obj] binds to a function or class
    declared by that module. *)
Definition local_binding (obj : py_object) (id : string) : Prop :=
  exists m module attr,
    dunder_module obj = Some m
    /\ sys_modules !! m = Some module
    /\ module_attrs module !! id = Some attr
    /\ (kind attr = KFunction \/ kind attr = KClass)
    /\ dunder_module attr = Some (module_name module).

(** A name that an object without owning module binds to a value of the
    builtin namespace. *)
Definition builtin_attribute (obj : py_object) (id : string) : Prop :=
  dunder_module obj = None
  /\ exists attr,
       dict_get id (dir obj) = Some attr
       /\ attr_module attr = Some "builtins".

(** A module name is classified: among the standard-library names when
    the registry has it, among the imported ones otherwise (the absent
    module name of a relative import counts as not in the registry). *)
Definition module_classified (name : option string) (d : dependencies) : Prop :=
  match name with
  | Some n =>
      if bool_decide (n ∈ stdlib_module_names)
      then n ∈ stdlib d
      else Some n ∈ imported d
  | None => None ∈ imported d
  end.

(** What visiting an import statement establishes. *)
Definition import_classified (n : node) (d : dependencies) : Prop :=
  match n with
  | NStmt (Import names) =>
      forall a, In a names -> module_classified (Some (alias_name a)) d
  | NStmt (ImportFrom module _ _) => module_classified module d
  | _ => True
  end.

(** A name that the module owning [obj] binds to a module whose own
    name is [n]. *)
Definition module_binding (obj : py_object) (id n : string) : Prop :=
  exists m module attr,
    dunder_module obj = Some m
    /\ sys_modules !! m = Some module
    /\ module_attrs module !! id = Some attr
    /\ kind attr = KModule
    /\ dunder_name attr = Some n.

(** A name that an object without owning module binds, without
    raising, to a value of the builtin namespace. *)
Definition builtin_read (obj : py_object) (id : string) : Prop :=
  dunder_module obj = None
  /\ exists attr,
       dict_get id (dir obj) = Some attr
       /\ attr_getattr_error attr = None
       /\ attr_module attr = Some "builtins".

(** The module a node names: one of those an [import] statement
    lists, the one a [from ... import] statement takes from (None for a
    relative import without module), or the module that a name read is
    bound to. *)
Definition names_module (obj : py_object) (n : node) (x : option string)
  : Prop :=
  match n with
  | NStmt (Import names) => exists a, In a names /\ x = Some (alias_name a)
  | NStmt (ImportFrom module _ _) => x = module
  | NExpr (Name id Load) => exists m, x = Some m /\ module_binding obj id m
  | _ => False
  end.

Definition registered (x : option string) : Prop :=
  exists m, x = Some m /\ m ∈ stdlib_module_names.

(** The classification that a list of nodes calls for, and nothing
    more. *)
Definition exact_classification (obj : py_object) (ns : list node)
    (d : dependencies) : Prop :=
  (forall id,
      id ∈ local d
      <-> In (NExpr (Name id Load)) ns /\ local_binding obj id)
  /\ (forall x,
        x ∈ imported d
        <-> (exists n, In n ns /\ names_module obj n x) /\ ~ registered x)
  /\ (forall m,
        m ∈ stdlib d
        <-> ((exists n, In n ns /\ names_module obj n (Some m))
             /\ m ∈ stdlib_module_names)
            \/ (In (NExpr (Name m Load)) ns /\ builtin_read obj m)).

(** An exception that resolving the names read in a list of nodes
    raises: the AttributeError of a module value without [__name__],
    or what looking a name up on an object without owning module
    raises, an AttributeError apart. *)
Definition resolution_error (obj : py_object) (ns : list node) (e : exn)
  : Prop :=
  exists id,
    In (NExpr (Name id Load)) ns
    /\ ((exists m module attr,
            dunder_module obj = Some m
            /\ sys_modules !! m = Some module
            /\ module_attrs module !! id = Some attr
            /\ kind attr = KModule
            /\ dunder_name attr = None
            /\ e = AttributeError "__name__")
        \/ (dunder_module obj = None
            /\ exists attr,
                 dict_get id (dir obj) = Some attr
                 /\ attr_getattr_error attr = Some e
                 /\ is_attribute_error e = false)).

(** What every classification the analyzer builds satisfies. *)
Definition sound_classification (obj : py_object) (d : dependencies) : Prop :=
  (forall n, Some n ∈ imported d -> n ∉ stdlib_module_names)
  /\ (forall id, id ∈ local d -> local_binding obj id)
  /\ (forall n, n ∈ stdlib d ->
        n ∈ stdlib_module_names \/ builtin_attribute obj n).

End Classification.

Section Analyzer.

Variable ast_parse : string -> exn + module_.
Variable stdlib_module_names : gset string.
Variable sys_modules : gmap string py_module.

(** How the body of the analyzer's [try] ends: with the
    classification, or with the exception that parsing the source or
    resolving a name raises. *)
Definition analysis (obj : py_object) (source_code : py_arg)
  : exn + dependencies :=
  match ast_parse_arg ast_parse source_code with
  | inl e => inl e
  | inr tree =>
      visit_all stdlib_module_names sys_modules obj
        (walk (NModule tree)) (Dependencies ∅ ∅ ∅)
  end.

(** The exception, if any, that leaves the analyzer: the failure
    itself when the [except] clause does not name it, and otherwise
    what formatting the object into the message raises. *)
Definition analyzer_error (format_error : py_object -> option exn)
    (obj : py_object) (source_code : py_arg) : option exn :=
  match analysis obj source_code with
  | inr _ => None
  | inl e => if analyzer_catches e then format_error obj else Some e
  end.

End Analyzer.

(** The elements of a list in the order of their first occurrence:
    the order in which a dictionary holds keys assigned in turn. *)
Fixpoint first_occurrences (l : list string) : list string :=
  match l with
  | [] => []
  | x :: l' =>
      x :: List.filter (fun y => negb (String.eqb y x)) (first_occurrences l')
  end.

(** The places of a text where [^] holds under [re.MULTILINE], each
    given by the text from there on: the start, and after every
    newline. *)
Fixpoint after_newlines (s : string) : list string :=
  match s with
  | EmptyString => []
  | String c rest =>
      if Ascii.eqb c "010"%char then rest :: after_newlines rest
      else after_newlines rest
  end.

Definition line_starts (s : string) : list string := s :: after_newlines s.

(** The kinds of the definitions of a name among a list of nodes, in
    the order of the list. *)
Definition definitions_of (name : string) (ns : list node)
  : list object_type :=
  flat_map
    (fun n =>
       match n with
       | NStmt (ClassDef _ _ name' _ _ _) =>
           if String.eqb name' name then [class_] else []
       | NStmt (FunctionDef _ _ name' _ _ _) =>
           if String.eqb name' name then [function_] else []
       | _ => []
       end)
    ns.

Definition last_of {A} (l : list A) : option A :=
  match rev l with
  | [] => None
  | x :: _ => Some x
  end.

(** An attribute that [get_class_attributes] lists: public, read
    without AttributeError, and a value that is not None, a method or
    a function. *)
Definition data_attribute (a : string * py_attr) : bool :=
  negb (startswith_underscore (fst a))
  && match attr_getattr_error (snd a) with
     | Some _ => false
     | None =>
         match attr_kind (snd a) with
         | KNone | KMethod | KFunction => false
         | _ => true
         end
     end.

(** The characters of ASCII, on which the character classes of the
    model are those of [re] and [str]. *)
Definition is_ascii (c : ascii) : bool := (nat_of_ascii c <? 128)%nat.

(** A call that returns. *)
Definition returns {A} (r : exn + A) : Prop := exists a, r = inr a.

(** One list starts another. *)
Definition starts {A} (l l' : list A) : Prop := exists rest, l' = l ++ rest.

Section Relocated.

Variable ast_unparse : node -> string.

(** The world a run ends in when both files parse, the counts agree and
    every definition found is skipped. *)
Definition skipped_batch_world (object_names : list string)
    (source_file_path dest_file_path : string) (remove_from_source : bool)
    (source_tree dest_tree : module_) (w : world) : world :=
  World
    (if remove_from_source
     then <[source_file_path := ast_unparse (NModule source_tree)]>
            (<[dest_file_path := ast_unparse (NModule dest_tree)]> (files w))
     else <[dest_file_path := ast_unparse (NModule dest_tree)]> (files w))
    (stdout w
       ++ [DependencyError TypeError_compile_arg]
       ++ map (fun n => Skipping (stmt_name n) dest_file_path)
            (fst (find_objects object_names source_tree))
       ++ [MovedSuccessfully object_names source_file_path dest_file_path])
    (writes w
       ++ (dest_file_path, ast_unparse (NModule dest_tree))
       :: (if remove_from_source
           then [(source_file_path, ast_unparse (NModule source_tree))]
           else [])).

End Relocated.

(** What a relocation that raises has done to the files: nothing, or,
    when the source was to be written back and could not be opened,
    the one write of the destination. *)
Definition interrupted (write_error : string -> option exn)
    (source_file_path dest_file_path : string) (remove_from_source : bool)
    (w w' : world) : Prop :=
  untouched w w'
  \/ (remove_from_source = true
      /\ is_Some (write_error source_file_path)
      /\ write_error dest_file_path = None
      /\ exists text,
           writes w' = writes w ++ [(dest_file_path, text)]
           /\ files w' = <[dest_file_path := text]> (files w)).

(** One classification holds everything another does. *)
Definition classification_le (d d' : dependencies) : Prop :=
  local d ⊆ local d' /\ imported d ⊆ imported d' /\ stdlib d ⊆ stdlib d'.

End Observed.

(** ** Concrete inputs for the analyzer and the extractor *)

Module Samples.
Import Ast ReturnPyObjectInfo Scenario.

(** A function body that imports a standard-library module, a
    third-party module and a sibling by a relative import, and calls a
    function of its own module. *)
Definition deps_text : string :=
  ("import os" ++ nl ++ "import numpy" ++ nl ++ "from . import x" ++ nl
     ++ "h()")%string.

Definition deps_tree : module_ :=
  Module_ [Import [Alias "os" None];
           Import [Alias "numpy" None];
           ImportFrom None [Alias "x" None] 1;
           Expr (Call (Name "h" Load) [])].

Definition deps_parse : string -> exn + module_ :=
  parse_table [(deps_text, deps_tree)].

Definition deps_registry : gset string := {[ "os" ]}.

Definition live_h : py_object :=
  PyObject KFunction (Some "h") (Some "pkg") None None (Some deps_text)
    (Some (PySignature [] None None)) [].

Definition deps_module : py_module :=
  PyModule "pkg" (list_to_map [("h", live_h)]).

Definition deps_modules : gmap string py_module := {[ "pkg" := deps_module ]}.

Definition deps_result : dependencies :=
  Dependencies {[ "h" ]} {[ None; Some "numpy" ]} {[ "os" ]}.

(** [m.py] where the name [f] is rebound to a value that cannot be
    printed:
<<
def f(): pass
f = type('W', (), {'__repr__': lambda self: 1/0})()
def g(): pass
>>
    The tuple, the dictionary and the lambda of the second line hold
    no definition and no name that matters here; the tree has them as
    constants. *)
Definition broken_text : string :=
  ("def f(): pass" ++ nl
     ++ "f = type('W', (), {'__repr__': lambda self: 1/0})()" ++ nl
     ++ "def g(): pass")%string.

Definition broken_tree : module_ :=
  Module_ [FunctionDef 1 0 "f" [] [Pass] [];
           Assign [Name "f" Store]
             (Call (Call (Name "type" Load)
                      [Constant "'W'"; Constant "()";
                       Constant "{'__repr__': lambda self: 1/0}"]) []);
           FunctionDef 3 0 "g" [] [Pass] []].

Definition broken_parse : string -> exn + module_ :=
  parse_table
    [(broken_text, broken_tree);
     ("def g(): pass", Module_ [FunctionDef 1 0 "g" [] [Pass] []])].

(** The instance of [W]: it has no [__name__]. *)
Definition live_w : py_object :=
  PyObject KOther None (Some "m") None None None None [].

Definition broken_m : py_module :=
  PyModule "m" (list_to_map [("f", live_w); ("g", live_g)]).

Definition broken_import (name : string) : exn + py_module :=
  if String.eqb name "m" then inr broken_m else inl (ImportError name).

Definition broken_modules : gmap string py_module := {[ "m" := broken_m ]}.

(** Formatting the instance of [W] runs its [__repr__]; among the
    values of that module it is the one without [__name__]. *)
Definition unprintable (obj : py_object) : option exn :=
  match dunder_name obj with
  | None => Some ZeroDivisionError
  | Some _ => None
  end.

(** [def k(a, b=numpy.zeros(2), c=0): pass], typed at the prompt (no
    source file to find): comparing the default of [b] with
    [Parameter.empty] gives an array, whose truth value raises
    ValueError. *)
Definition signature_k : py_signature :=
  PySignature
    [PyParameter "a" None None None;
     PyParameter "b" None None
       (Some (ValueError_ "The truth value of an array is ambiguous"));
     PyParameter "c" None (Some "0") None]
    None None.

Definition live_k : py_object :=
  PyObject KFunction (Some "k") (Some "m") None None None
    (Some signature_k) [].

Definition record_k : meta_data :=
  MetaData "k" None "m.py" None None function_ (Some "m") None None
    (Some [PyParameter "a" None None None]) (Some signature_k) (Some None)
    None.

(** [class C: x = 1; _p = 2; def run(self): ...] *)
Definition live_class : py_object :=
  PyObject KClass (Some "C") (Some "m") None None None None
    [("_p", PyAttr None KOther None None "2");
     ("run", PyAttr None KFunction (Some "m") None "<function C.run>");
     ("x", PyAttr None KOther None None "1")].

(** The record of the function [g] of [m.py]. *)
Definition record_g : meta_data :=
  MetaData "g" None "m.py" (Some 3) (Some 3) function_ (Some "m")
    (Some "def g(): pass") None (Some []) (Some (PySignature [] None None))
    (Some None) (Some (Dependencies ∅ ∅ ∅)).

End Samples.

(** ** return_py_object_info.py: the comparison of the two enumerators *)

Module Comparison.
Import Ast ReturnPyObjectInfo.

(** The values [set(...)] is asked to hash in this function: strings
    and lists of strings. *)
Inductive py_value :=
| VStr (s : string)
| VList (l : list string).

(** What the function can raise: what its callees raise, and the
    TypeError of hashing a list (unhashable type: 'list'). *)
Inductive comparison_exn :=
| Raised (e : exn)
| TypeError_unhashable_list.

(** [set(iterable)]: the elements are hashed one after the other. *)
Fixpoint py_set (values : list py_value) (acc : gset string)
  : comparison_exn + gset string :=
  match values with
  | [] => inr acc
  | VStr s :: values' => py_set values' ({[s]} ∪ acc)
  | VList _ :: _ => inl TypeError_unhashable_list
  end.

Record comparison := Comparison {
  missing_in_get_meta_data : gset string;
  missing_in_regex : gset string
}.

Section Runtime.

Variable ast_parse : string -> exn + module_.
Variable stdlib_module_names : gset string.
Variable sys_modules : gmap string py_module.
Variable import_ : string -> exn + py_module.
Variable stem : string -> string.
Variable format_error : py_object -> option exn.

Definition missing_funcs_in_get_meta_data (filepath : string) (w : world)
  : (comparison_exn + comparison) * world :=
  match get_meta_data ast_parse stdlib_module_names sys_modules import_ stem
          format_error filepath None w with
  | (inl e, w1) => (inl (Raised e), w1)
  | (inr items, w1) =>
      match py_set (map (fun item => VStr (md_name item)) items) ∅ with
      | inl e => (inl e, w1)
      | inr meta_data_funcs =>
          match get_primary_functions_and_classes_regex filepath w1 with
          | (inl e, w2) => (inl (Raised e), w2)
          | (inr (functions, classes), w2) =>
              (* a tuple of two lists *)
              match py_set [VList functions; VList classes] ∅ with
              | inl e => (inl e, w2)
              | inr regex_funcs =>
                  (inr (Comparison (regex_funcs ∖ meta_data_funcs)
                          (meta_data_funcs ∖ regex_funcs)), w2)
              end
          end
      end
  end.

End Runtime.

End Comparison.

(** * Properties *)

(** ** The tree walk *)

Module AstFacts.
Import Ast.

Lemma flat_map_preorder_stmt (l : list stmt) :
  flat_map preorder (map NStmt l) = flat_map preorder_stmt l.
Proof. induction l as [|s l IH]; simpl; [reflexivity | now rewrite IH]. Qed.

Lemma flat_map_preorder_expr (l : list expr) :
  flat_map preorder (map NExpr l) = flat_map preorder_expr l.
Proof. induction l as [|e l IH]; simpl; [reflexivity | now rewrite IH]. Qed.

(** A node comes first, then the nodes of its children. *)
Lemma preorder_unfold (n : node) :
  preorder n = n :: flat_map preorder (iter_child_nodes n).
Proof.
  destruct n as [m | s | e]; simpl.
  - now rewrite flat_map_preorder_stmt.
  - destruct s as [l c nm a b d | l c nm bs b d | [v|] | ts v | v | | | ];
      simpl; rewrite ?flat_map_app, ?flat_map_preorder_stmt,
               ?flat_map_preorder_expr; simpl; rewrite ?app_nil_r;
      reflexivity.
  - destruct e as [i c | v | v a c | f a]; simpl;
      rewrite ?flat_map_preorder_expr, ?app_nil_r; reflexivity.
Qed.

Lemma preorder_nonempty (n : node) : 1 <= length (preorder n).
Proof. rewrite preorder_unfold; simpl; lia. Qed.

(** With fuel for every node still reachable from the queue, the loop
    yields those nodes, each once: it never stops short. *)
Lemma walk_loop_perm (fuel : nat) :
  forall todo : list node,
    length (flat_map preorder todo) <= fuel ->
    Permutation (walk_loop fuel todo) (flat_map preorder todo).
Proof.
  induction fuel as [|fuel IH]; intros [|n rest] Hlen; simpl in *;
    try apply perm_nil.
  - pose proof (preorder_nonempty n). rewrite length_app in Hlen. lia.
  - rewrite (preorder_unfold n) in *. simpl in *. apply perm_skip.
    rewrite length_app in Hlen.
    etransitivity; [apply IH | ].
    + rewrite flat_map_app, length_app. lia.
    + rewrite flat_map_app. apply Permutation_app_comm.
Qed.

Lemma walk_perm (n : node) : Permutation (walk n) (preorder n).
Proof.
  unfold walk, node_size.
  etransitivity; [apply walk_loop_perm | ]; simpl; rewrite app_nil_r;
    reflexivity.
Qed.

Lemma walk_In (n x : node) : In x (walk n) <-> In x (preorder n).
Proof.
  split; apply Permutation_in; [ | symmetry ]; apply walk_perm.
Qed.

End AstFacts.

(** ** The regex enumerator *)

Module RegexFacts.
Import Ast ReturnPyObjectInfo Stated.

Lemma classify_matches_acc (l functions classes : list string) :
  fold_left
    (fun (acc : list string * list string) (m : string) =>
       let (functions, classes) := acc in
       if islower m then (functions ++ [m], classes)
       else (functions, classes ++ [m]))
    l (functions, classes)
  = (functions ++ List.filter islower l,
     classes ++ List.filter (fun m => negb (islower m)) l).
Proof.
  revert functions classes.
  induction l as [|m l IH]; intros functions classes; simpl.
  - now rewrite !app_nil_r.
  - destruct (islower m); simpl; rewrite IH, <- app_assoc; reflexivity.
Qed.

Lemma classify_matches_partition (l : list string) :
  classify_matches l
  = (List.filter islower l, List.filter (fun m => negb (islower m)) l).
Proof. unfold classify_matches. now rewrite classify_matches_acc. Qed.




End RegexFacts.

(** ** The static enumeration of the metadata extractor *)

Module EnumerationFacts.
Import Ast ReturnPyObjectInfo Stated AstFacts.

Lemma dict_set_keys {V} (k k' : string) (v : V) (d : list (string * V)) :
  In k' (dict_keys (dict_set k v d)) <-> k' = k \/ In k' (dict_keys d).
Proof.
  unfold dict_keys.
  induction d as [|[k0 v0] d IH]; simpl.
  - intuition.
  - destruct (String.eqb_spec k k0) as [-> | Hne]; simpl.
    + intuition.
    + rewrite IH. intuition.
Qed.

Lemma record_def_keys (objects : list (string * object_type)) (n : node)
    (name : string) :
  In name (dict_keys (record_def objects n))
  <-> In name (dict_keys objects)
      \/ exists s, n = NStmt s /\ is_def s = true /\ stmt_name s = name.
Proof.
  destruct n as [m | s | e]; simpl.
  - split; [auto | intros [H | (s & H & _)]; [auto | discriminate]].
  - destruct s; simpl;
      try (split; [auto | intros [H | (s & H & Hd & _)];
                          [auto | injection H as <-; discriminate]]);
      rewrite dict_set_keys; split.
    + intros [-> | H]; [right | auto]. eexists; repeat split; reflexivity.
    + intros [H | (s & H & _ & Hn)]; [auto | ].
      injection H as <-. simpl in Hn. auto.
    + intros [-> | H]; [right | auto]. eexists; repeat split; reflexivity.
    + intros [H | (s & H & _ & Hn)]; [auto | ].
      injection H as <-. simpl in Hn. auto.
  - split; [auto | intros [H | (s & H & _)]; [auto | discriminate]].
Qed.

Lemma fold_record_def_keys (l : list node) :
  forall (objects : list (string * object_type)) (name : string),
    In name (dict_keys (fold_left record_def l objects))
    <-> In name (dict_keys objects)
        \/ exists s, In (NStmt s) l /\ is_def s = true /\ stmt_name s = name.
Proof.
  induction l as [|n l IH]; intros objects name; simpl.
  - split; [auto | intros [H | (s & [] & _)]; auto].
  - rewrite IH, record_def_keys. split.
    + intros [[H | (s & -> & Hd & Hn)] | (s & Hin & Hd & Hn)]; eauto 7.
    + intros [H | (s & [-> | Hin] & Hd & Hn)]; eauto 7.
Qed.

(** C7, as the code has it: the static step of the metadata extractor
    walks the whole tree, so it collects exactly the names of the
    function and class definitions that occur anywhere in the file's
    tree, directly in the module's top scope or nested at any depth
    inside other functions and classes. *)
Theorem static_enumeration_collects_every_depth
    (tree : module_) (name : string) :
  In name (dict_keys (enumerate_objects tree))
  <-> exists s, In (NStmt s) (preorder (NModule tree))
                /\ is_def s = true /\ stmt_name s = name.
Proof.
  unfold enumerate_objects.
  rewrite fold_record_def_keys. split.
  - intros [[] | (s & Hin & H)]. exists s. split; [ | exact H].
    now apply walk_In.
  - intros (s & Hin & H). right. exists s. split; [ | exact H].
    now apply walk_In.
Qed.

(** C7 as stated fails: the method [m] of a class [A] is enumerated,
    and it is not defined in the module's top scope. *)
Lemma static_enumeration_nested_counterexample :
  ~ (forall tree name,
       In name (dict_keys (enumerate_objects tree)) ->
       top_level_name tree name).
Proof.
  intros H.
  specialize
    (H (Module_ [ClassDef 1 0 "A" []
                   [FunctionDef 2 4 "m" ["self"] [Pass] []] []]) "m").
  vm_compute in H.
  destruct H as [H | []]; [right; left; reflexivity | discriminate].
Qed.

Section Runtime.

Variable ast_parse : string -> exn + module_.
Variable import_ : string -> exn + py_module.
Variable stem : string -> string.

(** The names returned are the enumerated ones that the loaded module
    has an attribute for. *)
Lemma get_user_defined_objects_result
    (file_path text : string) (tree : module_) (module : py_module)
    (w : world) :
  files w !! file_path = Some text ->
  ast_parse text = inr tree ->
  import_ (stem file_path) = inr module ->
  get_user_defined_objects ast_parse import_ stem file_path w
  = (inr (List.filter (fun o => hasattr_module module (fst o))
            (enumerate_objects tree)), w).
Proof.
  intros Hread Hparse Himport.
  unfold get_user_defined_objects, bind, read_file, lift, ast_parse_arg.
  rewrite Hread, Hparse. simpl. rewrite Himport. reflexivity.
Qed.

End Runtime.

End EnumerationFacts.

(** ** Computations that only print *)

Module EffectFacts.
Import Stated.

Lemma world_eta (w : world) : World (files w) (stdout w ++ []) (writes w) = w.
Proof. destruct w; simpl; now rewrite app_nil_r. Qed.

Lemma prints_only_ret {A} (a : A) : prints_only (ret a) (inr a) [].
Proof. intros w. unfold ret. now rewrite world_eta. Qed.

Lemma prints_only_raise {A} (e : exn) : prints_only (@raise A e) (inl e) [].
Proof. intros w. unfold raise. now rewrite world_eta. Qed.

Lemma prints_only_lift {A} (r : exn + A) : prints_only (lift r) r [].
Proof.
  destruct r; [apply prints_only_raise | apply prints_only_ret].
Qed.

Lemma prints_only_print (n : notice) : prints_only (print n) (inr tt) [n].
Proof. intros w. reflexivity. Qed.

Lemma prints_only_bind_raise {A B} (m : M A) (k : A -> M B) e out :
  prints_only m (inl e) out -> prints_only (bind m k) (inl e) out.
Proof. intros Hm w. unfold bind. now rewrite Hm. Qed.

Lemma prints_only_bind {A B} (m : M A) (k : A -> M B) a out r out' :
  prints_only m (inr a) out -> prints_only (k a) r out' ->
  prints_only (bind m k) r (out ++ out').
Proof.
  intros Hm Hk w. unfold bind. rewrite Hm, Hk. simpl. now rewrite app_assoc.
Qed.

Lemma prints_only_try_ok {A} (m : M A) classes h a out :
  prints_only m (inr a) out -> prints_only (try_except m classes h) (inr a) out.
Proof. intros Hm w. unfold try_except. now rewrite Hm. Qed.

Lemma prints_only_try_caught {A} (m : M A) classes h e out r out' :
  prints_only m (inl e) out -> classes e = true -> prints_only (h e) r out' ->
  prints_only (try_except m classes h) r (out ++ out').
Proof.
  intros Hm Hc Hh w. unfold try_except. rewrite Hm, Hc, Hh. simpl.
  now rewrite app_assoc.
Qed.

Lemma prints_only_try_uncaught {A} (m : M A) classes h e out :
  prints_only m (inl e) out -> classes e = false ->
  prints_only (try_except m classes h) (inl e) out.
Proof. intros Hm Hc w. unfold try_except. now rewrite Hm, Hc. Qed.

(** Computations that only print are closed under sequencing and
    handlers. *)
Lemma printing_bind {A B} (m : M A) (k : A -> M B) :
  (exists r out, prints_only m r out) ->
  (forall a, exists r out, prints_only (k a) r out) ->
  exists r out, prints_only (bind m k) r out.
Proof.
  intros ([e | a] & out & Hm) Hk.
  - do 2 eexists. apply prints_only_bind_raise. eassumption.
  - destruct (Hk a) as (r & out' & Hka).
    do 2 eexists. eapply prints_only_bind; eassumption.
Qed.

Lemma printing_try {A} (m : M A) (classes : exn -> bool) (h : exn -> M A) :
  (exists r out, prints_only m r out) ->
  (forall e, exists r out, prints_only (h e) r out) ->
  exists r out, prints_only (try_except m classes h) r out.
Proof.
  intros ([e | a] & out & Hm) Hh.
  - destruct (classes e) eqn:Hc.
    + destruct (Hh e) as (r & out' & He).
      do 2 eexists. eapply prints_only_try_caught; eassumption.
    + do 2 eexists. eapply prints_only_try_uncaught; eassumption.
  - do 2 eexists. apply prints_only_try_ok. eassumption.
Qed.

Lemma printing_ret {A} (a : A) : exists r out, prints_only (ret a) r out.
Proof. do 2 eexists. apply prints_only_ret. Qed.

Lemma printing_raise {A} (e : exn) :
  exists r out, prints_only (@raise A e) r out.
Proof. do 2 eexists. apply prints_only_raise. Qed.

Lemma printing_lift {A} (x : exn + A) :
  exists r out, prints_only (lift x) r out.
Proof. do 2 eexists. apply prints_only_lift. Qed.

Lemma printing_print (n : notice) : exists r out, prints_only (print n) r out.
Proof. do 2 eexists. apply prints_only_print. Qed.

Lemma wp_bind {A B} (m : M A) (k : A -> M B) (w : world)
    (P : B -> world -> Prop) (Q : exn -> world -> Prop) :
  wp m w (fun a w' => wp (k a) w' P Q) Q -> wp (bind m k) w P Q.
Proof. unfold wp, bind. destruct (m w) as [[e | a] w']; auto. Qed.

Lemma wp_ret {A} (a : A) (w : world)
    (P : A -> world -> Prop) (Q : exn -> world -> Prop) :
  P a w -> wp (ret a) w P Q.
Proof. auto. Qed.

Lemma wp_raise {A} (e : exn) (w : world)
    (P : A -> world -> Prop) (Q : exn -> world -> Prop) :
  Q e w -> wp (raise e) w P Q.
Proof. auto. Qed.

Lemma wp_lift {A} (r : exn + A) (w : world)
    (P : A -> world -> Prop) (Q : exn -> world -> Prop) :
  match r with inr a => P a w | inl e => Q e w end -> wp (lift r) w P Q.
Proof. destruct r; auto. Qed.

Lemma wp_prints_only {A} (m : M A) (r : exn + A) (out : list notice)
    (w : world) (P : A -> world -> Prop) (Q : exn -> world -> Prop) :
  prints_only m r out ->
  match r with
  | inr a => P a (World (files w) (stdout w ++ out) (writes w))
  | inl e => Q e (World (files w) (stdout w ++ out) (writes w))
  end ->
  wp m w P Q.
Proof. intros Hm H. unfold wp. rewrite Hm. destruct r; auto. Qed.

Lemma wp_read_file (path : string) (w : world)
    (P : string -> world -> Prop) (Q : exn -> world -> Prop) :
  match files w !! path with
  | Some text => P text w
  | None => Q (FileNotFoundError path) w
  end ->
  wp (read_file path) w P Q.
Proof. unfold wp, read_file. destruct (files w !! path); auto. Qed.

Lemma wp_is_file (path : string) (w : world)
    (P : bool -> world -> Prop) (Q : exn -> world -> Prop) :
  P (bool_decide (is_Some (files w !! path))) w -> wp (is_file path) w P Q.
Proof. auto. Qed.

Lemma wp_write_file (path text : string) (w : world)
    (P : unit -> world -> Prop) (Q : exn -> world -> Prop) :
  P tt (World (<[path := text]> (files w)) (stdout w)
          (writes w ++ [(path, text)])) ->
  wp (write_file path text) w P Q.
Proof. auto. Qed.

Lemma wp_print (n : notice) (w : world)
    (P : unit -> world -> Prop) (Q : exn -> world -> Prop) :
  P tt (World (files w) (stdout w ++ [n]) (writes w)) -> wp (print n) w P Q.
Proof. auto. Qed.

Lemma wp_try_except {A} (m : M A) (classes : exn -> bool) (h : exn -> M A)
    (w : world) (P : A -> world -> Prop) (Q : exn -> world -> Prop) :
  wp m w P (fun e w' => if classes e then wp (h e) w' P Q else Q e w') ->
  wp (try_except m classes h) w P Q.
Proof.
  unfold wp, try_except. destruct (m w) as [[e | a] w']; auto.
  destruct (classes e); auto.
Qed.

Lemma wp_consequence {A} (m : M A) (w : world)
    (P P' : A -> world -> Prop) (Q Q' : exn -> world -> Prop) :
  wp m w P Q ->
  (forall a w', P a w' -> P' a w') -> (forall e w', Q e w' -> Q' e w') ->
  wp m w P' Q'.
Proof. unfold wp. destruct (m w) as [[e | a] w']; auto. Qed.

(** The destination is read when it is a file, and is empty text
    otherwise. *)
Lemma wp_read_dest (dest_file_path : string) (w : world)
    (P : string -> world -> Prop) (Q : exn -> world -> Prop) :
  P (dest_code_of w dest_file_path) w ->
  wp (if bool_decide (is_Some (files w !! dest_file_path))
      then read_file dest_file_path else ret "") w P Q.
Proof.
  unfold dest_code_of. intros H.
  destruct (files w !! dest_file_path) as [text | ] eqn:Hd.
  - rewrite bool_decide_eq_true_2 by eauto.
    apply wp_read_file. now rewrite Hd.
  - rewrite bool_decide_eq_false_2 by (intros [? ?]; discriminate).
    now apply wp_ret.
Qed.

End EffectFacts.

(** ** The metadata batch *)

Module ExtractionFacts.
Import Ast ReturnPyObjectInfo Stated Observed EffectFacts.

Section Runtime.

Variable ast_parse : string -> exn + module_.
Variable stdlib_module_names : gset string.
Variable sys_modules : gmap string py_module.
Variable import_ : string -> exn + py_module.
Variable stem : string -> string.
Variable format_error : py_object -> option exn.

Local Abbreviation analyzer :=
  (get_object_dependencies ast_parse stdlib_module_names sys_modules
     format_error).
Local Abbreviation analysed :=
  (analysis ast_parse stdlib_module_names sys_modules).
Local Abbreviation extractor :=
  (get_object_metadata ast_parse stdlib_module_names sys_modules
     format_error).
Local Abbreviation outcome :=
  (metadata_outcome ast_parse stdlib_module_names sys_modules format_error).
Local Abbreviation contributes :=
  (contribution ast_parse stdlib_module_names sys_modules format_error).
Local Abbreviation fails :=
  (extraction_fails ast_parse stdlib_module_names sys_modules format_error).
Local Abbreviation notice_fails :=
  (notice_error ast_parse stdlib_module_names sys_modules format_error).
Local Abbreviation first_notice_fails :=
  (first_notice_error ast_parse stdlib_module_names sys_modules
     format_error).

Lemma format_object_prints (obj : py_object) :
  prints_only (format_object format_error obj)
    (match format_error obj with Some e => inl e | None => inr tt end) [].
Proof.
  unfold format_object.
  destruct (format_error obj); [apply prints_only_raise | apply prints_only_ret].
Qed.

(** How the analyzer ends: with the classification; with [None] and
    one message for an exception of its [except] clause; with the
    exception that formatting the object into that message raises;
    or with an exception that the clause does not name. *)
Lemma analyzer_run (obj : py_object) (source_code : py_arg) :
  prints_only (analyzer obj source_code)
    (match analysed obj source_code with
     | inr d => inr (Some d)
     | inl e =>
         if analyzer_catches e
         then match format_error obj with
              | Some e' => inl e'
              | None => inr None
              end
         else inl e
     end)
    (match analysed obj source_code with
     | inr d => []
     | inl e =>
         if analyzer_catches e
         then match format_error obj with
              | Some e' => []
              | None => [DependencyError e]
              end
         else []
     end).
Proof.
  unfold get_object_dependencies, analysis.
  assert (Hbody : prints_only
                    (tree <- lift (ast_parse_arg ast_parse source_code) ;;
                     d <- lift (visit_all stdlib_module_names sys_modules obj
                                  (walk (NModule tree)) (Dependencies ∅ ∅ ∅)) ;;
                     ret (Some d))
                    (match analysed obj source_code with
                     | inr d => inr (Some d)
                     | inl e => inl e
                     end) []).
  { unfold analysis.
    destruct (ast_parse_arg ast_parse source_code) as [e | tree].
    - apply prints_only_bind_raise, prints_only_lift.
    - change (@nil notice) with ([] ++ @nil notice).
      eapply prints_only_bind; [apply prints_only_lift | ]. cbv beta.
      destruct (visit_all stdlib_module_names sys_modules obj
                  (walk (NModule tree)) (Dependencies ∅ ∅ ∅)) as [e | d].
      + apply prints_only_bind_raise, prints_only_lift.
      + change (@nil notice) with ([] ++ @nil notice).
        eapply prints_only_bind; [apply prints_only_lift | ].
        apply prints_only_ret. }
  fold (analysed obj source_code).
  destruct (analysed obj source_code) as [e | d].
  - destruct (analyzer_catches e) eqn:Hc.
    + pose proof (format_object_prints obj) as Hf.
      destruct (format_error obj) as [e' | ].
      * change (@nil notice) with ([] ++ @nil notice).
        eapply prints_only_try_caught; [exact Hbody | exact Hc | ].
        apply prints_only_bind_raise. exact Hf.
      * change [DependencyError e]
          with ([] ++ [] ++ [DependencyError e] ++ []).
        eapply prints_only_try_caught; [exact Hbody | exact Hc | ].
        eapply prints_only_bind; [exact Hf | ].
        eapply prints_only_bind;
          [apply prints_only_print | apply prints_only_ret].
    + eapply prints_only_try_uncaught; [exact Hbody | exact Hc].
  - apply prints_only_try_ok. exact Hbody.
Qed.

(** The analyzer only prints. *)
Lemma analyzer_prints (obj : py_object) (source_code : py_arg) :
  exists r out, prints_only (analyzer obj source_code) r out.
Proof. do 2 eexists. apply analyzer_run. Qed.

(** The extraction of one record returns or raises, and only prints. *)
Lemma extractor_prints (obj : py_object) (file_path : string) :
  exists r out, prints_only (extractor obj file_path) r out.
Proof.
  unfold get_object_metadata.
  apply printing_bind.
  { destruct (dunder_name obj); [apply printing_ret | apply printing_raise]. }
  intros name. apply printing_bind.
  { destruct (kind obj); try apply printing_ret.
    apply printing_bind; [apply printing_lift | intros; apply printing_ret]. }
  intros attributes. apply printing_bind.
  { destruct (kind obj); try apply printing_ret.
    apply printing_bind; [apply printing_lift | intros parameters].
    apply printing_bind.
    { destruct (signature obj); [apply printing_ret | apply printing_raise]. }
    intros sig.
    apply printing_bind; [apply printing_lift | intros; apply printing_ret]. }
  intros function_part. apply printing_bind; [ | intros; apply printing_ret].
  destruct (getsource obj) as [[|c rest] | ]; try apply printing_ret.
  apply analyzer_prints.
Qed.

Lemma outcome_of (obj : py_object) (file_path : string) r out :
  prints_only (extractor obj file_path) r out -> outcome obj file_path = r.
Proof. intros H. unfold metadata_outcome. now rewrite H. Qed.

(** One turn of the loop: it returns unless the notice of a failed
    extraction raises. *)
Lemma extract_one_run (module : py_module) (file_path : string)
    (item : string * object_type) :
  exists out,
    (forall acc,
        prints_only
          (extract_one ast_parse stdlib_module_names sys_modules format_error
             module file_path acc item)
          (match notice_fails module file_path item with
           | Some e => inl e
           | None => inr (acc ++ contributes module file_path item)
           end) out)
    /\ (notice_fails module file_path item = None ->
        (forall obj e, fails module file_path item obj e ->
           In (ProcessingError (dunder_name obj) e) out)
        /\ (module_attrs module !! fst item = None ->
            In (ObjectNotFound (fst item)) out)).
Proof.
  unfold extract_one, contribution, extraction_fails, notice_error.
  destruct (module_attrs module !! fst item) as [obj | ].
  2: { eexists; split; [ | intros _; split].
       - intros acc. rewrite app_nil_r.
         eapply prints_only_bind;
           [apply prints_only_print | apply prints_only_ret].
       - intros obj e (H & _). discriminate.
       - intros _. left. reflexivity. }
  destruct (extractor_prints obj file_path) as (r & out & Hr).
  rewrite (outcome_of _ _ _ _ Hr).
  assert (Hgen : exists out',
             (forall acc,
                 prints_only
                   (try_except
                      (meta <- extractor obj file_path ;;
                       ret (acc ++ [meta]))
                      (fun _ => true)
                      (fun e => format_object format_error obj ;;;
                                print (ProcessingError (dunder_name obj) e) ;;;
                                ret acc))
                   (match (match r with
                           | inl _ => format_error obj
                           | inr _ => None
                           end) with
                    | Some e => inl e
                    | None =>
                        inr (acc ++ match r with
                                    | inr meta => [meta]
                                    | inl _ => []
                                    end)
                    end)
                   out')
             /\ ((match r with
                  | inl _ => format_error obj
                  | inr _ => None
                  end) = None ->
                 forall e, r = inl e ->
                   In (ProcessingError (dunder_name obj) e) out')).
  { destruct r as [e | meta].
    - pose proof (format_object_prints obj) as Hf.
      destruct (format_error obj) as [e' | ].
      + eexists; split.
        * intros acc. eapply prints_only_try_caught.
          -- apply prints_only_bind_raise. exact Hr.
          -- reflexivity.
          -- apply prints_only_bind_raise. exact Hf.
        * discriminate.
      + eexists; split.
        * intros acc. rewrite app_nil_r. eapply prints_only_try_caught.
          -- apply prints_only_bind_raise. exact Hr.
          -- reflexivity.
          -- eapply prints_only_bind; [exact Hf | ].
             eapply prints_only_bind;
               [apply prints_only_print | apply prints_only_ret].
        * intros _ e' He'. inversion He'; subst.
          apply in_or_app. right. simpl. auto.
    - eexists; split.
      + intros acc. apply prints_only_try_ok.
        eapply prints_only_bind; [exact Hr | apply prints_only_ret].
      + discriminate. }
  destruct Hgen as (out' & Hout & Hlog).
  destruct (kind obj) eqn:Hk;
    try (exists out'; split;
         [ exact Hout
         | intros Hnone; split;
           [ intros obj' e (Hobj & _ & _ & He); inversion Hobj; subst obj';
             rewrite (outcome_of _ _ _ _ Hr) in He; now apply Hlog
           | discriminate ] ]).
  - exists []. split; [ | intros _; split].
    + intros acc. rewrite app_nil_r. apply prints_only_ret.
    + intros obj' e (Hobj & Hm & _); inversion Hobj; subst obj'. congruence.
    + discriminate.
  - exists []. split; [ | intros _; split].
    + intros acc. rewrite app_nil_r. apply prints_only_ret.
    + intros obj' e (Hobj & _ & Hd & _); inversion Hobj; subst obj'.
      congruence.
    + discriminate.
Qed.

(** The loop of [get_meta_data]: it stops at the first notice that
    raises; otherwise the list grows by the records of the objects
    whose extraction returns, in order, and every failed extraction is
    printed. *)
Lemma extraction_loop_run (module : py_module) (file_path : string)
    (items : list (string * object_type)) :
  exists out,
    (forall acc,
        prints_only
          (for_each
             (extract_one ast_parse stdlib_module_names sys_modules
                format_error module file_path) items acc)
          (match first_notice_fails module file_path items with
           | Some e => inl e
           | None => inr (acc ++ flat_map (contributes module file_path) items)
           end) out)
    /\ (first_notice_fails module file_path items = None ->
        (forall item obj e, In item items ->
           fails module file_path item obj e ->
           In (ProcessingError (dunder_name obj) e) out)
        /\ (forall item, In item items ->
              module_attrs module !! fst item = None ->
              In (ObjectNotFound (fst item)) out)).
Proof.
  induction items as [|item items (out' & IH & IHlog)].
  - exists []. split; [ | intros _; split].
    + intros acc. simpl. rewrite app_nil_r. apply prints_only_ret.
    + intros item obj e [].
    + intros item [].
  - destruct (extract_one_run module file_path item) as (out & H1 & Hlog).
    cbn [first_notice_error].
    destruct (notice_fails module file_path item) as [e | ] eqn:Hn.
    + exists out. split; [ | discriminate].
      intros acc. cbn [for_each].
      apply prints_only_bind_raise. apply H1.
    + destruct (Hlog eq_refl) as [Hfail Hnone].
      exists (out ++ out'). split.
      * intros acc. cbn [for_each flat_map].
        replace (match first_notice_fails module file_path items with
                 | Some e => inl e
                 | None =>
                     inr (acc ++ contributes module file_path item
                              ++ flat_map (contributes module file_path) items)
                 end)
          with (match first_notice_fails module file_path items with
                | Some e => inl e
                | None =>
                    inr ((acc ++ contributes module file_path item)
                           ++ flat_map (contributes module file_path) items)
                end : exn + list meta_data)
          by (destruct (first_notice_fails module file_path items);
              [reflexivity | now rewrite app_assoc]).
        eapply prints_only_bind; [apply H1 | apply IH].
      * intros Hrest. destruct (IHlog Hrest) as [IHfail IHnone]. split.
        -- intros item' obj e [<- | Hin] Hf; apply in_or_app.
           ++ left. eapply Hfail; eassumption.
           ++ right. eapply IHfail; eassumption.
        -- intros item' [<- | Hin] Hf; apply in_or_app.
           ++ left. now apply Hnone.
           ++ right. now apply IHnone.
Qed.

(** The batch after the enumeration and the load. *)
Lemma batch_run
    (file_path : string) (obj_names : option (list string))
    (all_objects : list (string * object_type)) (module : py_module)
    (w w1 : world) :
  get_user_defined_objects ast_parse import_ stem file_path w
  = (inr all_objects, w1) ->
  import_ (stem file_path) = inr module ->
  exists out,
    get_meta_data ast_parse stdlib_module_names sys_modules import_ stem
      format_error file_path obj_names w
    = (match first_notice_fails module file_path
               (select_objects obj_names all_objects) with
       | Some e => inl e
       | None =>
           inr (flat_map (contributes module file_path)
                  (select_objects obj_names all_objects))
       end,
       World (files w1) (stdout w1 ++ out) (writes w1))
    /\ (first_notice_fails module file_path
          (select_objects obj_names all_objects) = None ->
        (forall item obj e,
            In item (select_objects obj_names all_objects) ->
            fails module file_path item obj e ->
            In (ProcessingError (dunder_name obj) e) out)
        /\ (forall item,
              In item (select_objects obj_names all_objects) ->
              module_attrs module !! fst item = None ->
              In (ObjectNotFound (fst item)) out)).
Proof.
  intros Henum Hload.
  destruct (extraction_loop_run module file_path
              (select_objects obj_names all_objects)) as (out & Hloop & Hlog).
  exists out. split; [ | exact Hlog].
  unfold get_meta_data, bind at 1. rewrite Henum.
  unfold bind at 1, try_except, lift. rewrite Hload. unfold ret at 1.
  apply (Hloop []).
Qed.


(** Where the notice of a failed extraction raises, that exception
    leaves the batch: the declarations after it are not processed and
    nothing is returned. *)
Lemma metadata_batch_aborts
    (file_path : string) (obj_names : option (list string))
    (all_objects : list (string * object_type)) (module : py_module)
    (w w1 : world) (e : exn)
    (Henum : get_user_defined_objects ast_parse import_ stem file_path w
             = (inr all_objects, w1))
    (Hload : import_ (stem file_path) = inr module)
    (Hnotice : first_notice_fails module file_path
                 (select_objects obj_names all_objects) = Some e) :
  exists out,
    get_meta_data ast_parse stdlib_module_names sys_modules import_ stem
      format_error file_path obj_names w
    = (inl e, World (files w1) (stdout w1 ++ out) (writes w1)).
Proof.
  destruct (batch_run file_path obj_names all_objects module w w1 Henum Hload)
    as (out & Hrun & _).
  rewrite Hnotice in Hrun. exists out. exact Hrun.
Qed.

End Runtime.


(** The same run, evaluated: only [g] is returned, and the failure on
    [f] is printed. *)
Example metadata_batch_example :
  let w := Scenario.fresh [("m.py", Scenario.meta_text)] in
  let r := get_meta_data Scenario.meta_parse ∅ Scenario.meta_modules
             Scenario.meta_import Scenario.meta_stem Scenario.printable
             "m.py" None w in
  match fst r with
  | inr l => map md_name l = ["g"]
  | inl _ => False
  end
  /\ stdout (snd r) = [ProcessingError None (AttributeError "__name__")].
Proof. vm_compute. split; reflexivity. Qed.

(** C8: a failure while extracting one declaration can abort the
    batch.  In this [m.py] the name [f] is rebound to a value without
    [__name__] whose [__repr__] raises.  The extraction of [f] fails
    and is caught, but the handler formats the object into its notice
    outside any [try]: the exception of [__repr__] leaves
    [get_meta_data], nothing is printed, no list is returned and [g],
    whose extraction returns a record, is never reached. *)
Theorem metadata_batch_aborted_by_notice :
  let w := Scenario.fresh [("m.py", Samples.broken_text)] in
  get_user_defined_objects Samples.broken_parse Samples.broken_import
    Scenario.meta_stem "m.py" w
  = (inr [("f", function_); ("g", function_)], w)
  /\ extraction_fails Samples.broken_parse ∅ Samples.broken_modules
       Samples.unprintable Samples.broken_m "m.py" ("f", function_)
       Samples.live_w (AttributeError "__name__")
  /\ contribution Samples.broken_parse ∅ Samples.broken_modules
       Samples.unprintable Samples.broken_m "m.py" ("g", function_)
     = [Samples.record_g]
  /\ get_meta_data Samples.broken_parse ∅ Samples.broken_modules
       Samples.broken_import Scenario.meta_stem Samples.unprintable
       "m.py" None w
     = (inl ZeroDivisionError, w).
Proof.
  intros w. split; [vm_compute; reflexivity | ]. split; [ | split].
  - split; [vm_compute; reflexivity | ].
    split; [discriminate | split; [discriminate | ]].
    vm_compute. reflexivity.
  - vm_compute. reflexivity.
  - vm_compute. reflexivity.
Qed.

End ExtractionFacts.

(** ** The relocation *)

Module RelocationFacts.
Import Ast ReturnPyObjectInfo PyObjectActions Stated Observed EffectFacts
  AstFacts.

Lemma module_eta (m : module_) : Module_ (body m) = m.
Proof. now destruct m. Qed.

Lemma new_writes_app (w w' : world) (l : list (string * string)) :
  writes w' = writes w ++ l -> new_writes w w' = l.
Proof.
  intros H. unfold new_writes. rewrite H, skipn_app, skipn_all, Nat.sub_diag.
  reflexivity.
Qed.

Lemma new_writes_untouched (w w' : world) :
  untouched w w' -> new_writes w w' = [].
Proof.
  intros [_ H]. apply new_writes_app. now rewrite app_nil_r.
Qed.

Lemma stmts_of_In (s : stmt) (l : list node) :
  In s (stmts_of l) <-> In (NStmt s) l.
Proof.
  unfold stmts_of. rewrite in_flat_map. split.
  - intros ([m | s' | e] & Hin & Hs); simpl in Hs; try contradiction.
    destruct Hs as [-> | []]. exact Hin.
  - intros Hin. exists (NStmt s). split; [exact Hin | left; reflexivity].
Qed.

(** The definitions found are the requested ones among the statements
    the walk yields, in that order. *)
Lemma find_objects_found (object_names : list string) (source_tree : module_) :
  fst (find_objects object_names source_tree)
  = List.filter
      (fun s => is_def s && existsb (String.eqb (stmt_name s)) object_names)
      (stmts_of (walk (NModule source_tree))).
Proof.
  unfold find_objects.
  generalize (walk (NModule source_tree)) as l.
  enough (H : forall l object_nodes import_nodes,
             fst (fold_left
                    (fun (acc : list stmt * list stmt) (n : node) =>
                       let (object_nodes, import_nodes) := acc in
                       match n with
                       | NStmt s =>
                           if is_def s
                              && existsb (String.eqb (stmt_name s)) object_names
                           then (object_nodes ++ [s],
                                 import_nodes
                                   ++ List.filter is_import
                                        (stmts_of (walk (NStmt s))))
                           else acc
                       | _ => acc
                       end) l (object_nodes, import_nodes))
             = object_nodes
                 ++ List.filter
                      (fun s => is_def s
                                && existsb (String.eqb (stmt_name s))
                                     object_names)
                      (stmts_of l)).
  { intros l. apply (H l [] []). }
  induction l as [|n l IH]; intros object_nodes import_nodes; simpl.
  - now rewrite app_nil_r.
  - destruct n as [m | s | e]; simpl; try apply IH.
    destruct (is_def s && existsb (String.eqb (stmt_name s)) object_names);
      rewrite IH; [now rewrite <- app_assoc | reflexivity].
Qed.

Lemma found_name_defined (object_names : list string) (source_tree : module_)
    (name : string) :
  In name (map stmt_name (fst (find_objects object_names source_tree))) ->
  In name object_names
  /\ exists s, In (NStmt s) (preorder (NModule source_tree))
               /\ is_def s = true /\ stmt_name s = name.
Proof.
  rewrite find_objects_found, in_map_iff.
  intros (s & <- & Hin). apply filter_In in Hin as [Hin Hp].
  apply andb_true_iff in Hp as [Hdef Hreq].
  apply existsb_exists in Hreq as (n & Hn & Heq).
  apply String.eqb_eq in Heq. split; [now rewrite Heq | ].
  exists s. repeat split; [ | exact Hdef].
  apply walk_In, stmts_of_In, Hin.
Qed.

Lemma fewer_found_than_requested (found requested : list string)
    (missing : string) :
  List.NoDup found -> incl found requested ->
  In missing requested -> ~ In missing found ->
  length found < length requested.
Proof.
  intros Hnodup Hincl Hreq Hmiss.
  apply Nat.le_lt_trans
    with (length (List.remove string_dec missing requested)).
  - apply NoDup_incl_length; [exact Hnodup | ].
    intros x Hx. apply in_in_remove; [ | now apply Hincl].
    intros ->. contradiction.
  - now apply remove_length_lt.
Qed.

Section Relocation.

Variable ast_parse : string -> exn + module_.
Variable ast_unparse : node -> string.
Variable stdlib_module_names : gset string.
Variable sys_modules : gmap string py_module.
Variable path_object : string -> py_object.
Variable write_error : string -> option exn.

Local Abbreviation relocation :=
  (move_objects ast_parse ast_unparse stdlib_module_names sys_modules
     path_object write_error).

Lemma wp_write_text (path text : string) (w : world)
    (P : unit -> world -> Prop) (Q : exn -> world -> Prop) :
  match write_error path with
  | Some e => Q e w
  | None =>
      P tt (World (<[path := text]> (files w)) (stdout w)
              (writes w ++ [(path, text)]))
  end ->
  wp (write_text write_error path text) w P Q.
Proof.
  unfold write_text. destruct (write_error path); [apply wp_raise | ].
  apply wp_write_file.
Qed.

(** The analyzer is handed the list of requested names where it
    expects text: parsing raises a TypeError, which the analyzer
    catches, and the result is [None]. *)
Lemma analyzer_on_names (obj : py_object) (names : list string) :
  prints_only
    (get_object_dependencies ast_parse stdlib_module_names sys_modules
       (fun _ => None) obj (PyStrList names))
    (inr None) [DependencyError TypeError_compile_arg].
Proof.
  unfold get_object_dependencies.
  change [DependencyError TypeError_compile_arg]
    with ([] ++ [] ++ [DependencyError TypeError_compile_arg] ++ []).
  eapply prints_only_try_caught.
  - apply prints_only_bind_raise. simpl. apply prints_only_raise.
  - reflexivity.
  - eapply prints_only_bind; [apply prints_only_ret | ].
    eapply prints_only_bind; [apply prints_only_print | apply prints_only_ret].
Qed.

(** Without a classification, one turn of the loop either skips the
    node and leaves both trees as they are, or raises. *)
Lemma process_object_without_dependencies
    (import_nodes : list stmt) (dest_file_path : string)
    (remove_from_source : bool) (position : option string)
    (handle_conflicts : string) (st : trees) (object_node : stmt) :
  (exists out,
      prints_only
        (process_object ast_unparse None import_nodes dest_file_path
           remove_from_source position handle_conflicts st object_node)
        (inr st) out
      /\ skipped handle_conflicts (dest_body st) object_node)
  \/ (exists e out,
        prints_only
          (process_object ast_unparse None import_nodes dest_file_path
             remove_from_source position handle_conflicts st object_node)
          (inl e) out).
Proof.
  unfold process_object, resolve_conflict, skipped.
  destruct (existsb _ (dest_body st)) eqn:Hex.
  - destruct (String.eqb_spec handle_conflicts "rename").
    { right. do 2 eexists. eapply prints_only_bind.
      - eapply prints_only_bind;
          [apply prints_only_print | apply prints_only_ret].
      - apply prints_only_bind_raise, prints_only_raise. }
    destruct (String.eqb_spec handle_conflicts "overwrite").
    { right. do 2 eexists.
      eapply prints_only_bind; [apply prints_only_ret | ].
      apply prints_only_bind_raise, prints_only_raise. }
    destruct (String.eqb_spec handle_conflicts "skip").
    { left. eexists. split; [ | auto]. eapply prints_only_bind.
      - eapply prints_only_bind;
          [apply prints_only_print | apply prints_only_ret].
      - apply prints_only_ret. }
    right. do 2 eexists. apply prints_only_bind_raise, prints_only_raise.
  - right. do 2 eexists.
    eapply prints_only_bind; [apply prints_only_ret | ].
    apply prints_only_bind_raise, prints_only_raise.
Qed.

Lemma for_each_without_dependencies
    (import_nodes : list stmt) (dest_file_path : string)
    (remove_from_source : bool) (position : option string)
    (handle_conflicts : string) (st : trees) (object_nodes : list stmt) :
  (exists out,
      prints_only
        (for_each
           (process_object ast_unparse None import_nodes dest_file_path
              remove_from_source position handle_conflicts)
           object_nodes st)
        (inr st) out
      /\ Forall (skipped handle_conflicts (dest_body st)) object_nodes)
  \/ (exists e out,
        prints_only
          (for_each
             (process_object ast_unparse None import_nodes dest_file_path
                remove_from_source position handle_conflicts)
             object_nodes st)
          (inl e) out).
Proof.
  induction object_nodes as [|n ns IH]; simpl.
  - left. eexists. split; [apply prints_only_ret | constructor].
  - destruct (process_object_without_dependencies import_nodes dest_file_path
                remove_from_source position handle_conflicts st n)
      as [(out & H & Hs) | (e & out & H)].
    + destruct IH as [(out' & H' & Hs') | (e & out' & H')].
      * left. eexists. split; [ | constructor; eassumption].
        eapply prints_only_bind; eassumption.
      * right. do 2 eexists. eapply prints_only_bind; eassumption.
    + right. do 2 eexists. apply prints_only_bind_raise. eassumption.
Qed.

(** The body of the [try]: it returns only along the path described by
    [returned], with both files writable where they are written; a run
    that raises has written nothing, or the destination alone when the
    source could not be opened for writing. *)
Lemma move_objects_try_spec (object_names : list string)
    (source_file_path dest_file_path : string) (remove_from_source : bool)
    (position : option string) (handle_conflicts : string) (w : world) :
  wp (move_objects_try ast_parse ast_unparse stdlib_module_names sys_modules
        path_object write_error object_names source_file_path dest_file_path
        remove_from_source position handle_conflicts) w
     (fun _ w' => returned ast_parse ast_unparse object_names
                    source_file_path dest_file_path remove_from_source
                    handle_conflicts w w'
                  /\ write_error dest_file_path = None
                  /\ (remove_from_source = true ->
                      write_error source_file_path = None))
     (fun _ w' => interrupted write_error source_file_path dest_file_path
                    remove_from_source w w').
Proof.
  assert (Hsame : forall out,
             interrupted write_error source_file_path dest_file_path
               remove_from_source w
               (World (files w) (stdout w ++ out) (writes w))).
  { intros out. left. split; reflexivity. }
  unfold move_objects_try.
  apply wp_bind, wp_read_file.
  destruct (files w !! source_file_path) as [source_code | ] eqn:Hsrc;
    [ | left; split; reflexivity].
  apply wp_bind, wp_lift. simpl ast_parse_arg.
  destruct (ast_parse source_code) as [e | source_tree] eqn:Hparse;
    [left; split; reflexivity | ].
  apply wp_bind. unfold check_found.
  destruct (Nat.eqb_spec
              (length (fst (find_objects object_names source_tree)))
              (length object_names)) as [Hlen | Hlen];
    [ | left; split; reflexivity].
  apply wp_ret, wp_bind.
  eapply wp_prints_only; [apply analyzer_on_names | ].
  apply wp_bind, wp_is_file.
  apply wp_bind, wp_read_dest.
  change (dest_code_of _ dest_file_path) with (dest_code_of w dest_file_path).
  apply wp_bind, wp_lift. simpl ast_parse_arg.
  destruct (ast_parse (dest_code_of w dest_file_path)) as [e | dest_tree]
    eqn:Hdest; [apply Hsame | ].
  apply wp_bind.
  destruct (for_each_without_dependencies
              (snd (find_objects object_names source_tree)) dest_file_path
              remove_from_source position handle_conflicts
              (Trees (body source_tree) (body dest_tree))
              (fst (find_objects object_names source_tree)))
    as [(out & H & Hskip) | (e & out & H)];
    (eapply wp_prints_only; [exact H | ]);
    [ | cbn [files stdout writes]; rewrite <- app_assoc; apply Hsame].
  cbn [source_body dest_body]. rewrite !module_eta.
  apply wp_bind, wp_write_text.
  destruct (write_error dest_file_path) as [e | ] eqn:Hwd;
    [cbn [files stdout writes]; rewrite <- app_assoc; apply Hsame | ].
  apply wp_bind.
  destruct remove_from_source.
  - apply wp_write_text.
    destruct (write_error source_file_path) as [e | ] eqn:Hws.
    + right. split; [reflexivity | ]. split; [rewrite Hws; eauto | ].
      split; [exact Hwd | ]. eexists. split; reflexivity.
    + apply wp_print. split; [ | split; [reflexivity | now intros _]].
      exists source_code, source_tree, dest_tree.
      cbn; rewrite <- ?app_assoc; auto 10.
  - apply wp_ret, wp_print. split; [ | split; [reflexivity | discriminate]].
    exists source_code, source_tree, dest_tree.
    cbn; rewrite <- ?app_assoc; auto 10.
Qed.

Lemma move_objects_spec (object_names : list string)
    (source_file_path dest_file_path : string) (remove_from_source : bool)
    (position : option string) (handle_conflicts : string) (w : world) :
  wp (relocation object_names source_file_path dest_file_path
        remove_from_source position handle_conflicts) w
     (fun _ w' => returned ast_parse ast_unparse object_names
                    source_file_path dest_file_path remove_from_source
                    handle_conflicts w w'
                  /\ write_error dest_file_path = None
                  /\ (remove_from_source = true ->
                      write_error source_file_path = None))
     (fun _ w' => interrupted write_error source_file_path dest_file_path
                    remove_from_source w w').
Proof.
  unfold move_objects. apply wp_try_except.
  eapply wp_consequence; [apply move_objects_try_spec | auto | ].
  intros e w' H. now apply wp_raise.
Qed.

Lemma move_objects_returns (object_names : list string)
    (source_file_path dest_file_path : string) (remove_from_source : bool)
    (position : option string) (handle_conflicts : string) (w w' : world) :
  relocation object_names source_file_path dest_file_path
    remove_from_source position handle_conflicts w = (inr tt, w') ->
  returned ast_parse ast_unparse object_names source_file_path
    dest_file_path remove_from_source handle_conflicts w w'.
Proof.
  intros Hrun.
  pose proof (move_objects_spec object_names source_file_path dest_file_path
                remove_from_source position handle_conflicts w) as H.
  unfold wp in H. rewrite Hrun in H. apply H.
Qed.

(** A run that returns could open every file it wrote. *)
Lemma move_objects_returns_writable (object_names : list string)
    (source_file_path dest_file_path : string) (remove_from_source : bool)
    (position : option string) (handle_conflicts : string) (w w' : world) :
  relocation object_names source_file_path dest_file_path
    remove_from_source position handle_conflicts w = (inr tt, w') ->
  write_error dest_file_path = None
  /\ (remove_from_source = true -> write_error source_file_path = None).
Proof.
  intros Hrun.
  pose proof (move_objects_spec object_names source_file_path dest_file_path
                remove_from_source position handle_conflicts w) as H.
  unfold wp in H. rewrite Hrun in H. apply H.
Qed.

Lemma move_objects_raises (object_names : list string)
    (source_file_path dest_file_path : string) (remove_from_source : bool)
    (position : option string) (handle_conflicts : string) (w w' : world)
    (e : exn) :
  relocation object_names source_file_path dest_file_path
    remove_from_source position handle_conflicts w = (inl e, w') ->
  interrupted write_error source_file_path dest_file_path
    remove_from_source w w'.
Proof.
  intros Hrun.
  pose proof (move_objects_spec object_names source_file_path dest_file_path
                remove_from_source position handle_conflicts w) as H.
  unfold wp in H. now rewrite Hrun in H.
Qed.

(** Without a write back to the source, a run that raises has written
    nothing. *)
Lemma move_objects_raises_untouched (object_names : list string)
    (source_file_path dest_file_path : string)
    (position : option string) (handle_conflicts : string) (w w' : world)
    (e : exn) :
  relocation object_names source_file_path dest_file_path
    false position handle_conflicts w = (inl e, w') ->
  untouched w w'.
Proof.
  intros Hrun. apply move_objects_raises in Hrun.
  destruct Hrun as [H | (H & _)]; [exact H | discriminate].
Qed.

(** When the number of definitions found differs from the number of
    names requested, the relocation raises before anything else; the
    error names the requested names that no found definition has. *)
Lemma not_found_on_length_mismatch (object_names : list string)
    (source_file_path dest_file_path : string) (remove_from_source : bool)
    (position : option string) (handle_conflicts : string) (w : world)
    (source_code : string) (source_tree : module_) :
  files w !! source_file_path = Some source_code ->
  ast_parse source_code = inr source_tree ->
  length (fst (find_objects object_names source_tree))
    <> length object_names ->
  relocation object_names source_file_path dest_file_path
    remove_from_source position handle_conflicts w
  = (inl (Exception_
            (ValueError_not_found
               (list_to_set object_names
                  ∖ list_to_set
                      (map stmt_name
                         (fst (find_objects object_names source_tree))))
               source_file_path)), w).
Proof.
  intros Hsrc Hparse Hlen.
  unfold move_objects, try_except, move_objects_try.
  unfold bind at 1. unfold read_file. rewrite Hsrc.
  unfold bind at 1. simpl ast_parse_arg. rewrite Hparse. simpl lift.
  unfold ret at 1. unfold bind at 1, check_found.
  destruct (Nat.eqb_spec
              (length (fst (find_objects object_names source_tree)))
              (length object_names)) as [Heq | _]; [contradiction | ].
  reflexivity.
Qed.

(** Where no two definitions found share a name, a requested name that
    no definition of the tree has is reported: the relocation raises
    the not-found error, the name is among those it lists, and nothing
    is written. *)
Lemma not_found_when_definitions_distinct (object_names : list string)
    (source_file_path dest_file_path : string) (remove_from_source : bool)
    (position : option string) (handle_conflicts : string) (w : world)
    (source_code : string) (source_tree : module_) (missing : string) :
  files w !! source_file_path = Some source_code ->
  ast_parse source_code = inr source_tree ->
  List.NoDup (map stmt_name (fst (find_objects object_names source_tree))) ->
  In missing object_names ->
  (forall s, In (NStmt s) (preorder (NModule source_tree)) ->
             is_def s = true -> stmt_name s <> missing) ->
  exists missing_objects : gset string,
    relocation object_names source_file_path dest_file_path
      remove_from_source position handle_conflicts w
    = (inl (Exception_ (ValueError_not_found missing_objects source_file_path)),
       w)
    /\ missing_objects
       = list_to_set object_names
           ∖ list_to_set
               (map stmt_name (fst (find_objects object_names source_tree)))
    /\ missing ∈ missing_objects.
Proof.
  intros Hsrc Hparse Hnodup Hreq Hundef.
  assert (Hmiss : ~ In missing
                      (map stmt_name
                         (fst (find_objects object_names source_tree)))).
  { intros H. apply found_name_defined in H as (_ & s & Hin & Hd & Hn).
    exact (Hundef s Hin Hd Hn). }
  eexists. split; [ | split; [reflexivity | ]].
  - eapply not_found_on_length_mismatch; try eassumption.
    rewrite <- (length_map stmt_name). apply Nat.lt_neq.
    eapply fewer_found_than_requested; try eassumption.
    intros x Hx. now apply found_name_defined in Hx.
  - apply elem_of_difference. split.
    + apply elem_of_list_to_set, list_elem_of_In, Hreq.
    + rewrite elem_of_list_to_set, list_elem_of_In. exact Hmiss.
Qed.

(** The conflict step on its own (lines 52-65), for a node whose name
    the destination already declares. *)
Lemma resolve_conflict_policies (dest_file_path : string) (body : list stmt)
    (object_node : stmt) :
  existsb (is_named_def (stmt_name object_node)) body = true ->
  resolve_conflict "overwrite" dest_file_path body object_node
  = ret (Some (object_node,
               List.filter
                 (fun node => negb (is_named_def (stmt_name object_node) node))
                 body))
  /\ resolve_conflict "rename" dest_file_path body object_node
     = (print (Renamed (stmt_name object_node)
                 (stmt_name object_node ++ "_moved")%string) ;;;
        ret (Some (set_name (stmt_name object_node ++ "_moved")%string
                     object_node, body)))
  /\ resolve_conflict "skip" dest_file_path body object_node
     = (print (Skipping (stmt_name object_node) dest_file_path) ;;; ret None)
  /\ (forall policy,
        policy <> "rename" -> policy <> "overwrite" -> policy <> "skip" ->
        resolve_conflict policy dest_file_path body object_node
        = raise (ValueError_handle_conflicts policy)).
Proof.
  intros Hex. unfold resolve_conflict. rewrite Hex.
  repeat split; try reflexivity.
  intros policy Hr Ho Hs.
  destruct (String.eqb_spec policy "rename"); [contradiction | ].
  destruct (String.eqb_spec policy "overwrite"); [contradiction | ].
  destruct (String.eqb_spec policy "skip"); [contradiction | ].
  reflexivity.
Qed.

(** The position step on its own (lines 79-99): the front for 'top',
    the end for 'bottom' or no position, right after the first
    declaration of that name otherwise, and the end with a notice when
    there is none. *)
Lemma place_positions (dest_file_path : string) (body : list stmt)
    (object_node : stmt) :
  place (Some "top") dest_file_path body object_node
  = ret (object_node :: body)
  /\ place (Some "bottom") dest_file_path body object_node
     = ret (body ++ [object_node])
  /\ place None dest_file_path body object_node
     = ret (body ++ [object_node])
  /\ (forall name i,
        name <> "top" -> name <> "bottom" ->
        find_index (is_named_def name) body = Some i ->
        place (Some name) dest_file_path body object_node
        = ret (firstn (i + 1) body ++ object_node :: skipn (i + 1) body))
  /\ (forall name,
        name <> "top" -> name <> "bottom" ->
        find_index (is_named_def name) body = None ->
        place (Some name) dest_file_path body object_node
        = (print (TargetNotFound name dest_file_path) ;;;
           ret (body ++ [object_node]))).
Proof.
  repeat split; try reflexivity.
  - intros name i Ht Hb Hfind. unfold place.
    destruct (String.eqb_spec name "bottom"); [contradiction | ].
    destruct (String.eqb_spec name "top"); [contradiction | ].
    now rewrite Hfind.
  - intros name Ht Hb Hfind. unfold place.
    destruct (String.eqb_spec name "bottom"); [contradiction | ].
    destruct (String.eqb_spec name "top"); [contradiction | ].
    now rewrite Hfind.
Qed.

Lemma writes_to_other (path other text : string) :
  other <> path -> writes_to path [(other, text)] = [].
Proof.
  intros H. unfold writes_to. simpl.
  destruct (String.eqb_spec other path); [contradiction | reflexivity].
Qed.

Lemma writes_to_same (path text : string) :
  writes_to path [(path, text)] = [(path, text)].
Proof. unfold writes_to. simpl. now rewrite String.eqb_refl. Qed.

Lemma writes_to_cons (path other text : string) (l : list (string * string)) :
  writes_to path ((other, text) :: l)
  = (if String.eqb other path then [(other, text)] else [])
      ++ writes_to path l.
Proof.
  unfold writes_to. simpl. destruct (String.eqb other path); reflexivity.
Qed.

(** A run returns only when every definition found was skipped by the
    conflict policy: any other turn of the loop raises, at the latest
    when it iterates the result of the analyzer. *)
Lemma returns_only_when_all_skipped (object_names : list string)
    (source_file_path dest_file_path : string) (remove_from_source : bool)
    (position : option string) (handle_conflicts : string) (w w' : world) :
  relocation object_names source_file_path dest_file_path
    remove_from_source position handle_conflicts w = (inr tt, w') ->
  exists source_code source_tree dest_tree,
    files w !! source_file_path = Some source_code
    /\ ast_parse source_code = inr source_tree
    /\ ast_parse (dest_code_of w dest_file_path) = inr dest_tree
    /\ Forall (skipped handle_conflicts (body dest_tree))
         (fst (find_objects object_names source_tree)).
Proof.
  intros Hrun. apply move_objects_returns in Hrun.
  destruct Hrun as (source_code & source_tree & dest_tree & Hsrc & Hparse
                    & Hdest & Hlen & Hskip & _).
  eauto 10.
Qed.

(** C9, as the code has it: a relocation that returns, and that does
    not also write the source back to the very same path
    (remove_from_source is false, or the two paths differ), writes the
    destination file exactly once, with the serialization of the tree
    parsed from the destination; this is so for every returning run,
    the ones that skipped every requested declaration included. *)
Theorem destination_rewritten_once (object_names : list string)
    (source_file_path dest_file_path : string) (remove_from_source : bool)
    (position : option string) (handle_conflicts : string) (w w' : world)
    (Hrun : relocation object_names source_file_path dest_file_path
              remove_from_source position handle_conflicts w = (inr tt, w'))
    (Hpaths : remove_from_source = false
              \/ source_file_path <> dest_file_path) :
  exists dest_tree,
    ast_parse (dest_code_of w dest_file_path) = inr dest_tree
    /\ writes_to dest_file_path (new_writes w w')
       = [(dest_file_path, ast_unparse (NModule dest_tree))]
    /\ files w' !! dest_file_path = Some (ast_unparse (NModule dest_tree)).
Proof.
  apply move_objects_returns in Hrun.
  destruct Hrun as (source_code & source_tree & dest_tree & Hsrc & Hparse
                    & Hdest & Hlen & Hskip & Hwrites & Hfiles).
  exists dest_tree. split; [exact Hdest | ].
  rewrite (new_writes_app _ _ _ Hwrites), Hfiles.
  destruct remove_from_source.
  - destruct Hpaths as [Hpaths | Hpaths]; [discriminate | ].
    split.
    + rewrite writes_to_cons, String.eqb_refl, writes_to_other by assumption.
      reflexivity.
    + rewrite lookup_insert_ne by assumption. apply lookup_insert_eq.
  - split; [apply writes_to_same | apply lookup_insert_eq].
Qed.

(** C6, as the code has it: with remove_from_source false (the
    default) and a destination path other than the source path, the
    source file is never written and keeps its text, whether the
    relocation returns or raises. *)
Theorem source_kept_without_removal (object_names : list string)
    (source_file_path dest_file_path : string)
    (position : option string) (handle_conflicts : string) (w : world)
    (Hpaths : source_file_path <> dest_file_path) :
  let w' := snd (relocation object_names source_file_path dest_file_path
                   false position handle_conflicts w) in
  files w' !! source_file_path = files w !! source_file_path
  /\ writes_to source_file_path (new_writes w w') = [].
Proof.
  destruct (relocation object_names source_file_path dest_file_path
              false position handle_conflicts w) as [[e | []] w'] eqn:Hrun;
    simpl.
  - apply move_objects_raises_untouched in Hrun.
    rewrite (new_writes_untouched _ _ Hrun). destruct Hrun as [-> _].
    split; reflexivity.
  - apply move_objects_returns in Hrun.
    destruct Hrun as (source_code & source_tree & dest_tree & Hsrc & Hparse
                      & Hdest & Hlen & Hskip & Hwrites & Hfiles).
    rewrite (new_writes_app _ _ _ Hwrites), Hfiles. split.
    + apply lookup_insert_ne. congruence.
    + apply writes_to_other. congruence.
Qed.

End Relocation.

(** *** The relocation on concrete files *)

Import Scenario.

(** [foo] moved between two files, the destination holding a [foo]
    that the 'skip' policy keeps. *)
Lemma destination_rewritten_once_witness :
  let w := fresh [("src.py", text_def "foo" "1");
                  ("dst.py", text_def "foo" "0")] in
  let w' := snd (relocate ["foo"] "src.py" "dst.py" false None "skip" w) in
  relocate ["foo"] "src.py" "dst.py" false None "skip" w = (inr tt, w')
  /\ (false = false \/ "src.py" <> "dst.py")
  /\ exists dest_tree,
       parse_table table (dest_code_of w "dst.py") = inr dest_tree
       /\ writes_to "dst.py" (new_writes w w')
          = [("dst.py", unparse (NModule dest_tree))]
       /\ files w' !! "dst.py" = Some (unparse (NModule dest_tree)).
Proof.
  intros w w'.
  assert (Hrun : relocate ["foo"] "src.py" "dst.py" false None "skip" w
                 = (inr tt, w')) by (vm_compute; reflexivity).
  assert (Hpaths : false = false \/ "src.py" <> "dst.py")
    by (left; reflexivity).
  split; [exact Hrun | split; [exact Hpaths | ]].
  exact (destination_rewritten_once (parse_table table) unparse ∅ ∅
           path_object writable ["foo"] "src.py" "dst.py" false None "skip" w w'
           Hrun Hpaths).
Defined.

(** The skipped batch has reformatted the destination. *)
Example skipped_batch_reformats_destination :
  let w := fresh [("src.py", text_def "foo" "1");
                  ("dst.py", text_def "foo" "0")] in
  let w' := snd (relocate ["foo"] "src.py" "dst.py" false None "skip" w) in
  files w !! "dst.py" = Some "def foo(): return 0"
  /\ files w' !! "dst.py"
     = Some ("def foo():" ++ nl ++ "    return 0")%string.
Proof. vm_compute. split; reflexivity. Qed.

(** C9 as stated fails: with the source and the destination at one
    path and remove_from_source set, a run that skips [foo] returns and
    has written that file twice. *)
Lemma destination_rewritten_twice_counterexample :
  let w := fresh [("a.py", text_def "foo" "0")] in
  let r := relocate ["foo"] "a.py" "a.py" true None "skip" w in
  fst r = inr tt
  /\ length (writes_to "a.py" (new_writes w (snd r))) = 2.
Proof. vm_compute. split; reflexivity. Qed.

Lemma source_kept_without_removal_witness :
  let w := fresh [("src.py", text_def "foo" "1");
                  ("dst.py", text_def "foo" "0")] in
  let w' := snd (relocate ["foo"] "src.py" "dst.py" false None "skip" w) in
  "src.py" <> "dst.py"
  /\ files w' !! "src.py" = files w !! "src.py"
  /\ writes_to "src.py" (new_writes w w') = [].
Proof.
  intros w w'.
  assert (Hpaths : "src.py" <> "dst.py") by discriminate.
  split; [exact Hpaths | ].
  exact (source_kept_without_removal (parse_table table) unparse ∅ ∅
           path_object writable ["foo"] "src.py" "dst.py" None "skip" w Hpaths).
Defined.

(** C6 as stated fails: with remove_from_source false and the
    destination at the path of the source, the run returns and the
    source file has been written, with another text. *)
Lemma source_rewritten_counterexample :
  let w := fresh [("a.py", text_def "foo" "0")] in
  let r := relocate ["foo"] "a.py" "a.py" false None "skip" w in
  fst r = inr tt
  /\ files w !! "a.py" = Some "def foo(): return 0"
  /\ files (snd r) !! "a.py"
     = Some ("def foo():" ++ nl ++ "    return 0")%string
  /\ writes_to "a.py" (new_writes w (snd r))
     = [("a.py", ("def foo():" ++ nl ++ "    return 0")%string)].
Proof. vm_compute. repeat split; reflexivity. Qed.

(** C4 as stated fails: a destination that declares [foo] twice keeps
    both declarations through a relocation that returns. *)
Lemma duplicate_names_survive_counterexample :
  let w := fresh [("src.py", text_def "foo" "1"); ("dst.py", two_foo_text)] in
  let r := relocate ["foo"] "src.py" "dst.py" false None "skip" w in
  fst r = inr tt
  /\ exists text' tree',
       files (snd r) !! "dst.py" = Some text'
       /\ parse_table table text' = inr tree'
       /\ declaration_names (body tree') = ["foo"; "foo"]
       /\ ~ List.NoDup (declaration_names (body tree')).
Proof.
  split; [vm_compute; reflexivity | ].
  exists (unparse (NModule two_foo)),
         (Module_ [def_ 1 "foo" "0"; def_ 4 "foo" "2"]).
  repeat split; try (vm_compute; reflexivity).
  intros H. inversion H as [ | x l Hnotin _]; subst.
  apply Hnotin. left. reflexivity.
Qed.

(** C1, at a failing input: [foo] is requested from a source that
    defines it, with no file at the destination.  The analyzer is run
    once, on the list of names instead of source text, and returns
    [None] after printing its error; the loop over the dependency names
    then raises, no import statement is inserted, the relocation does
    not complete and the destination file is not written. *)
Theorem relocation_raises_at_dependency_loop :
  let w := fresh [("src.py", text_def "foo" "1")] in
  let r := relocate ["foo"] "src.py" "dst.py" false None "overwrite" w in
  fst r = inl (Exception_ TypeError_not_iterable)
  /\ stdout (snd r) = [DependencyError TypeError_compile_arg]
  /\ writes (snd r) = []
  /\ files (snd r) !! "dst.py" = None.
Proof. vm_compute. repeat split; reflexivity. Qed.

(** C2, at a failing input: the destination holds a [foo] and [foo] is
    relocated.  With 'overwrite' and with 'rename' the relocation
    raises at the dependency loop and the destination keeps its text:
    no incoming [foo] and no [foo_moved] is written.  With 'skip' it
    returns and the destination holds its own [foo]; any other policy
    raises the invalid-policy error and nothing is written. *)
Theorem conflict_policies_on_existing_foo :
  let w := fresh [("src.py", text_def "foo" "1");
                  ("dst.py", text_def "foo" "0")] in
  let policy p := relocate ["foo"] "src.py" "dst.py" false None p w in
  (fst (policy "overwrite") = inl (Exception_ TypeError_not_iterable)
   /\ writes (snd (policy "overwrite")) = []
   /\ files (snd (policy "overwrite")) !! "dst.py"
      = Some "def foo(): return 0")
  /\ (fst (policy "rename") = inl (Exception_ TypeError_not_iterable)
      /\ stdout (snd (policy "rename"))
         = [DependencyError TypeError_compile_arg; Renamed "foo" "foo_moved"]
      /\ writes (snd (policy "rename")) = []
      /\ files (snd (policy "rename")) !! "dst.py"
         = Some "def foo(): return 0")
  /\ (fst (policy "skip") = inr tt
      /\ writes (snd (policy "skip"))
         = [("dst.py", unparse (NModule foo_old))])
  /\ (fst (policy "merge")
      = inl (Exception_ (ValueError_handle_conflicts "merge"))
      /\ writes (snd (policy "merge")) = []).
Proof. vm_compute. repeat split; reflexivity. Qed.

(** C3, at a failing input: [a] and [b] are requested from a source
    that defines [a] twice (a function and a method) and [b] nowhere.
    Two definitions are found for two names, so no not-found error is
    raised although [b] is missing; under 'skip' the relocation returns
    and the destination file has been rewritten with another text. *)
Theorem missing_name_goes_unreported :
  let w := fresh [("src.py", two_a_text); ("dst.py", text_def "a" "0")] in
  let r := relocate ["a"; "b"] "src.py" "dst.py" false None "skip" w in
  map stmt_name (fst (find_objects ["a"; "b"] two_a)) = ["a"; "a"]
  /\ fst r = inr tt
  /\ writes (snd r) = [("dst.py", unparse (NModule a_old))]
  /\ files w !! "dst.py" = Some "def a(): return 0"
  /\ files (snd r) !! "dst.py"
     = Some ("def a():" ++ nl ++ "    return 0")%string.
Proof. vm_compute. repeat split; reflexivity. Qed.

(** The all-or-nothing lookup where the counts differ: only [a] is
    defined, [b] is reported and nothing is written. *)
Example missing_name_reported :
  let w := fresh [("src.py", text_def "a" "0"); ("dst.py", text_def "foo" "0")] in
  relocate ["a"; "b"] "src.py" "dst.py" false None "overwrite" w
  = (inl (Exception_ (ValueError_not_found {["b"]} "src.py")), w).
Proof. vm_compute. reflexivity. Qed.

(** C5, at a failing input: [bar] is relocated into a destination
    whose only declaration is [baz].  Whatever the position ('top',
    'bottom', none, or after [baz]), the relocation raises before the
    position step and the destination keeps its text: [bar] appears
    neither before nor after [baz]. *)
Theorem position_step_never_reached :
  let w := fresh [("src.py", text_def "bar" "1");
                  ("dst.py", text_def "baz" "2")] in
  Forall
    (fun position =>
       let r := relocate ["bar"] "src.py" "dst.py" false position
                  "overwrite" w in
       fst r = inl (Exception_ TypeError_not_iterable)
       /\ writes (snd r) = []
       /\ files (snd r) !! "dst.py" = Some "def baz(): return 2")
    [Some "top"; Some "bottom"; None; Some "baz"].
Proof. vm_compute. repeat constructor. Qed.

End RelocationFacts.

(** ** More on the relocation *)

Module RelocationOutcomes.
Import Ast ReturnPyObjectInfo PyObjectActions Stated Observed EffectFacts
  AstFacts RelocationFacts.

Section Relocation.

Variable ast_parse : string -> exn + module_.
Variable ast_unparse : node -> string.
Variable stdlib_module_names : gset string.
Variable sys_modules : gmap string py_module.
Variable path_object : string -> py_object.
Variable write_error : string -> option exn.

Local Abbreviation relocation :=
  (move_objects ast_parse ast_unparse stdlib_module_names sys_modules
     path_object write_error).

(** A turn of the loop on a node the policy skips prints the notice and
    leaves both trees alone, whatever the analyzer returned. *)
Lemma process_object_skips (unique_dependencies : option dependencies)
    (import_nodes : list stmt) (dest_file_path : string)
    (remove_from_source : bool) (position : option string)
    (handle_conflicts : string) (st : trees) (object_node : stmt) :
  skipped handle_conflicts (dest_body st) object_node ->
  prints_only
    (process_object ast_unparse unique_dependencies import_nodes
       dest_file_path remove_from_source position handle_conflicts st
       object_node)
    (inr st) [Skipping (stmt_name object_node) dest_file_path].
Proof.
  intros [Hex ->]. unfold process_object, resolve_conflict. rewrite Hex.
  change [Skipping (stmt_name object_node) dest_file_path]
    with (([Skipping (stmt_name object_node) dest_file_path] ++ []) ++ []).
  eapply prints_only_bind.
  - eapply prints_only_bind; [apply prints_only_print | apply prints_only_ret].
  - apply prints_only_ret.
Qed.

Lemma for_each_skips (unique_dependencies : option dependencies)
    (import_nodes : list stmt) (dest_file_path : string)
    (remove_from_source : bool) (position : option string)
    (handle_conflicts : string) (st : trees) (object_nodes : list stmt) :
  Forall (skipped handle_conflicts (dest_body st)) object_nodes ->
  prints_only
    (for_each
       (process_object ast_unparse unique_dependencies import_nodes
          dest_file_path remove_from_source position handle_conflicts)
       object_nodes st)
    (inr st)
    (map (fun n => Skipping (stmt_name n) dest_file_path) object_nodes).
Proof.
  induction 1 as [|n ns Hn Hns IH]; simpl.
  - apply prints_only_ret.
  - change (Skipping (stmt_name n) dest_file_path
              :: map (fun n => Skipping (stmt_name n) dest_file_path) ns)
      with ([Skipping (stmt_name n) dest_file_path]
              ++ map (fun n => Skipping (stmt_name n) dest_file_path) ns).
    eapply prints_only_bind; [now apply process_object_skips | exact IH].
Qed.

Lemma skipped_batch_run (object_names : list string)
    (source_file_path dest_file_path : string) (remove_from_source : bool)
    (position : option string) (handle_conflicts : string) (w : world)
    (source_code : string) (source_tree dest_tree : module_) :
  files w !! source_file_path = Some source_code ->
  ast_parse source_code = inr source_tree ->
  ast_parse (dest_code_of w dest_file_path) = inr dest_tree ->
  length (fst (find_objects object_names source_tree)) = length object_names ->
  Forall (skipped handle_conflicts (body dest_tree))
    (fst (find_objects object_names source_tree)) ->
  write_error dest_file_path = None ->
  (remove_from_source = true -> write_error source_file_path = None) ->
  relocation object_names source_file_path dest_file_path
    remove_from_source position handle_conflicts w
  = (inr tt,
     skipped_batch_world ast_unparse object_names source_file_path dest_file_path
       remove_from_source source_tree dest_tree w).
Proof.
  intros Hsrc Hparse Hdest Hlen Hskip Hwd Hws.
  assert (Hwp : wp (move_objects_try ast_parse ast_unparse stdlib_module_names
                      sys_modules path_object write_error object_names
                      source_file_path
                      dest_file_path remove_from_source position
                      handle_conflicts) w
                  (fun a w' =>
                     a = tt
                     /\ w' = skipped_batch_world ast_unparse object_names source_file_path
                               dest_file_path remove_from_source source_tree
                               dest_tree w)
                  (fun _ _ => False)).
  { unfold move_objects_try.
    apply wp_bind, wp_read_file. rewrite Hsrc.
    apply wp_bind, wp_lift. simpl ast_parse_arg. rewrite Hparse.
    apply wp_bind. unfold check_found. rewrite Hlen, Nat.eqb_refl. simpl negb.
    apply wp_ret, wp_bind.
    eapply wp_prints_only; [apply analyzer_on_names | ].
    apply wp_bind, wp_is_file.
    apply wp_bind, wp_read_dest.
    change (dest_code_of _ dest_file_path)
      with (dest_code_of w dest_file_path).
    apply wp_bind, wp_lift. simpl ast_parse_arg. rewrite Hdest.
    apply wp_bind.
    eapply wp_prints_only; [apply for_each_skips; exact Hskip | ].
    cbn [source_body dest_body]. rewrite !module_eta.
    apply wp_bind, wp_write_text. rewrite Hwd. apply wp_bind.
    unfold skipped_batch_world.
    destruct remove_from_source;
      [apply wp_write_text; rewrite (Hws eq_refl) | apply wp_ret];
      apply wp_print; cbn; rewrite <- ?app_assoc; auto. }
  unfold move_objects, try_except. unfold wp in Hwp.
  destruct (move_objects_try _ _ _ _ _ _ _ _ _ _ _ _ w) as [[e | a] w'];
    [contradiction | ].
  destruct Hwp as [-> ->]. reflexivity.
Qed.

Lemma process_object_exceptions (import_nodes : list stmt)
    (dest_file_path : string) (remove_from_source : bool)
    (position : option string) (handle_conflicts : string) (st : trees)
    (object_node : stmt) (w : world) :
  wp (process_object ast_unparse None import_nodes dest_file_path
        remove_from_source position handle_conflicts st object_node) w
     (fun st' w' => st' = st /\ untouched w w')
     (fun e w' =>
        (e = ValueError_handle_conflicts handle_conflicts
         \/ e = TypeError_not_iterable) /\ untouched w w').
Proof.
  unfold wp, process_object, resolve_conflict, untouched.
  destruct (existsb _ (dest_body st));
    [destruct (String.eqb handle_conflicts "rename");
     [ | destruct (String.eqb handle_conflicts "overwrite");
         [ | destruct (String.eqb handle_conflicts "skip")]] | ];
    cbn; auto.
Qed.

Lemma untouched_trans (w w1 w2 : world) :
  untouched w w1 -> untouched w1 w2 -> untouched w w2.
Proof. unfold untouched. intros [-> ->] [-> ->]. auto. Qed.

Lemma for_each_exceptions (import_nodes : list stmt)
    (dest_file_path : string) (remove_from_source : bool)
    (position : option string) (handle_conflicts : string) (st : trees)
    (object_nodes : list stmt) :
  forall w,
    wp (for_each
          (process_object ast_unparse None import_nodes dest_file_path
             remove_from_source position handle_conflicts)
          object_nodes st) w
       (fun st' w' => st' = st /\ untouched w w')
       (fun e w' =>
          (e = ValueError_handle_conflicts handle_conflicts
           \/ e = TypeError_not_iterable) /\ untouched w w').
Proof.
  induction object_nodes as [|n ns IH]; intros w; simpl.
  - apply wp_ret. split; [reflexivity | split; reflexivity].
  - apply wp_bind.
    eapply wp_consequence; [apply process_object_exceptions | | auto].
    intros st' w1 [-> Hw1]. cbv beta.
    eapply wp_consequence; [apply IH | | ].
    + intros st' w2 [-> Hw2]. split; [reflexivity | ].
      eapply untouched_trans; eassumption.
    + intros e w2 [He Hw2]. split; [exact He | ].
      eapply untouched_trans; eassumption.
Qed.

(** The three [except] clauses leave three kinds of error: the
    file-not-found error for the file that was missing, the syntax
    error for the source path, and the generic exception around
    anything else. *)
Lemma reraise_cases (source_file_path : string) (e : exn) :
  (exists filename,
      (e = FileNotFoundError filename \/ e = FileNotFoundError_tagged filename)
      /\ reraise source_file_path e = FileNotFoundError_tagged filename)
  \/ ((e = SyntaxError \/ exists path, e = SyntaxError_tagged path)
      /\ reraise source_file_path e = SyntaxError_tagged source_file_path)
  \/ reraise source_file_path e = Exception_ e.
Proof. destruct e; cbn; eauto 8. Qed.

Lemma move_objects_reraises (object_names : list string)
    (source_file_path dest_file_path : string) (remove_from_source : bool)
    (position : option string) (handle_conflicts : string) (w w' : world)
    (e : exn) :
  relocation object_names source_file_path dest_file_path
    remove_from_source position handle_conflicts w = (inl e, w') ->
  exists inner,
    move_objects_try ast_parse ast_unparse stdlib_module_names sys_modules
      path_object write_error object_names source_file_path dest_file_path
      remove_from_source position handle_conflicts w = (inl inner, w')
    /\ e = reraise source_file_path inner.
Proof.
  unfold move_objects, try_except.
  destruct (move_objects_try _ _ _ _ _ _ _ _ _ _ _ _ w) as [[e0 | a] w0];
    [ | discriminate].
  cbn. intros H. injection H as <- <-. eauto.
Qed.

(** X1: the relocation returns exactly when the source file exists and
    parses, as many definitions are found as names were requested, the
    text of the destination (empty when there is no such file) parses,
    every definition found is skipped by the conflict policy, the
    destination can be opened for writing and, where the source is to
    be written back, so can the source. *)
Theorem relocation_returns_iff (object_names : list string)
    (source_file_path dest_file_path : string) (remove_from_source : bool)
    (position : option string) (handle_conflicts : string) (w : world) :
  fst (relocation object_names source_file_path dest_file_path
         remove_from_source position handle_conflicts w) = inr tt
  <-> (exists source_code source_tree dest_tree,
          files w !! source_file_path = Some source_code
          /\ ast_parse source_code = inr source_tree
          /\ ast_parse (dest_code_of w dest_file_path) = inr dest_tree
          /\ length (fst (find_objects object_names source_tree))
             = length object_names
          /\ Forall (skipped handle_conflicts (body dest_tree))
               (fst (find_objects object_names source_tree)))
      /\ write_error dest_file_path = None
      /\ (remove_from_source = true -> write_error source_file_path = None).
Proof.
  split.
  - destruct (relocation object_names source_file_path dest_file_path
                remove_from_source position handle_conflicts w)
      as [r w'] eqn:Hrun.
    simpl. intros ->.
    split; [ | eapply move_objects_returns_writable; eassumption].
    apply move_objects_returns in Hrun.
    destruct Hrun as (source_code & source_tree & dest_tree & Hsrc & Hparse
                      & Hdest & Hlen & Hskip & _).
    eauto 10.
  - intros ((source_code & source_tree & dest_tree & Hsrc & Hparse & Hdest
             & Hlen & Hskip) & Hwd & Hws).
    now rewrite (skipped_batch_run object_names source_file_path
                   dest_file_path remove_from_source position
                   handle_conflicts w source_code source_tree dest_tree).
Qed.

(** X2: what a relocation that returns has printed: the error message
    of the analyzer, one skip notice for every definition found, in the
    order of the walk, and the message that the objects were moved. *)
Theorem returning_run_prints (object_names : list string)
    (source_file_path dest_file_path : string) (remove_from_source : bool)
    (position : option string) (handle_conflicts : string) (w w' : world)
    (Hrun : relocation object_names source_file_path dest_file_path
              remove_from_source position handle_conflicts w = (inr tt, w')) :
  exists source_code source_tree,
    files w !! source_file_path = Some source_code
    /\ ast_parse source_code = inr source_tree
    /\ stdout w'
       = stdout w
           ++ [DependencyError TypeError_compile_arg]
           ++ map (fun n => Skipping (stmt_name n) dest_file_path)
                (fst (find_objects object_names source_tree))
           ++ [MovedSuccessfully object_names source_file_path
                 dest_file_path].
Proof.
  pose proof (move_objects_returns _ _ _ _ _ _ _ _ _ _ _ _ _ _ Hrun) as H.
  destruct (move_objects_returns_writable _ _ _ _ _ _ _ _ _ _ _ _ _ _ Hrun)
    as [Hwd Hws].
  destruct H as (source_code & source_tree & dest_tree & Hsrc & Hparse
                 & Hdest & Hlen & Hskip & _).
  exists source_code, source_tree. split; [exact Hsrc | split; [exact Hparse | ]].
  rewrite (skipped_batch_run object_names source_file_path dest_file_path
             remove_from_source position handle_conflicts w source_code
             source_tree dest_tree Hsrc Hparse Hdest Hlen Hskip Hwd Hws)
    in Hrun.
  injection Hrun as <-. reflexivity.
Qed.


(** X4: without a usable source nothing else happens: a missing source
    file raises the file-not-found error for its path, a source that
    does not parse the syntax error, and the world is left exactly as it
    was (nothing printed, the destination not read). *)
Theorem unusable_source_error (object_names : list string)
    (source_file_path dest_file_path : string) (remove_from_source : bool)
    (position : option string) (handle_conflicts : string) (w : world)
    (Hsource : files w !! source_file_path = None
               \/ exists source_code,
                    files w !! source_file_path = Some source_code
                    /\ ast_parse source_code = inl SyntaxError) :
  relocation object_names source_file_path dest_file_path
    remove_from_source position handle_conflicts w
  = (inl (match files w !! source_file_path with
          | None => FileNotFoundError_tagged source_file_path
          | Some _ => SyntaxError_tagged source_file_path
          end), w).
Proof.
  unfold move_objects, try_except, move_objects_try.
  unfold bind at 1. unfold read_file.
  destruct Hsource as [Hnone | (source_code & Hsome & Hparse)].
  - rewrite Hnone. reflexivity.
  - rewrite Hsome. unfold bind at 1. simpl ast_parse_arg. rewrite Hparse.
    reflexivity.
Qed.

(** X5: a destination whose text does not parse is reported as invalid
    syntax in the source file: the error carries the source path, after
    the analyzer's message has been printed, and nothing is written. *)
Theorem destination_syntax_error_names_source (object_names : list string)
    (source_file_path dest_file_path : string) (remove_from_source : bool)
    (position : option string) (handle_conflicts : string) (w : world)
    (source_code : string) (source_tree : module_)
    (Hsrc : files w !! source_file_path = Some source_code)
    (Hparse : ast_parse source_code = inr source_tree)
    (Hlen : length (fst (find_objects object_names source_tree))
            = length object_names)
    (Hdest : ast_parse (dest_code_of w dest_file_path) = inl SyntaxError) :
  relocation object_names source_file_path dest_file_path
    remove_from_source position handle_conflicts w
  = (inl (SyntaxError_tagged source_file_path),
     World (files w) (stdout w ++ [DependencyError TypeError_compile_arg])
       (writes w)).
Proof.
  assert (Hwp : wp (move_objects_try ast_parse ast_unparse stdlib_module_names
                      sys_modules path_object write_error object_names
                      source_file_path
                      dest_file_path remove_from_source position
                      handle_conflicts) w
                  (fun _ _ => False)
                  (fun e w' =>
                     e = SyntaxError
                     /\ w' = World (files w)
                               (stdout w
                                  ++ [DependencyError TypeError_compile_arg])
                               (writes w))).
  { unfold move_objects_try.
    apply wp_bind, wp_read_file. rewrite Hsrc.
    apply wp_bind, wp_lift. simpl ast_parse_arg. rewrite Hparse.
    apply wp_bind. unfold check_found. rewrite Hlen, Nat.eqb_refl. simpl negb.
    apply wp_ret, wp_bind.
    eapply wp_prints_only; [apply analyzer_on_names | ].
    apply wp_bind, wp_is_file.
    apply wp_bind, wp_read_dest.
    change (dest_code_of _ dest_file_path)
      with (dest_code_of w dest_file_path).
    apply wp_bind, wp_lift. simpl ast_parse_arg. rewrite Hdest.
    split; reflexivity. }
  unfold move_objects, try_except. unfold wp in Hwp.
  destruct (move_objects_try _ _ _ _ _ _ _ _ _ _ _ _ w) as [[e | a] w'];
    [ | contradiction].
  destruct Hwp as [-> ->]. reflexivity.
Qed.

(** No definition is found for an empty list of names. *)
Lemma find_objects_of_nothing (source_tree : module_) :
  fst (find_objects [] source_tree) = [].
Proof.
  rewrite find_objects_found.
  induction (stmts_of (walk (NModule source_tree))) as [|s l IH]; simpl;
    [reflexivity | ].
  now rewrite andb_false_r.
Qed.

(** X6: with an empty list of names, and the files it writes
    writable, the relocation still runs to the end: it returns, writes
    the serialization of the destination's tree to the destination path
    (creating the file when there was none), writes the source back
    when asked to, and prints that the objects were moved. *)
Theorem empty_request_rewrites_destination
    (source_file_path dest_file_path : string) (remove_from_source : bool)
    (position : option string) (handle_conflicts : string) (w : world)
    (source_code : string) (source_tree dest_tree : module_)
    (Hsrc : files w !! source_file_path = Some source_code)
    (Hparse : ast_parse source_code = inr source_tree)
    (Hdest : ast_parse (dest_code_of w dest_file_path) = inr dest_tree)
    (Hwd : write_error dest_file_path = None)
    (Hws : remove_from_source = true -> write_error source_file_path = None) :
  let r := relocation [] source_file_path dest_file_path remove_from_source
             position handle_conflicts w in
  fst r = inr tt
  /\ writes (snd r)
     = writes w
         ++ (dest_file_path, ast_unparse (NModule dest_tree))
         :: (if remove_from_source
             then [(source_file_path, ast_unparse (NModule source_tree))]
             else [])
  /\ stdout (snd r)
     = stdout w
         ++ [DependencyError TypeError_compile_arg;
             MovedSuccessfully [] source_file_path dest_file_path].
Proof.
  intros r. subst r.
  assert (Hlen : length (fst (find_objects [] source_tree))
                 = length (@nil string))
    by now rewrite find_objects_of_nothing.
  assert (Hskip : Forall (skipped handle_conflicts (body dest_tree))
                    (fst (find_objects [] source_tree)))
    by (rewrite find_objects_of_nothing; constructor).
  rewrite (skipped_batch_run [] source_file_path dest_file_path
             remove_from_source position handle_conflicts w source_code
             source_tree dest_tree Hsrc Hparse Hdest Hlen Hskip Hwd Hws).
  unfold skipped_batch_world. cbn [fst snd stdout writes].
  rewrite find_objects_of_nothing. auto.
Qed.

(** X7: the not-found error can list no name at all.  When every
    requested name has a definition among those found and still the
    counts differ (a name defined more than once, or requested twice),
    the relocation raises the not-found error with the empty set of
    missing names, and the world is left as it was. *)
Theorem not_found_with_nothing_missing (object_names : list string)
    (source_file_path dest_file_path : string) (remove_from_source : bool)
    (position : option string) (handle_conflicts : string) (w : world)
    (source_code : string) (source_tree : module_)
    (Hsrc : files w !! source_file_path = Some source_code)
    (Hparse : ast_parse source_code = inr source_tree)
    (Hall : forall name,
        In name object_names ->
        In name (map stmt_name (fst (find_objects object_names source_tree))))
    (Hlen : length (fst (find_objects object_names source_tree))
            <> length object_names) :
  relocation object_names source_file_path dest_file_path
    remove_from_source position handle_conflicts w
  = (inl (Exception_ (ValueError_not_found ∅ source_file_path)), w).
Proof.
  rewrite (not_found_on_length_mismatch ast_parse ast_unparse
             stdlib_module_names sys_modules path_object write_error
             object_names
             source_file_path dest_file_path remove_from_source position
             handle_conflicts w source_code source_tree Hsrc Hparse Hlen).
  do 4 f_equal.
  apply set_eq. intros name. rewrite elem_of_difference, !elem_of_list_to_set,
    !list_elem_of_In. split.
  - intros [Hin Hnot]. exfalso. apply Hnot, Hall, Hin.
  - intros H. now apply not_elem_of_empty in H.
Qed.

End Relocation.

Lemma filter_Permutation_list {A} (p : A -> bool) (l l' : list A) :
  Permutation l l' -> Permutation (List.filter p l) (List.filter p l').
Proof.
  induction 1 as [ | x l l' _ IH | x y l | l l' l'' _ IH1 _ IH2]; simpl.
  - constructor.
  - destruct (p x); [now constructor | exact IH].
  - destruct (p x), (p y); try reflexivity. apply perm_swap.
  - etransitivity; eassumption.
Qed.

Lemma stmts_of_Permutation (l l' : list node) :
  Permutation l l' -> Permutation (stmts_of l) (stmts_of l').
Proof. apply Permutation_flat_map. Qed.

(** The import statements collected are those met in the walk of each
    definition found, in that order. *)
Lemma find_objects_imports (object_names : list string) (source_tree : module_) :
  snd (find_objects object_names source_tree)
  = flat_map (fun s => List.filter is_import (stmts_of (walk (NStmt s))))
      (fst (find_objects object_names source_tree)).
Proof.
  unfold find_objects.
  generalize (walk (NModule source_tree)) as l.
  enough (H : forall l object_nodes import_nodes,
             let r :=
               fold_left
                 (fun (acc : list stmt * list stmt) (n : node) =>
                    let (object_nodes, import_nodes) := acc in
                    match n with
                    | NStmt s =>
                        if is_def s
                           && existsb (String.eqb (stmt_name s)) object_names
                        then (object_nodes ++ [s],
                              import_nodes
                                ++ List.filter is_import
                                     (stmts_of (walk (NStmt s))))
                        else acc
                    | _ => acc
                    end) l (object_nodes, import_nodes) in
             import_nodes
             = flat_map
                 (fun s => List.filter is_import (stmts_of (walk (NStmt s))))
                 object_nodes ->
             snd r
             = flat_map
                 (fun s => List.filter is_import (stmts_of (walk (NStmt s))))
                 (fst r)).
  { intros l. now apply (H l [] []). }
  induction l as [|n l IH]; intros object_nodes import_nodes; simpl.
  - auto.
  - intros Hinv. destruct n as [m | s | e]; try now apply IH.
    destruct (is_def s && existsb (String.eqb (stmt_name s)) object_names);
      [ | now apply IH].
    apply IH. rewrite flat_map_app, Hinv. simpl. now rewrite app_nil_r.
Qed.

(** X8: the locator finds every definition of the tree whose name is
    requested, at the top level or nested at any depth, each one once;
    and the import statements it collects are exactly those that occur
    inside a definition found. *)
Theorem locator_finds_requested_definitions (object_names : list string)
    (source_tree : module_) :
  Permutation (fst (find_objects object_names source_tree))
    (List.filter
       (fun s => is_def s && existsb (String.eqb (stmt_name s)) object_names)
       (stmts_of (preorder (NModule source_tree))))
  /\ (forall i,
        In i (snd (find_objects object_names source_tree))
        <-> exists s, In s (fst (find_objects object_names source_tree))
                      /\ In (NStmt i) (preorder (NStmt s))
                      /\ is_import i = true).
Proof.
  split.
  - rewrite find_objects_found.
    apply filter_Permutation_list, stmts_of_Permutation, walk_perm.
  - intros i. rewrite find_objects_imports, in_flat_map. split.
    + intros (s & Hs & Hi). apply filter_In in Hi as [Hi Himp].
      exists s. repeat split; [exact Hs | | exact Himp].
      now apply walk_In, stmts_of_In.
    + intros (s & Hs & Hi & Himp). exists s. split; [exact Hs | ].
      apply filter_In. split; [ | exact Himp].
      now apply stmts_of_In, walk_In.
Qed.

(** *** On concrete files *)

Import Scenario.

Lemma returning_run_prints_witness :
  let w := fresh [("src.py", text_def "foo" "1");
                  ("dst.py", text_def "foo" "0")] in
  let w' := snd (relocate ["foo"] "src.py" "dst.py" false None "skip" w) in
  relocate ["foo"] "src.py" "dst.py" false None "skip" w = (inr tt, w')
  /\ exists source_code source_tree,
       files w !! "src.py" = Some source_code
       /\ parse_table table source_code = inr source_tree
       /\ stdout w'
          = stdout w
              ++ [DependencyError TypeError_compile_arg]
              ++ map (fun n => Skipping (stmt_name n) "dst.py")
                   (fst (find_objects ["foo"] source_tree))
              ++ [MovedSuccessfully ["foo"] "src.py" "dst.py"].
Proof.
  intros w w'.
  assert (Hrun : relocate ["foo"] "src.py" "dst.py" false None "skip" w
                 = (inr tt, w')) by (vm_compute; reflexivity).
  split; [exact Hrun | ].
  exact (returning_run_prints (parse_table table) unparse ∅ ∅ path_object
           writable ["foo"] "src.py" "dst.py" false None "skip" w w' Hrun).
Defined.


(** The same run, evaluated: the destination file holds the
    serialization of its tree and the source file is as it was. *)
Example source_not_writable_example :
  let w := fresh [("src.py", text_def "foo" "1");
                  ("dst.py", text_def "foo" "0")] in
  let w' := snd (move_objects (parse_table table) unparse ∅ ∅ path_object
                   read_only_source ["foo"] "src.py" "dst.py" true None
                   "skip" w) in
  new_writes w w' = [("dst.py", unparse (NModule foo_old))]
  /\ files w' !! "src.py" = Some (text_def "foo" "1").
Proof. vm_compute. split; reflexivity. Qed.

(** A destination in a directory that does not exist: the error names
    the destination, and nothing is written. *)
Example missing_directory_example :
  let w := fresh [("src.py", text_def "foo" "1")] in
  move_objects (parse_table table) unparse ∅ ∅ path_object
    no_such_directory [] "src.py" "out/dst.py" false None "overwrite" w
  = (inl (FileNotFoundError_tagged "out/dst.py"),
     World (files w) [DependencyError TypeError_compile_arg] (writes w)).
Proof. vm_compute. reflexivity. Qed.

Lemma unusable_source_error_witness :
  let w := fresh [("dst.py", text_def "foo" "0")] in
  (files w !! "src.py" = None
   \/ exists source_code,
        files w !! "src.py" = Some source_code
        /\ parse_table table source_code = inl SyntaxError)
  /\ relocate ["foo"] "src.py" "dst.py" false None "overwrite" w
     = (inl (match files w !! "src.py" with
             | None => FileNotFoundError_tagged "src.py"
             | Some _ => SyntaxError_tagged "src.py"
             end), w).
Proof.
  intros w.
  assert (Hsource : files w !! "src.py" = None
                    \/ exists source_code,
                         files w !! "src.py" = Some source_code
                         /\ parse_table table source_code = inl SyntaxError)
    by (left; vm_compute; reflexivity).
  split; [exact Hsource | ].
  exact (unusable_source_error (parse_table table) unparse ∅ ∅ path_object
           writable ["foo"] "src.py" "dst.py" false None "overwrite" w Hsource).
Defined.

Lemma destination_syntax_error_witness :
  let w := fresh [("src.py", text_def "foo" "1"); ("dst.py", "def (")] in
  files w !! "src.py" = Some (text_def "foo" "1")
  /\ parse_table table (text_def "foo" "1") = inr foo_new
  /\ length (fst (find_objects ["foo"] foo_new)) = length ["foo"]
  /\ parse_table table (dest_code_of w "dst.py") = inl SyntaxError
  /\ relocate ["foo"] "src.py" "dst.py" false None "overwrite" w
     = (inl (SyntaxError_tagged "src.py"),
        World (files w) (stdout w ++ [DependencyError TypeError_compile_arg])
          (writes w)).
Proof.
  intros w.
  assert (Hsrc : files w !! "src.py" = Some (text_def "foo" "1"))
    by (vm_compute; reflexivity).
  assert (Hparse : parse_table table (text_def "foo" "1") = inr foo_new)
    by (vm_compute; reflexivity).
  assert (Hlen : length (fst (find_objects ["foo"] foo_new)) = length ["foo"])
    by (vm_compute; reflexivity).
  assert (Hdest : parse_table table (dest_code_of w "dst.py") = inl SyntaxError)
    by (vm_compute; reflexivity).
  repeat (split; [assumption | ]).
  exact (destination_syntax_error_names_source (parse_table table) unparse
           ∅ ∅ path_object writable ["foo"] "src.py" "dst.py" false None
           "overwrite" w (text_def "foo" "1") foo_new Hsrc Hparse Hlen Hdest).
Defined.

Lemma empty_request_witness :
  let w := fresh [("src.py", text_def "foo" "1")] in
  let r := relocate [] "src.py" "dst.py" false None "overwrite" w in
  files w !! "src.py" = Some (text_def "foo" "1")
  /\ parse_table table (text_def "foo" "1") = inr foo_new
  /\ parse_table table (dest_code_of w "dst.py") = inr (Module_ [])
  /\ writable "dst.py" = None
  /\ (false = true -> writable "src.py" = None)
  /\ fst r = inr tt
  /\ writes (snd r)
     = writes w ++ [("dst.py", unparse (NModule (Module_ [])))]
  /\ stdout (snd r)
     = stdout w
         ++ [DependencyError TypeError_compile_arg;
             MovedSuccessfully [] "src.py" "dst.py"].
Proof.
  intros w r.
  assert (Hsrc : files w !! "src.py" = Some (text_def "foo" "1"))
    by (vm_compute; reflexivity).
  assert (Hparse : parse_table table (text_def "foo" "1") = inr foo_new)
    by (vm_compute; reflexivity).
  assert (Hdest : parse_table table (dest_code_of w "dst.py")
                  = inr (Module_ []))
    by (vm_compute; reflexivity).
  assert (Hwd : writable "dst.py" = None) by reflexivity.
  assert (Hws : false = true -> writable "src.py" = None) by discriminate.
  repeat (split; [assumption | ]).
  exact (empty_request_rewrites_destination (parse_table table) unparse
           ∅ ∅ path_object writable "src.py" "dst.py" false None "overwrite" w
           (text_def "foo" "1") foo_new (Module_ []) Hsrc Hparse Hdest
           Hwd Hws).
Defined.

Lemma not_found_with_nothing_missing_witness :
  let w := fresh [("src.py", two_a_text)] in
  files w !! "src.py" = Some two_a_text
  /\ parse_table table two_a_text = inr two_a
  /\ (forall name,
        In name ["a"] ->
        In name (map stmt_name (fst (find_objects ["a"] two_a))))
  /\ length (fst (find_objects ["a"] two_a)) <> length ["a"]
  /\ relocate ["a"] "src.py" "dst.py" false None "overwrite" w
     = (inl (Exception_ (ValueError_not_found ∅ "src.py")), w).
Proof.
  intros w.
  assert (Hsrc : files w !! "src.py" = Some two_a_text)
    by (vm_compute; reflexivity).
  assert (Hparse : parse_table table two_a_text = inr two_a)
    by (vm_compute; reflexivity).
  assert (Hall : forall name,
             In name ["a"] ->
             In name (map stmt_name (fst (find_objects ["a"] two_a)))).
  { intros name [<- | []]. vm_compute. left. reflexivity. }
  assert (Hlen : length (fst (find_objects ["a"] two_a)) <> length ["a"])
    by (vm_compute; discriminate).
  repeat (split; [assumption | ]).
  exact (not_found_with_nothing_missing (parse_table table) unparse ∅ ∅
           path_object writable ["a"] "src.py" "dst.py" false None "overwrite" w
           two_a_text two_a Hsrc Hparse Hall Hlen).
Defined.

End RelocationOutcomes.

(** ** The steps of one turn of the relocation loop *)

Module TurnFacts.
Import Ast ReturnPyObjectInfo PyObjectActions Stated EffectFacts AstFacts
  RelocationFacts.

Lemma find_index_some (p : stmt -> bool) (l : list stmt) (k : nat) :
  find_index p l = Some k ->
  (exists x, nth_error l k = Some x /\ p x = true)
  /\ Forall (fun y => p y = false) (firstn k l)
  /\ k < length l.
Proof.
  revert k. induction l as [|x l IH]; intros k; simpl; [discriminate | ].
  destruct (p x) eqn:Hp.
  - intros H; injection H as <-. simpl. split; [eauto | split; [constructor | lia]].
  - destruct (find_index p l) as [j | ]; simpl; [ | discriminate].
    intros H; injection H as <-. destruct (IH j eq_refl) as (Hx & Hpre & Hlt).
    simpl. split; [exact Hx | split; [now constructor | lia]].
Qed.

Lemma find_index_none (p : stmt -> bool) (l : list stmt) :
  find_index p l = None -> Forall (fun y => p y = false) l.
Proof.
  induction l as [|x l IH]; simpl; [constructor | ].
  destruct (p x) eqn:Hp; [discriminate | ].
  destruct (find_index p l); simpl; [discriminate | ].
  intros _. constructor; auto.
Qed.

Lemma NoDup_app_intro {A} (l l' : list A) :
  List.NoDup l -> List.NoDup l' ->
  (forall x, In x l -> In x l' -> False) -> List.NoDup (l ++ l').
Proof.
  induction l as [|a l IH]; simpl; intros Hl Hl' Hdis; [exact Hl' | ].
  inversion Hl as [ | ? ? Ha Hl0]; subst. constructor.
  - intros Hin. apply in_app_or in Hin as [Hin | Hin]; [contradiction | ].
    eapply Hdis; [left; reflexivity | exact Hin].
  - apply IH; auto. intros x Hx. apply Hdis. now right.
Qed.

Section Steps.

Variable ast_unparse : node -> string.

(** The serialized text of a statement, by which imports are compared. *)
Local Abbreviation text := (fun s : stmt => ast_unparse (NStmt s)).

Lemma place_inserts (position : option string) (dest_file_path : string)
    (body : list stmt) (object_node : stmt) :
  exists i out,
    i <= length body
    /\ prints_only (place position dest_file_path body object_node)
         (inr (firstn i body ++ object_node :: skipn i body)) out.
Proof.
  assert (Hend : body ++ [object_node]
                 = firstn (length body) body
                     ++ object_node :: skipn (length body) body)
    by now rewrite firstn_all, skipn_all.
  unfold place. destruct position as [p | ].
  - destruct (String.eqb p "bottom").
    { exists (length body), []. split; [lia | ].
      rewrite <- Hend. apply prints_only_ret. }
    destruct (String.eqb p "top").
    { exists 0, []. split; [lia | ]. apply prints_only_ret. }
    destruct (find_index (is_named_def p) body) as [k | ] eqn:Hfind.
    + exists (k + 1), []. apply find_index_some in Hfind as (_ & _ & Hlt).
      split; [lia | ]. apply prints_only_ret.
    + exists (length body), ([TargetNotFound p dest_file_path] ++ []).
      split; [lia | ]. rewrite <- Hend.
      eapply prints_only_bind; [apply prints_only_print | apply prints_only_ret].
  - exists (length body), []. split; [lia | ].
    rewrite <- Hend. apply prints_only_ret.
Qed.

(** X9: the position step (lines 79-99) never raises and inserts the
    node once, keeping the statements already there in their order: at
    the front for 'top' (even when a declaration is named top), at the
    end for 'bottom' or no position, right after the first declaration
    of the given name when there is one, and otherwise at the end with
    a notice. *)
Theorem position_step_inserts_once (position : option string)
    (dest_file_path : string) (body : list stmt) (object_node : stmt)
    (w : world) :
  exists i out,
    place position dest_file_path body object_node w
    = (inr (firstn i body ++ object_node :: skipn i body),
       World (files w) (stdout w ++ out) (writes w))
    /\ i <= length body
    /\ match position with
       | None => i = length body /\ out = []
       | Some p =>
           if String.eqb p "bottom" then i = length body /\ out = []
           else if String.eqb p "top" then i = 0 /\ out = []
           else
             (exists k target,
                 nth_error body k = Some target
                 /\ is_named_def p target = true
                 /\ Forall (fun s => is_named_def p s = false) (firstn k body)
                 /\ i = k + 1 /\ out = [])
             \/ (Forall (fun s => is_named_def p s = false) body
                 /\ i = length body
                 /\ out = [TargetNotFound p dest_file_path])
       end.
Proof.
  assert (Hend : body ++ [object_node]
                 = firstn (length body) body
                     ++ object_node :: skipn (length body) body)
    by now rewrite firstn_all, skipn_all.
  unfold place. destruct position as [p | ].
  - destruct (String.eqb p "bottom").
    { exists (length body), []. rewrite <- Hend, world_eta. auto. }
    destruct (String.eqb p "top").
    { exists 0, []. rewrite world_eta. simpl. repeat split; lia. }
    destruct (find_index (is_named_def p) body) as [k | ] eqn:Hfind.
    + exists (k + 1), [].
      apply find_index_some in Hfind as ((target & Hnth & Hp) & Hpre & Hlt).
      rewrite world_eta. split; [reflexivity | split; [lia | ]].
      left. exists k, target. auto.
    + exists (length body), [TargetNotFound p dest_file_path].
      apply find_index_none in Hfind. rewrite <- Hend.
      split; [reflexivity | split; [lia | ]]. right. auto.
  - exists (length body), []. rewrite <- Hend, world_eta. auto.
Qed.

Lemma insert_if_absent_present (body : list stmt) (new : stmt) :
  existsb
    (fun node => String.eqb (ast_unparse (NStmt node)) (ast_unparse (NStmt new)))
    body = true
  <-> In (text new) (map text body).
Proof.
  rewrite existsb_exists, in_map_iff. split.
  - intros (x & Hin & Heq). apply String.eqb_eq in Heq. eauto.
  - intros (x & Heq & Hin). exists x. split; [exact Hin | ].
    now apply String.eqb_eq.
Qed.

(** What a loop of guarded front insertions makes of a body. *)
Lemma insert_all_spec (new_nodes : list stmt) :
  forall body : list stmt,
    exists added,
      fold_left (insert_if_absent ast_unparse) new_nodes body = added ++ body
      /\ (forall a, In a added -> In a new_nodes)
      /\ List.NoDup (map text added)
      /\ (forall a, In a added -> ~ In (text a) (map text body))
      /\ (forall n, In n new_nodes ->
            In (text n)
              (map text
                 (fold_left (insert_if_absent ast_unparse) new_nodes body))).
Proof.
  induction new_nodes as [|x l IH]; intros body.
  - exists []. simpl. repeat split; try constructor; intros ? [].
  - simpl. unfold insert_if_absent at 2 4.
    destruct (existsb _ body) eqn:Hex.
    + apply insert_if_absent_present in Hex.
      destruct (IH body) as (added & Heq & Hsub & Hnd & Hfresh & Hall).
      exists added. repeat split; auto.
      intros n [<- | Hn]; [ | now apply Hall].
      rewrite Heq, map_app. apply in_or_app. now right.
    + assert (Hnew : ~ In (text x) (map text body)).
      { intros H. apply insert_if_absent_present in H. congruence. }
      destruct (IH (x :: body)) as (added & Heq & Hsub & Hnd & Hfresh & Hall).
      exists (added ++ [x]). repeat split.
      * now rewrite Heq, <- app_assoc.
      * intros a Ha. apply in_app_or in Ha as [Ha | [<- | []]]; auto.
      * rewrite map_app. apply NoDup_app_intro.
        -- exact Hnd.
        -- simpl. constructor; [intros [] | constructor].
        -- intros t Ht [<- | []]. apply in_map_iff in Ht as (a & Hta & Ha).
           apply (Hfresh a Ha). rewrite Hta. simpl. now left.
      * intros a Ha Hin. apply in_app_or in Ha as [Ha | [<- | []]].
        -- apply (Hfresh a Ha). simpl. now right.
        -- contradiction.
      * intros n [<- | Hn]; [ | now apply Hall].
        rewrite Heq, map_app. apply in_or_app. right. simpl. now left.
Qed.

Lemma insert_all_nothing (new_nodes : list stmt) :
  forall body : list stmt,
    (forall n, In n new_nodes -> In (text n) (map text body)) ->
    fold_left (insert_if_absent ast_unparse) new_nodes body = body.
Proof.
  induction new_nodes as [|x l IH]; intros body Hall; simpl; [reflexivity | ].
  unfold insert_if_absent at 2.
  assert (Hx : existsb
                 (fun node =>
                    String.eqb (ast_unparse (NStmt node))
                      (ast_unparse (NStmt x))) body = true)
    by (apply insert_if_absent_present, Hall; now left).
  rewrite Hx. apply IH. intros n Hn. apply Hall. now right.
Qed.

(** X10: the loop that adds import statements (lines 68-70, and 73-76
    for the synthetic ones) compares serialized text.  It leaves the
    body it is given in place and puts in front of it only nodes of the
    list, none whose text the body already had and no two with the same
    text; afterwards the text of every node of the list occurs in the
    body, a body without repeated texts stays so, and running the loop
    again changes nothing. *)
Theorem import_insertion_deduplicates (new_nodes body : list stmt) :
  let result := fold_left (insert_if_absent ast_unparse) new_nodes body in
  (exists added,
      result = added ++ body
      /\ List.NoDup (map text added)
      /\ (forall a, In a added ->
            In a new_nodes /\ ~ In (text a) (map text body)))
  /\ (forall n, In n new_nodes -> In (text n) (map text result))
  /\ (List.NoDup (map text body) -> List.NoDup (map text result))
  /\ fold_left (insert_if_absent ast_unparse) new_nodes result = result.
Proof.
  intros result. subst result.
  destruct (insert_all_spec new_nodes body)
    as (added & Heq & Hsub & Hnd & Hfresh & Hall).
  split; [exists added; split; [exact Heq | split; [exact Hnd | auto]] | ].
  split; [exact Hall | ].
  split.
  - intros Hbody. rewrite Heq, map_app. apply NoDup_app_intro; auto.
    intros t Ht Hb. apply in_map_iff in Ht as (a & <- & Ha).
    exact (Hfresh a Ha Hb).
  - apply insert_all_nothing, Hall.
Qed.

Lemma filter_nil_iff {A} (p : A -> bool) (l : list A) :
  List.filter p l = [] <-> Forall (fun x => p x = false) l.
Proof.
  induction l as [|x l IH]; simpl.
  - split; [constructor | reflexivity].
  - destruct (p x) eqn:Hp; split.
    + discriminate.
    + intros H. inversion H; subst. congruence.
    + intros H. constructor; [exact Hp | now apply IH].
    + intros H. inversion H; subst. now apply IH.
Qed.

Lemma fold_left_through_map {A B C} (f : A -> C -> A) (g : B -> C)
    (l : list B) :
  forall a, fold_left (fun a x => f a (g x)) l a = fold_left f (map g l) a.
Proof. induction l as [|x l IH]; intros a; simpl; [reflexivity | apply IH]. Qed.

(** X11: one turn of the loop under 'overwrite', when it is handed a
    classification dictionary (which [move_objects] never does) and
    nothing is removed from the source.  The turn returns; afterwards
    the incoming node is the one declaration of its name at the top
    level of the destination, every other statement that was there is
    still there, and the body holds the texts of [import local],
    [import imported] and [import stdlib]: the loop over the dictionary
    runs over its keys, whatever names were classified. *)
Theorem overwriting_turn (d : dependencies) (import_nodes : list stmt)
    (dest_file_path : string) (position : option string) (st : trees)
    (object_node : stmt) (w : world)
    (Hdef : is_def object_node = true)
    (Himports : Forall (fun s => is_def s = false) import_nodes) :
  exists st' out,
    process_object ast_unparse (Some d) import_nodes dest_file_path false
      position "overwrite" st object_node w
    = (inr st', World (files w) (stdout w ++ out) (writes w))
    /\ source_body st' = source_body st
    /\ List.filter (is_named_def (stmt_name object_node)) (dest_body st')
       = [object_node]
    /\ (forall s, In s (dest_body st) ->
          is_named_def (stmt_name object_node) s = false ->
          In s (dest_body st'))
    /\ (forall key, In key ["local"; "imported"; "stdlib"] ->
          In (text (Import [Alias key None])) (map text (dest_body st'))).
Proof.
  set (name := stmt_name object_node).
  set (named := is_named_def name).
  assert (Hres : exists body0,
             resolve_conflict "overwrite" dest_file_path (dest_body st)
               object_node
             = ret (Some (object_node, body0))
             /\ Forall (fun s => named s = false) body0
             /\ (forall s, In s (dest_body st) -> named s = false ->
                   In s body0)).
  { unfold resolve_conflict. fold name. fold named.
    destruct (existsb named (dest_body st)) eqn:Hex.
    - eexists. split; [reflexivity | split].
      + apply List.Forall_forall. intros s Hs. apply filter_In in Hs as [_ Hs].
        now apply negb_true_iff in Hs.
      + intros s Hs Hn. apply filter_In. split; [exact Hs | ].
        now apply negb_true_iff.
    - eexists. split; [reflexivity | split; [ | auto]].
      apply List.Forall_forall. intros s Hs.
      destruct (named s) eqn:Hn; [ | reflexivity].
      assert (existsb named (dest_body st) = true)
        by (apply existsb_exists; eauto).
      congruence. }
  destruct Hres as (body0 & Hres & Hnone0 & Hkeep0).
  destruct (insert_all_spec import_nodes body0)
    as (added1 & Heq1 & Hsub1 & _ & _ & _).
  set (body1 := fold_left (insert_if_absent ast_unparse) import_nodes body0)
    in *.
  set (keys := map (fun dependency => Import [Alias dependency None])
                 (dependencies_keys d)).
  destruct (insert_all_spec keys body1)
    as (added2 & Heq2 & Hsub2 & _ & _ & Hall2).
  set (body2 := fold_left (insert_if_absent ast_unparse) keys body1) in *.
  destruct (place_inserts position dest_file_path body2 object_node)
    as (i & out & Hi & Hplace).
  assert (Hnone2 : Forall (fun s => named s = false) body2).
  { rewrite Heq2, Heq1. repeat apply Forall_app_2; [ | | exact Hnone0].
    - apply List.Forall_forall. intros s Hs. apply Hsub2 in Hs.
      apply in_map_iff in Hs as (k & <- & _). reflexivity.
    - apply List.Forall_forall. intros s Hs. apply Hsub1 in Hs.
      rewrite List.Forall_forall in Himports. unfold named, is_named_def.
      now rewrite (Himports s Hs). }
  assert (Hin2 : forall s, In s body2 ->
                           In s (firstn i body2 ++ object_node :: skipn i body2)).
  { intros s Hs. rewrite <- (firstn_skipn i body2) in Hs.
    apply in_app_or in Hs as [Hs | Hs]; apply in_or_app;
      [now left | right; now right]. }
  assert (Hrun : exists out',
             prints_only
               (process_object ast_unparse (Some d) import_nodes
                  dest_file_path false position "overwrite" st object_node)
               (inr (Trees (source_body st)
                       (firstn i body2 ++ object_node :: skipn i body2)))
               out').
  { eexists. unfold process_object. rewrite Hres.
    eapply prints_only_bind; [apply prints_only_ret | ]. cbv beta iota.
    eapply prints_only_bind; [apply prints_only_ret | ]. cbv beta.
    rewrite (fold_left_through_map (insert_if_absent ast_unparse)
               (fun dependency => Import [Alias dependency None])).
    eapply prints_only_bind; [exact Hplace | ]. cbv beta.
    eapply prints_only_bind; [apply prints_only_ret | apply prints_only_ret]. }
  destruct Hrun as (out' & Hrun).
  exists (Trees (source_body st)
            (firstn i body2 ++ object_node :: skipn i body2)), out'.
  split; [apply Hrun | split; [reflexivity | split; [ | split]]].
  - cbn [dest_body]. rewrite List.filter_app. simpl.
    assert (Hself : named object_node = true).
    { unfold named, is_named_def, name. now rewrite Hdef, String.eqb_refl. }
    fold named. rewrite Hself.
    assert (Hparts : Forall (fun s => named s = false)
                       (firstn i body2 ++ skipn i body2))
      by now rewrite firstn_skipn.
    apply Forall_app in Hparts as [Hf Hs].
    apply filter_nil_iff in Hf. apply filter_nil_iff in Hs.
    now rewrite Hf, Hs.
  - intros s Hs Hn. cbn [dest_body]. apply Hin2. rewrite Heq2, Heq1.
    apply in_or_app. right. apply in_or_app. right. now apply Hkeep0.
  - intros key Hkey. cbn [dest_body].
    assert (Hk : In (Import [Alias key None]) keys)
      by (apply in_map_iff; exists key; auto).
    apply Hall2 in Hk. apply in_map_iff in Hk as (s & Hts & Hs).
    apply in_map_iff. exists s. split; [exact Hts | now apply Hin2].
Qed.

Lemma list_remove_absent (x : stmt) (l : list stmt) :
  Forall (fun y => same_node y x = false) l -> list_remove x l = None.
Proof.
  induction 1 as [|y l Hy _ IH]; simpl; [reflexivity | ].
  now rewrite Hy, IH.
Qed.

Lemma list_remove_first (x y : stmt) (before after : list stmt) :
  Forall (fun z => same_node z x = false) before ->
  same_node y x = true ->
  list_remove x (before ++ y :: after) = Some (before ++ after).
Proof.
  intros Hbefore Hy.
  induction Hbefore as [|z before Hz _ IH]; simpl.
  - now rewrite Hy.
  - now rewrite Hz, IH.
Qed.

Lemma removing_turn_run (d : dependencies) (import_nodes : list stmt)
    (dest_file_path : string) (position : option string)
    (handle_conflicts : string) (st : trees) (object_node : stmt) :
  existsb (is_named_def (stmt_name object_node)) (dest_body st) = false ->
  exists body out,
    prints_only
      (process_object ast_unparse (Some d) import_nodes dest_file_path true
         position handle_conflicts st object_node)
      (match list_remove object_node (source_body st) with
       | Some l => inr (Trees l body)
       | None => inl ValueError_list_remove
       end) out.
Proof.
  intros Hfree.
  set (body1 := fold_left (insert_if_absent ast_unparse) import_nodes
                  (dest_body st)).
  set (body2 := fold_left
                  (fun b dependency =>
                     insert_if_absent ast_unparse b
                       (Import [Alias dependency None]))
                  (dependencies_keys d) body1).
  destruct (place_inserts position dest_file_path body2 object_node)
    as (i & out & _ & Hplace).
  exists (firstn i body2 ++ object_node :: skipn i body2). eexists.
  unfold process_object, resolve_conflict. rewrite Hfree.
  eapply prints_only_bind; [apply prints_only_ret | ]. cbv beta iota.
  eapply prints_only_bind; [apply prints_only_ret | ]. cbv beta.
  eapply prints_only_bind; [exact Hplace | ]. cbv beta.
  destruct (list_remove object_node (source_body st)) as [l | ].
  - eapply prints_only_bind; [apply prints_only_ret | apply prints_only_ret].
  - apply prints_only_bind_raise, prints_only_raise.
Qed.

(** X12: the removal step of a turn (lines 101-103), when the turn is
    handed a classification dictionary and meets no conflict.  The
    node is removed from the top level of the source tree, where the
    first statement that is this node is dropped and the others keep
    their order; a node that is not a statement of the top level (a
    method, which the walk finds as well) makes [list.remove] raise
    ValueError, whatever the policy and the position. *)
Theorem removal_needs_top_level_node (d : dependencies)
    (import_nodes : list stmt) (dest_file_path : string)
    (position : option string) (handle_conflicts : string) (st : trees)
    (object_node : stmt) (w : world)
    (Hfree : existsb (is_named_def (stmt_name object_node)) (dest_body st)
             = false) :
  (Forall (fun y => same_node y object_node = false) (source_body st) ->
   exists out,
     process_object ast_unparse (Some d) import_nodes dest_file_path true
       position handle_conflicts st object_node w
     = (inl ValueError_list_remove,
        World (files w) (stdout w ++ out) (writes w)))
  /\ (forall before y after,
        source_body st = before ++ y :: after ->
        Forall (fun z => same_node z object_node = false) before ->
        same_node y object_node = true ->
        exists st' out,
          process_object ast_unparse (Some d) import_nodes dest_file_path
            true position handle_conflicts st object_node w
          = (inr st', World (files w) (stdout w ++ out) (writes w))
          /\ source_body st' = before ++ after).
Proof.
  destruct (removing_turn_run d import_nodes dest_file_path position
              handle_conflicts st object_node Hfree) as (body & out & Hrun).
  split.
  - intros Habsent. rewrite (list_remove_absent _ _ Habsent) in Hrun.
    exists out. apply Hrun.
  - intros before y after Hsrc Hbefore Hy.
    rewrite Hsrc, (list_remove_first _ _ _ _ Hbefore Hy) in Hrun.
    do 2 eexists. split; [apply Hrun | reflexivity].
Qed.

Lemma set_name_def (new_name : string) (s : stmt) :
  is_def s = true ->
  is_def (set_name new_name s) = true
  /\ stmt_name (set_name new_name s) = new_name.
Proof. destruct s; try discriminate; auto. Qed.

Lemma moved_name_differs (name : string) :
  String.eqb (name ++ "_moved") name = false.
Proof.
  induction name as [|c name IH]; [reflexivity | ].
  simpl. destruct (Ascii.eqb_spec c c); [exact IH | reflexivity].
Qed.

Lemma filter_insert {A} (p : A -> bool) (l : list A) (x : A) (i : nat) :
  List.filter p (firstn i l ++ x :: skipn i l)
  = List.filter p (firstn i l) ++ (if p x then [x] else [])
      ++ List.filter p (skipn i l).
Proof.
  rewrite List.filter_app. cbn [List.filter]. now destruct (p x).
Qed.

Lemma filter_firstn_skipn {A} (p : A -> bool) (l : list A) (i : nat) :
  List.filter p (firstn i l) ++ List.filter p (skipn i l) = List.filter p l.
Proof. now rewrite <- List.filter_app, firstn_skipn. Qed.

(** X24: one turn of the loop under 'rename' for a node whose name the
    destination already declares, when the turn is handed a
    classification dictionary and nothing is removed from the source.
    The turn prints the rename notice first and returns; the node goes
    into the destination under the name with [_moved] appended; the
    declarations of the old name that the destination had are all
    kept, in their order; and the destination has one declaration of
    the new name more than before, since nothing checks that the new
    name is free. *)
Theorem renaming_turn (d : dependencies) (import_nodes : list stmt)
    (dest_file_path : string) (position : option string) (st : trees)
    (object_node : stmt) (w : world)
    (Hdef : is_def object_node = true)
    (Hconflict : existsb (is_named_def (stmt_name object_node))
                   (dest_body st) = true)
    (Himports : Forall (fun s => is_def s = false) import_nodes) :
  let name := stmt_name object_node in
  let moved := (name ++ "_moved")%string in
  exists st' out,
    process_object ast_unparse (Some d) import_nodes dest_file_path false
      position "rename" st object_node w
    = (inr st',
       World (files w) (stdout w ++ Renamed name moved :: out) (writes w))
    /\ In (set_name moved object_node) (dest_body st')
    /\ List.filter (is_named_def name) (dest_body st')
       = List.filter (is_named_def name) (dest_body st)
    /\ length (List.filter (is_named_def moved) (dest_body st'))
       = S (length (List.filter (is_named_def moved) (dest_body st))).
Proof.
  intros name moved.
  set (node' := set_name moved object_node).
  destruct (set_name_def moved object_node Hdef) as [Hdef' Hname'].
  fold node' in Hdef', Hname'.
  destruct (insert_all_spec import_nodes (dest_body st))
    as (added1 & Heq1 & Hsub1 & _ & _ & _).
  set (body1 := fold_left (insert_if_absent ast_unparse) import_nodes
                  (dest_body st)) in *.
  set (keys := map (fun dependency => Import [Alias dependency None])
                 (dependencies_keys d)).
  destruct (insert_all_spec keys body1)
    as (added2 & Heq2 & Hsub2 & _ & _ & _).
  set (body2 := fold_left (insert_if_absent ast_unparse) keys body1) in *.
  destruct (place_inserts position dest_file_path body2 node')
    as (i & out & _ & Hplace).
  assert (Hdefs : forall n, List.filter (is_named_def n) body2
                            = List.filter (is_named_def n) (dest_body st)).
  { intros n. rewrite Heq2, Heq1, !List.filter_app.
    assert (H1 : List.filter (is_named_def n) added1 = []).
    { apply filter_nil_iff, List.Forall_forall. intros s Hs.
      apply Hsub1 in Hs. rewrite List.Forall_forall in Himports.
      unfold is_named_def. now rewrite (Himports s Hs). }
    assert (H2 : List.filter (is_named_def n) added2 = []).
    { apply filter_nil_iff, List.Forall_forall. intros s Hs.
      apply Hsub2 in Hs. apply in_map_iff in Hs as (k & <- & _).
      reflexivity. }
    now rewrite H1, H2. }
  assert (Hrun : prints_only
                   (process_object ast_unparse (Some d) import_nodes
                      dest_file_path false position "rename" st object_node)
                   (inr (Trees (source_body st)
                           (firstn i body2 ++ node' :: skipn i body2)))
                   (([Renamed name moved] ++ []) ++ [] ++ out ++ [] ++ [])).
  { unfold process_object, resolve_conflict. rewrite Hconflict.
    cbn [String.eqb Ascii.eqb Bool.eqb].
    eapply prints_only_bind.
    { eapply prints_only_bind; [apply prints_only_print | apply prints_only_ret]. }
    cbv beta iota.
    eapply prints_only_bind; [apply prints_only_ret | ]. cbv beta.
    rewrite (fold_left_through_map (insert_if_absent ast_unparse)
               (fun dependency => Import [Alias dependency None])).
    eapply prints_only_bind; [exact Hplace | ]. cbv beta.
    eapply prints_only_bind; [apply prints_only_ret | apply prints_only_ret]. }
  exists (Trees (source_body st) (firstn i body2 ++ node' :: skipn i body2)),
    out.
  split; [ | split; [ | split]].
  - rewrite Hrun. cbn [app]. now rewrite !app_nil_r.
  - cbn [dest_body]. apply in_or_app. right. now left.
  - cbn [dest_body]. rewrite filter_insert.
    assert (Hn : is_named_def name node' = false).
    { unfold is_named_def. rewrite Hname'. unfold moved.
      now rewrite moved_name_differs, andb_false_r. }
    rewrite Hn. cbn [app]. now rewrite filter_firstn_skipn, Hdefs.
  - cbn [dest_body]. rewrite filter_insert.
    assert (Hm : is_named_def moved node' = true).
    { unfold is_named_def. now rewrite Hdef', Hname', String.eqb_refl. }
    rewrite Hm, !length_app. cbn [length].
    rewrite <- Hdefs, <- (filter_firstn_skipn (is_named_def moved) body2 i),
      length_app. lia.
Qed.

(** *** The names declared after a turn *)

(** How the conflict step (lines 47-65) ends when it returns. *)
Lemma resolve_conflict_outcome (handle_conflicts dest_file_path : string)
    (body : list stmt) (object_node : stmt) (w : world) :
  wp (resolve_conflict handle_conflicts dest_file_path body object_node) w
     (fun r _ =>
        let name := stmt_name object_node in
        match r with
        | None =>
            existsb (is_named_def name) body = true
            /\ handle_conflicts = "skip"
        | Some (placed, kept) =>
            (existsb (is_named_def name) body = false
             /\ placed = object_node /\ kept = body)
            \/ (existsb (is_named_def name) body = true
                /\ handle_conflicts = "overwrite"
                /\ placed = object_node
                /\ kept = List.filter
                            (fun node => negb (is_named_def name node)) body)
            \/ (existsb (is_named_def name) body = true
                /\ handle_conflicts = "rename"
                /\ placed = set_name (name ++ "_moved") object_node
                /\ kept = body)
        end)
     (fun _ _ => True).
Proof.
  unfold wp, resolve_conflict.
  destruct (existsb _ body) eqn:Hex; [ | cbn; auto].
  destruct (String.eqb_spec handle_conflicts "rename") as [-> | ];
    [cbn; auto 8 | ].
  destruct (String.eqb_spec handle_conflicts "overwrite") as [-> | ];
    [cbn; auto 8 | ].
  destruct (String.eqb_spec handle_conflicts "skip") as [-> | ]; cbn; auto.
Qed.

Lemma declarations_insert (body : list stmt) (placed : stmt) (i : nat) :
  is_def placed = true ->
  Permutation
    (declaration_names (firstn i body ++ placed :: skipn i body))
    (stmt_name placed :: declaration_names body).
Proof.
  intros Hdef. unfold declaration_names, declarations.
  rewrite filter_insert, Hdef.
  rewrite <- (filter_firstn_skipn is_def body i).
  rewrite !map_app. cbn [map app]. symmetry. apply Permutation_middle.
Qed.

Lemma declarations_of_inserted (new_nodes body : list stmt) :
  Forall (fun s => is_def s = false) new_nodes ->
  declarations (fold_left (insert_if_absent ast_unparse) new_nodes body)
  = declarations body.
Proof.
  intros Hnew.
  destruct (insert_all_spec new_nodes body) as (added & -> & Hsub & _).
  unfold declarations. rewrite List.filter_app.
  assert (H : List.filter is_def added = []).
  { apply filter_nil_iff, List.Forall_forall. intros s Hs.
    rewrite List.Forall_forall in Hnew. apply Hnew, Hsub, Hs. }
  now rewrite H.
Qed.

Lemma declaration_names_overwritten (name : string) (body : list stmt) :
  declaration_names
    (List.filter (fun node => negb (is_named_def name node)) body)
  = List.filter (fun n => negb (String.eqb n name)) (declaration_names body).
Proof.
  unfold declaration_names, declarations, is_named_def.
  induction body as [|s body IH]; [reflexivity | ]. cbn [List.filter].
  destruct (is_def s) eqn:Hs; cbn [andb negb map List.filter].
  - destruct (String.eqb (stmt_name s) name); cbn [negb];
      [exact IH | ].
    cbn [List.filter map]. rewrite Hs. cbn [map]. now rewrite IH.
  - cbn [List.filter]. rewrite Hs. exact IH.
Qed.

Lemma undeclared_name (name : string) (body : list stmt) :
  existsb (is_named_def name) body = false ->
  ~ In name (declaration_names body).
Proof.
  intros Hex Hin. unfold declaration_names, declarations in Hin.
  apply in_map_iff in Hin as (s & Hname & Hs).
  apply filter_In in Hs as [Hs Hdef].
  assert (existsb (is_named_def name) body = true); [ | congruence].
  apply existsb_exists. exists s. split; [exact Hs | ].
  unfold is_named_def. rewrite Hdef, Hname. apply String.eqb_refl.
Qed.

(** The names declared at the top of the destination after one turn
    that returns: the name under which the node is placed, and those
    the conflict step kept. *)
Lemma turn_declares (unique_dependencies : option dependencies)
    (import_nodes : list stmt) (dest_file_path : string)
    (remove_from_source : bool) (position : option string)
    (handle_conflicts : string) (st : trees) (object_node : stmt)
    (w : world) :
  is_def object_node = true ->
  Forall (fun s => is_def s = false) import_nodes ->
  wp (process_object ast_unparse unique_dependencies import_nodes
        dest_file_path remove_from_source position handle_conflicts st
        object_node) w
     (fun st' _ =>
        let name := stmt_name object_node in
        let names := declaration_names (dest_body st) in
        let names' := declaration_names (dest_body st') in
        if existsb (is_named_def name) (dest_body st)
        then (handle_conflicts = "skip" /\ st' = st)
             \/ (handle_conflicts = "overwrite"
                 /\ Permutation names'
                      (name :: List.filter
                                 (fun n => negb (String.eqb n name)) names))
             \/ (handle_conflicts = "rename"
                 /\ Permutation names' ((name ++ "_moved")%string :: names))
        else Permutation names' (name :: names))
     (fun _ _ => True).
Proof.
  intros Hdef Himports. unfold process_object.
  apply wp_bind.
  eapply wp_consequence; [apply resolve_conflict_outcome | | auto].
  intros [[placed kept] | ] w1 Hr; cbv beta iota zeta in Hr |- *.
  2: { destruct Hr as [-> ->]. apply wp_ret. now left. }
  assert (Hplaced : is_def placed = true
                    /\ (if existsb (is_named_def (stmt_name object_node))
                             (dest_body st)
                        then (handle_conflicts = "overwrite"
                              /\ stmt_name placed = stmt_name object_node
                              /\ declaration_names kept
                                 = List.filter
                                     (fun n =>
                                        negb (String.eqb n
                                                (stmt_name object_node)))
                                     (declaration_names (dest_body st)))
                             \/ (handle_conflicts = "rename"
                                 /\ stmt_name placed
                                    = (stmt_name object_node ++ "_moved")%string
                                 /\ kept = dest_body st)
                        else stmt_name placed = stmt_name object_node
                             /\ kept = dest_body st)).
  { destruct Hr as [(Hex & -> & ->) | [(Hex & -> & -> & ->)
                                      | (Hex & -> & -> & ->)]];
      rewrite Hex.
    - auto.
    - split; [exact Hdef | left].
      split; [reflexivity | split; [reflexivity | ]].
      apply declaration_names_overwritten.
    - destruct (set_name_def (stmt_name object_node ++ "_moved")
                  object_node Hdef) as [Hd Hn].
      split; [exact Hd | right]. auto. }
  clear Hr. destruct Hplaced as [Hdef' Hcases].
  apply wp_bind. destruct unique_dependencies as [d | ];
    [apply wp_ret | exact I].
  rewrite (fold_left_through_map (insert_if_absent ast_unparse)
             (fun dependency => Import [Alias dependency None])).
  set (body2 := fold_left (insert_if_absent ast_unparse)
                  (map (fun dependency => Import [Alias dependency None])
                     (dependencies_keys d))
                  (fold_left (insert_if_absent ast_unparse) import_nodes
                     kept)).
  assert (Hbody2 : declarations body2 = declarations kept).
  { unfold body2. rewrite !declarations_of_inserted; [reflexivity | | ].
    - exact Himports.
    - apply List.Forall_forall. intros s Hs.
      apply in_map_iff in Hs as (k & <- & _). reflexivity. }
  destruct (place_inserts position dest_file_path body2 placed)
    as (i & out & _ & Hplace).
  apply wp_bind. eapply wp_prints_only; [exact Hplace | ].
  apply wp_bind.
  assert (Hend : forall source w2,
             wp (ret (Trees source
                        (firstn i body2 ++ placed :: skipn i body2))) w2
               (fun st' _ =>
                  let name := stmt_name object_node in
                  let names := declaration_names (dest_body st) in
                  let names' := declaration_names (dest_body st') in
                  if existsb (is_named_def name) (dest_body st)
                  then (handle_conflicts = "skip" /\ st' = st)
                       \/ (handle_conflicts = "overwrite"
                           /\ Permutation names'
                                (name
                                   :: List.filter
                                        (fun n => negb (String.eqb n name))
                                        names))
                       \/ (handle_conflicts = "rename"
                           /\ Permutation names'
                                ((name ++ "_moved")%string :: names))
                  else Permutation names' (name :: names))
               (fun _ _ => True)).
  { intros source w2. apply wp_ret. cbv zeta. cbn [dest_body].
    pose proof (declarations_insert body2 placed i Hdef') as Hperm.
    unfold declaration_names at 2 in Hperm. rewrite Hbody2 in Hperm.
    fold (declaration_names kept) in Hperm.
    destruct (existsb _ (dest_body st)).
    - destruct Hcases as [(-> & Hn & Hk) | (-> & Hn & ->)].
      + right; left. split; [reflexivity | ]. now rewrite <- Hk, <- Hn.
      + right; right. split; [reflexivity | ]. now rewrite <- Hn.
    - destruct Hcases as [Hn ->]. now rewrite <- Hn. }
  destruct remove_from_source.
  - destruct (list_remove placed (source_body st)) as [l | ];
      [apply wp_ret, Hend | exact I].
  - apply wp_ret, Hend.
Qed.

Lemma NoDup_filter_names (p : string -> bool) (l : list string) :
  List.NoDup l -> List.NoDup (List.filter p l).
Proof.
  induction 1 as [|x l Hx Hl IH]; simpl; [constructor | ].
  destruct (p x); [ | exact IH].
  constructor; [ | exact IH]. intros H. apply filter_In in H as [H _].
  contradiction.
Qed.

(** The names stay unique over a turn, the renaming of a node onto a
    name that is already declared apart. *)
Lemma turn_keeps_names_unique (unique_dependencies : option dependencies)
    (import_nodes : list stmt) (dest_file_path : string)
    (remove_from_source : bool) (position : option string)
    (handle_conflicts : string) (st : trees) (object_node : stmt)
    (w : world) :
  is_def object_node = true ->
  Forall (fun s => is_def s = false) import_nodes ->
  List.NoDup (declaration_names (dest_body st)) ->
  wp (process_object ast_unparse unique_dependencies import_nodes
        dest_file_path remove_from_source position handle_conflicts st
        object_node) w
     (fun st' _ =>
        List.NoDup (declaration_names (dest_body st'))
        <-> ~ (handle_conflicts = "rename"
               /\ existsb (is_named_def (stmt_name object_node))
                    (dest_body st) = true
               /\ In (stmt_name object_node ++ "_moved")%string
                    (declaration_names (dest_body st))))
     (fun _ _ => True).
Proof.
  intros Hdef Himports Hunique.
  eapply wp_consequence;
    [apply turn_declares; eassumption | | auto].
  intros st' w' H. cbv zeta in H.
  destruct (existsb _ (dest_body st)) eqn:Hex.
  - destruct H as [(-> & ->) | [(-> & Hperm) | (-> & Hperm)]].
    + split; [intros _ (H & _); discriminate | auto].
    + split; [intros _ (H & _); discriminate | intros _].
      eapply Permutation_NoDup; [symmetry; exact Hperm | ].
      constructor; [ | now apply NoDup_filter_names].
      intros H. apply filter_In in H as [_ H].
      now rewrite String.eqb_refl in H.
    + split.
      * intros Hnd (_ & _ & Hin).
        apply (Permutation_NoDup Hperm) in Hnd.
        inversion Hnd; contradiction.
      * intros Hfree. eapply Permutation_NoDup; [symmetry; exact Hperm | ].
        constructor; [ | exact Hunique]. intros Hin. apply Hfree. auto.
  - split; [intros _ (_ & Hc & _); discriminate | intros _].
    eapply Permutation_NoDup; [symmetry; exact H | ].
    constructor; [ | exact Hunique]. now apply undeclared_name.
Qed.

Lemma loop_keeps_names_unique (unique_dependencies : option dependencies)
    (import_nodes : list stmt) (dest_file_path : string)
    (remove_from_source : bool) (position : option string)
    (handle_conflicts : string) (object_nodes : list stmt) :
  handle_conflicts <> "rename" ->
  Forall (fun n => is_def n = true) object_nodes ->
  Forall (fun s => is_def s = false) import_nodes ->
  forall st w,
    List.NoDup (declaration_names (dest_body st)) ->
    wp (for_each
          (process_object ast_unparse unique_dependencies import_nodes
             dest_file_path remove_from_source position handle_conflicts)
          object_nodes st) w
       (fun st' _ => List.NoDup (declaration_names (dest_body st')))
       (fun _ _ => True).
Proof.
  intros Hpolicy Hdefs Himports.
  induction Hdefs as [|n ns Hn Hns IH]; intros st w Hunique; cbn [for_each].
  - now apply wp_ret.
  - apply wp_bind.
    eapply wp_consequence;
      [apply turn_keeps_names_unique; eassumption | | auto].
    intros st1 w1 H. cbv beta. apply IH. apply H.
    intros (Hr & _). contradiction.
Qed.

(** C4, as the conflict policies have it: when the relocation loop
    returns, having worked on a destination whose top-level
    declaration names were unique, the names are unique again under
    every conflict policy but 'rename'; and a loop over one
    declaration leaves the names unique in every case but one, the
    renaming of a declaration whose name the destination declares
    onto a name, [<name>_moved], that it declares as well: nothing
    checks that the new name is free. *)
Theorem unique_names_by_policy (unique_dependencies : option dependencies)
    (import_nodes : list stmt) (dest_file_path : string)
    (remove_from_source : bool) (position : option string)
    (handle_conflicts : string) (object_nodes : list stmt)
    (st st' : trees) (w w' : world)
    (Hrun : for_each
              (process_object ast_unparse unique_dependencies import_nodes
                 dest_file_path remove_from_source position handle_conflicts)
              object_nodes st w = (inr st', w'))
    (Hdefs : Forall (fun n => is_def n = true) object_nodes)
    (Himports : Forall (fun s => is_def s = false) import_nodes)
    (Hunique : List.NoDup (declaration_names (dest_body st))) :
  (handle_conflicts <> "rename" ->
   List.NoDup (declaration_names (dest_body st')))
  /\ (forall object_node,
        object_nodes = [object_node] ->
        List.NoDup (declaration_names (dest_body st'))
        <-> ~ (handle_conflicts = "rename"
               /\ existsb (is_named_def (stmt_name object_node))
                    (dest_body st) = true
               /\ In (stmt_name object_node ++ "_moved")%string
                    (declaration_names (dest_body st)))).
Proof.
  split.
  - intros Hpolicy.
    pose proof (loop_keeps_names_unique unique_dependencies import_nodes
                  dest_file_path remove_from_source position
                  handle_conflicts object_nodes Hpolicy Hdefs Himports
                  st w Hunique) as H.
    unfold wp in H. now rewrite Hrun in H.
  - intros object_node ->. inversion Hdefs as [|? ? Hdef _]; subst.
    pose proof (turn_keeps_names_unique unique_dependencies import_nodes
                  dest_file_path remove_from_source position
                  handle_conflicts st object_node w Hdef Himports Hunique)
      as H.
    cbn [for_each] in Hrun. unfold bind, wp in *.
    destruct (process_object _ _ _ _ _ _ _ _ _ w) as [[e | st1] w1];
      [discriminate | ].
    unfold ret in Hrun. injection Hrun as <- <-. exact H.
Qed.

End Steps.

Import Scenario.

Lemma overwriting_turn_witness :
  let st := Trees [def_ 1 "foo" "1"] [def_ 1 "foo" "0"; def_ 2 "baz" "2"] in
  let w := fresh [] in
  let d := Dependencies {["helper"]} ∅ {["os"]} in
  is_def (def_ 1 "foo" "1") = true
  /\ Forall (fun s => is_def s = false) [Import [Alias "os" None]]
  /\ exists st' out,
       process_object unparse (Some d) [Import [Alias "os" None]] "dst.py"
         false (Some "top") "overwrite" st (def_ 1 "foo" "1") w
       = (inr st', World (files w) (stdout w ++ out) (writes w))
       /\ source_body st' = source_body st
       /\ List.filter (is_named_def (stmt_name (def_ 1 "foo" "1")))
            (dest_body st')
          = [def_ 1 "foo" "1"]
       /\ (forall s, In s (dest_body st) ->
             is_named_def (stmt_name (def_ 1 "foo" "1")) s = false ->
             In s (dest_body st'))
       /\ (forall key, In key ["local"; "imported"; "stdlib"] ->
             In (unparse (NStmt (Import [Alias key None])))
               (map (fun s => unparse (NStmt s)) (dest_body st'))).
Proof.
  intros st w d.
  assert (Hdef : is_def (def_ 1 "foo" "1") = true) by reflexivity.
  assert (Himports : Forall (fun s => is_def s = false)
                       [Import [Alias "os" None]])
    by (constructor; [reflexivity | constructor]).
  split; [exact Hdef | split; [exact Himports | ]].
  exact (overwriting_turn unparse d [Import [Alias "os" None]] "dst.py"
           (Some "top") st (def_ 1 "foo" "1") w Hdef Himports).
Defined.

(** The same turn, evaluated. *)
Example overwriting_turn_example :
  let st := Trees [def_ 1 "foo" "1"] [def_ 1 "foo" "0"; def_ 2 "baz" "2"] in
  let d := Dependencies {["helper"]} ∅ {["os"]} in
  fst (process_object unparse (Some d) [Import [Alias "os" None]] "dst.py"
         false (Some "top") "overwrite" st (def_ 1 "foo" "1") (fresh []))
  = inr (Trees [def_ 1 "foo" "1"]
           [def_ 1 "foo" "1";
            Import [Alias "stdlib" None];
            Import [Alias "imported" None];
            Import [Alias "local" None];
            Import [Alias "os" None];
            def_ 2 "baz" "2"]).
Proof. vm_compute. reflexivity. Qed.

Lemma removal_needs_top_level_node_witness :
  let method := FunctionDef 3 4 "a" ["self"] [Return (Some (Constant "2"))] [] in
  let st := Trees (body two_a) [] in
  let d := Dependencies ∅ ∅ ∅ in
  let w := fresh [] in
  existsb (is_named_def (stmt_name method)) (dest_body st) = false
  /\ (Forall (fun y => same_node y method = false) (source_body st) ->
      exists out,
        process_object unparse (Some d) [] "dst.py" true None "overwrite"
          st method w
        = (inl ValueError_list_remove,
           World (files w) (stdout w ++ out) (writes w)))
  /\ (forall before y after,
        source_body st = before ++ y :: after ->
        Forall (fun z => same_node z method = false) before ->
        same_node y method = true ->
        exists st' out,
          process_object unparse (Some d) [] "dst.py" true None "overwrite"
            st method w
          = (inr st', World (files w) (stdout w ++ out) (writes w))
          /\ source_body st' = before ++ after).
Proof.
  intros method st d w.
  assert (Hfree : existsb (is_named_def (stmt_name method)) (dest_body st)
                  = false) by reflexivity.
  split; [exact Hfree | ].
  exact (removal_needs_top_level_node unparse d [] "dst.py" None "overwrite"
           st method w Hfree).
Defined.

(** The method [a] of the class [K] is found by the walk and is not a
    statement of the module: removing it raises. *)
Example removal_of_method_example :
  let method := FunctionDef 3 4 "a" ["self"] [Return (Some (Constant "2"))] [] in
  In method (fst (find_objects ["a"] two_a))
  /\ fst (process_object unparse (Some (Dependencies ∅ ∅ ∅)) [] "dst.py" true
            None "overwrite" (Trees (body two_a) []) method (fresh []))
     = inl ValueError_list_remove.
Proof. split; [vm_compute; auto | vm_compute; reflexivity]. Qed.

(** The function [a] of the same file stands at the top level: the
    turn removes it and leaves the class. *)
Example removal_of_function_example :
  match fst (process_object unparse (Some (Dependencies ∅ ∅ ∅)) [] "dst.py"
               true None "overwrite" (Trees (body two_a) [])
               (def_ 1 "a" "1") (fresh [])) with
  | inr st' =>
      source_body st'
      = [ClassDef 2 0 "K" []
           [FunctionDef 3 4 "a" ["self"] [Return (Some (Constant "2"))] []] []]
  | inl _ => False
  end.
Proof. vm_compute. reflexivity. Qed.

Lemma renaming_turn_witness :
  let st := Trees [def_ 1 "foo" "1"]
              [def_ 1 "foo" "0"; def_ 2 "foo_moved" "2"] in
  let w := fresh [] in
  let d := Dependencies ∅ ∅ ∅ in
  let node := def_ 1 "foo" "1" in
  is_def node = true
  /\ existsb (is_named_def (stmt_name node)) (dest_body st) = true
  /\ Forall (fun s => is_def s = false) [Import [Alias "os" None]]
  /\ exists st' out,
       process_object unparse (Some d) [Import [Alias "os" None]] "dst.py"
         false None "rename" st node w
       = (inr st',
          World (files w)
            (stdout w ++ Renamed "foo" "foo_moved" :: out) (writes w))
       /\ In (set_name "foo_moved" node) (dest_body st')
       /\ List.filter (is_named_def "foo") (dest_body st')
          = List.filter (is_named_def "foo") (dest_body st)
       /\ length (List.filter (is_named_def "foo_moved") (dest_body st'))
          = S (length (List.filter (is_named_def "foo_moved") (dest_body st))).
Proof.
  intros st w d node.
  assert (Hdef : is_def node = true) by reflexivity.
  assert (Hconflict : existsb (is_named_def (stmt_name node)) (dest_body st)
                      = true) by reflexivity.
  assert (Himports : Forall (fun s => is_def s = false)
                       [Import [Alias "os" None]])
    by (constructor; [reflexivity | constructor]).
  split; [exact Hdef | split; [exact Hconflict | split; [exact Himports | ]]].
  exact (renaming_turn unparse d [Import [Alias "os" None]] "dst.py" None st
           node w Hdef Hconflict Himports).
Defined.

(** The same turn, evaluated: the destination ends with two
    declarations named [foo_moved]. *)
Example renaming_turn_example :
  let st := Trees [def_ 1 "foo" "1"]
              [def_ 1 "foo" "0"; def_ 2 "foo_moved" "2"] in
  match fst (process_object unparse (Some (Dependencies ∅ ∅ ∅))
               [Import [Alias "os" None]] "dst.py" false None "rename" st
               (def_ 1 "foo" "1") (fresh [])) with
  | inr st' =>
      dest_body st'
      = [Import [Alias "stdlib" None];
         Import [Alias "imported" None];
         Import [Alias "local" None];
         Import [Alias "os" None];
         def_ 1 "foo" "0";
         def_ 2 "foo_moved" "2";
         def_ 1 "foo_moved" "1"]
  | inl _ => False
  end.
Proof. vm_compute. reflexivity. Qed.

(** [foo] and [bar] relocated under 'overwrite' into a destination
    that declares [foo] and [baz]. *)
Lemma unique_names_by_policy_witness :
  let object_nodes := [def_ 1 "foo" "1"; def_ 2 "bar" "1"] in
  let st := Trees object_nodes [def_ 1 "foo" "0"; def_ 2 "baz" "2"] in
  let st' :=
    Trees object_nodes
      [Import [Alias "stdlib" None];
       Import [Alias "imported" None];
       Import [Alias "local" None];
       def_ 2 "baz" "2";
       def_ 1 "foo" "1";
       def_ 2 "bar" "1"] in
  let d := Dependencies ∅ ∅ {["os"]} in
  let w := fresh [] in
  for_each
    (process_object unparse (Some d) [] "dst.py" false None "overwrite")
    object_nodes st w = (inr st', w)
  /\ Forall (fun n => is_def n = true) object_nodes
  /\ Forall (fun s => is_def s = false) []
  /\ List.NoDup (declaration_names (dest_body st))
  /\ ("overwrite" <> "rename" ->
      List.NoDup (declaration_names (dest_body st')))
  /\ (forall object_node,
        object_nodes = [object_node] ->
        List.NoDup (declaration_names (dest_body st'))
        <-> ~ ("overwrite" = "rename"
               /\ existsb (is_named_def (stmt_name object_node))
                    (dest_body st) = true
               /\ In (stmt_name object_node ++ "_moved")%string
                    (declaration_names (dest_body st)))).
Proof.
  intros object_nodes st st' d w.
  assert (Hrun : for_each
                   (process_object unparse (Some d) [] "dst.py" false None
                      "overwrite")
                   object_nodes st w = (inr st', w))
    by (vm_compute; reflexivity).
  assert (Hdefs : Forall (fun n => is_def n = true) object_nodes)
    by (repeat constructor).
  assert (Himports : Forall (fun s : stmt => is_def s = false) [])
    by constructor.
  assert (Hunique : List.NoDup (declaration_names (dest_body st))).
  { vm_compute. constructor; [intros [H | []]; discriminate | ].
    constructor; [intros [] | constructor]. }
  split; [exact Hrun | split; [exact Hdefs | split; [exact Himports | ]]].
  split; [exact Hunique | ].
  exact (unique_names_by_policy unparse (Some d) [] "dst.py" false None
           "overwrite" object_nodes st st' w w Hrun Hdefs Himports Hunique).
Defined.

(** A renaming turn onto a name that is taken: [foo] goes into a
    destination that declares [foo] and [foo_moved], and the
    destination declares [foo_moved] twice afterwards. *)
Example renaming_collision_example :
  let st := Trees [def_ 1 "foo" "1"]
              [def_ 1 "foo" "0"; def_ 2 "foo_moved" "2"] in
  let d := Dependencies ∅ ∅ ∅ in
  match fst (for_each
               (process_object unparse (Some d) [] "dst.py" false None
                  "rename")
               [def_ 1 "foo" "1"] st (fresh [])) with
  | inr st' =>
      declaration_names (dest_body st') = ["foo"; "foo_moved"; "foo_moved"]
  | inl _ => False
  end.
Proof. vm_compute. reflexivity. Qed.

End TurnFacts.

(** ** The dependency analyzer *)

Module AnalyzerFacts.
Import Ast ReturnPyObjectInfo Stated Observed EffectFacts AstFacts
  ExtractionFacts.

Section Runtime.

Variable ast_parse : string -> exn + module_.
Variable stdlib_module_names : gset string.
Variable sys_modules : gmap string py_module.
Variable format_error : py_object -> option exn.

Local Abbreviation analyzer :=
  (get_object_dependencies ast_parse stdlib_module_names sys_modules
     format_error).
Local Abbreviation visit_nodes :=
  (visit_all stdlib_module_names sys_modules).
Local Abbreviation analysed :=
  (analysis ast_parse stdlib_module_names sys_modules).

Lemma resolve_name_raises (obj : py_object) (id : string) (d : dependencies)
    (e : exn) :
  resolve_name stdlib_module_names sys_modules obj id d = inl e ->
  resolution_error sys_modules obj [NExpr (Name id Load)] e.
Proof.
  unfold resolve_name, resolution_error. intros H.
  exists id. split; [now left | ].
  destruct (dunder_module obj) as [m | ] eqn:Hm.
  - destruct (sys_modules !! m) as [module | ] eqn:Hmod; [ | discriminate].
    destruct (module_attrs module !! id) as [attr | ] eqn:Hattr;
      [ | discriminate].
    destruct (kind attr) eqn:Hk; try discriminate;
      try (destruct (bool_decide _); discriminate).
    destruct (dunder_name attr) eqn:Hn; [discriminate | ].
    injection H as <-. left. exists m, module, attr. auto 10.
  - destruct (dict_get id (dir obj)) as [attr | ] eqn:Hattr; [ | discriminate].
    destruct (attr_getattr_error attr) as [e' | ] eqn:He.
    + destruct (is_attribute_error e') eqn:Hc; [discriminate | ].
      injection H as <-. right. split; [reflexivity | eauto].
    + destruct (bool_decide _); discriminate.
Qed.

Lemma visit_all_raises (obj : py_object) (ns : list node) (e : exn) :
  forall d,
    visit_nodes obj ns d = inl e -> resolution_error sys_modules obj ns e.
Proof.
  induction ns as [|n ns IH]; intros d; simpl; [discriminate | ].
  destruct (visit _ _ obj d n) as [e' | d1] eqn:Hv.
  - intros H; injection H as ->.
    destruct n as [m | s | [id [ | | ] | | | ]]; try discriminate;
      try (destruct s; discriminate).
    apply resolve_name_raises in Hv as (id' & [Hin | []] & Hcause).
    exists id'. split; [left; exact Hin | exact Hcause].
  - intros H. apply IH in H as (id & Hin & Hcause).
    exists id. split; [right; exact Hin | exact Hcause].
Qed.


Lemma analyzer_some (obj : py_object) (source_code : py_arg)
    (d : dependencies) (w w' : world) :
  analyzer obj source_code w = (inr (Some d), w') ->
  exists tree,
    ast_parse_arg ast_parse source_code = inr tree
    /\ visit_nodes obj (walk (NModule tree)) (Dependencies ∅ ∅ ∅) = inr d.
Proof.
  rewrite (analyzer_run ast_parse stdlib_module_names sys_modules
             format_error obj source_code w).
  unfold analysis.
  destruct (ast_parse_arg ast_parse source_code) as [e | tree].
  - destruct (analyzer_catches e); [destruct (format_error obj) | ];
      discriminate.
  - intros H. exists tree. split; [reflexivity | ].
    destruct (visit_nodes obj (walk (NModule tree)) (Dependencies ∅ ∅ ∅))
      as [e | d0]; [ | congruence].
    destruct (analyzer_catches e); [destruct (format_error obj) | ];
      discriminate.
Qed.

(** *** Soundness of the classification *)

Local Abbreviation sound :=
  (sound_classification stdlib_module_names sys_modules).

Lemma sound_empty (obj : py_object) : sound obj (Dependencies ∅ ∅ ∅).
Proof. repeat split; intros x Hx; now apply not_elem_of_empty in Hx. Qed.

Lemma add_module_dependency_sound (obj : py_object) (name : option string)
    (d : dependencies) :
  sound obj d ->
  sound obj (add_module_dependency stdlib_module_names name d).
Proof.
  intros (Himp & Hloc & Hstd). unfold add_module_dependency.
  destruct name as [n | ].
  - destruct (bool_decide (n ∈ stdlib_module_names)) eqn:Hn.
    + apply bool_decide_eq_true in Hn. repeat split; simpl; auto.
      intros x Hx. apply elem_of_union in Hx as [Hx | Hx]; [ | auto].
      apply elem_of_singleton in Hx as ->. now left.
    + apply bool_decide_eq_false in Hn. repeat split; simpl; auto.
      intros x Hx. apply elem_of_union in Hx as [Hx | Hx]; [ | auto].
      apply elem_of_singleton in Hx. congruence.
  - repeat split; simpl; auto.
    intros x Hx. apply elem_of_union in Hx as [Hx | Hx]; [ | auto].
    apply elem_of_singleton in Hx. discriminate.
Qed.

Lemma resolve_name_sound (obj : py_object) (id : string)
    (d d' : dependencies) :
  sound obj d ->
  resolve_name stdlib_module_names sys_modules obj id d = inr d' ->
  sound obj d'.
Proof.
  intros Hd. unfold resolve_name.
  destruct (dunder_module obj) as [m | ] eqn:Hm.
  - destruct (sys_modules !! m) as [module | ] eqn:Hmod;
      [ | intros H; now injection H as <-].
    destruct (module_attrs module !! id) as [attr | ] eqn:Hattr;
      [ | intros H; now injection H as <-].
    assert (Hlocal :
              (kind attr = KFunction \/ kind attr = KClass) ->
              (if bool_decide (dunder_module attr = Some (module_name module))
               then inr (Dependencies ({[id]} ∪ local d) (imported d) (stdlib d))
               else inr d) = (inr d' : exn + dependencies) ->
              sound obj d').
    { intros Hk. destruct (bool_decide _) eqn:Hown;
        [ | intros H; now injection H as <-].
      apply bool_decide_eq_true in Hown. intros H; injection H as <-.
      destruct Hd as (Himp & Hloc & Hstd). repeat split; simpl; auto.
      intros x Hx. apply elem_of_union in Hx as [Hx | Hx]; [ | auto].
      apply elem_of_singleton in Hx as ->.
      exists m, module, attr. auto. }
    destruct (kind attr) eqn:Hk;
      try (intros H; now injection H as <-);
      try (apply Hlocal; auto).
    destruct (dunder_name attr) as [n | ]; intros H;
      [injection H as <- | discriminate].
    exact (add_module_dependency_sound obj (Some n) d Hd).
  - destruct (dict_get id (dir obj)) as [attr | ] eqn:Hattr;
      [ | intros H; now injection H as <-].
    destruct (attr_getattr_error attr) as [e | ];
      [destruct (is_attribute_error e); intros H;
       [now injection H as <- | discriminate] | ].
    destruct (bool_decide (attr_module attr = Some "builtins")) eqn:Hb;
      [ | intros H; now injection H as <-].
    apply bool_decide_eq_true in Hb. intros H; injection H as <-.
    destruct Hd as (Himp & Hloc & Hstd). repeat split; simpl; auto.
    intros x Hx. apply elem_of_union in Hx as [Hx | Hx]; [ | auto].
    apply elem_of_singleton in Hx as ->. right. split; eauto.
Qed.

Lemma import_names_sound (obj : py_object) (names : list alias) :
  forall d,
    sound obj d ->
    sound obj
      (fold_left
         (fun d a =>
            add_module_dependency stdlib_module_names (Some (alias_name a)) d)
         names d).
Proof.
  induction names as [|a names IH]; intros d Hd; cbn [fold_left];
    [exact Hd | ].
  apply IH. exact (add_module_dependency_sound obj _ d Hd).
Qed.

Lemma visit_sound (obj : py_object) (d d' : dependencies) (n : node) :
  sound obj d ->
  visit stdlib_module_names sys_modules obj d n = inr d' ->
  sound obj d'.
Proof.
  intros Hd. unfold visit.
  destruct n as [m | s | e]; try (intros H; now injection H as <-).
  - destruct s; try (intros H; now injection H as <-).
    + intros H; injection H as <-. now apply import_names_sound.
    + intros H; injection H as <-.
      exact (add_module_dependency_sound obj module d Hd).
  - destruct e as [id [ | | ] | | | ]; try (intros H; now injection H as <-).
    now apply resolve_name_sound.
Qed.

Lemma visit_all_sound (obj : py_object) (ns : list node) :
  forall d d', sound obj d -> visit_nodes obj ns d = inr d' -> sound obj d'.
Proof.
  induction ns as [|n ns IH]; intros d d' Hd; simpl.
  - intros H; now injection H as <-.
  - destruct (visit _ _ obj d n) as [e | d1] eqn:Hv; [discriminate | ].
    apply IH. eapply visit_sound; eassumption.
Qed.

(** X14: every classification the analyzer returns is sound.  No name
    it lists as imported is a standard-library module name; every name
    it lists as local is bound, in the module that owns the object, to
    a function or class declared by that module; and every name it
    lists as standard library is a standard-library module name or,
    for an object without owning module, an attribute from the builtin
    namespace. *)
Theorem classification_is_sound (obj : py_object) (source_code : py_arg)
    (d : dependencies) (w w' : world)
    (Hrun : analyzer obj source_code w = (inr (Some d), w')) :
  (forall n, Some n ∈ imported d -> n ∉ stdlib_module_names)
  /\ (forall id, id ∈ local d -> local_binding sys_modules obj id)
  /\ (forall n, n ∈ stdlib d ->
        n ∈ stdlib_module_names \/ builtin_attribute obj n).
Proof.
  apply analyzer_some in Hrun as (tree & _ & Hv).
  exact (visit_all_sound obj _ _ _ (sound_empty obj) Hv).
Qed.

(** *** Every import statement is classified *)

Local Abbreviation classified := (module_classified stdlib_module_names).
Local Abbreviation import_classified :=
  (import_classified stdlib_module_names).

Lemma classification_le_refl (d : dependencies) : classification_le d d.
Proof. repeat split; reflexivity. Qed.

Lemma classification_le_trans (d1 d2 d3 : dependencies) :
  classification_le d1 d2 -> classification_le d2 d3 ->
  classification_le d1 d3.
Proof.
  intros (H1 & H2 & H3) (H1' & H2' & H3').
  repeat split; etransitivity; eassumption.
Qed.

Lemma classified_mono (name : option string) (d d' : dependencies) :
  classification_le d d' -> classified name d -> classified name d'.
Proof.
  intros (Hl & Hi & Hs). unfold module_classified.
  destruct name as [n | ]; [destruct (bool_decide _) | ]; set_solver.
Qed.

Lemma add_module_dependency_le (name : option string) (d : dependencies) :
  classification_le d (add_module_dependency stdlib_module_names name d).
Proof.
  unfold add_module_dependency, classification_le.
  destruct name as [n | ]; [destruct (bool_decide _) | ]; simpl; set_solver.
Qed.

Lemma add_module_dependency_classifies (name : option string)
    (d : dependencies) :
  classified name (add_module_dependency stdlib_module_names name d).
Proof.
  unfold add_module_dependency, module_classified.
  destruct name as [n | ]; [destruct (bool_decide _) | ]; simpl; set_solver.
Qed.

Lemma import_names_le (names : list alias) :
  forall d,
    classification_le d
      (fold_left
         (fun d a =>
            add_module_dependency stdlib_module_names (Some (alias_name a)) d)
         names d).
Proof.
  induction names as [|a names IH]; intros d; cbn [fold_left].
  - apply classification_le_refl.
  - eapply classification_le_trans; [ | apply IH].
    apply add_module_dependency_le.
Qed.

Lemma import_names_classified (names : list alias) (a : alias) :
  In a names ->
  forall d,
    classified (Some (alias_name a))
      (fold_left
         (fun d a =>
            add_module_dependency stdlib_module_names (Some (alias_name a)) d)
         names d).
Proof.
  induction names as [|a0 names IH]; intros Hin d; [destruct Hin | ].
  cbn [fold_left]. destruct Hin as [-> | Hin]; [ | now apply IH].
  eapply classified_mono; [apply import_names_le | ].
  apply add_module_dependency_classifies.
Qed.

Lemma resolve_name_le (obj : py_object) (id : string) (d d' : dependencies) :
  resolve_name stdlib_module_names sys_modules obj id d = inr d' ->
  classification_le d d'.
Proof.
  unfold resolve_name. intros H.
  repeat case_match; simplify_eq;
    try apply classification_le_refl;
    try apply add_module_dependency_le;
    unfold classification_le; simpl; set_solver.
Qed.

Lemma visit_le (obj : py_object) (d d' : dependencies) (n : node) :
  visit stdlib_module_names sys_modules obj d n = inr d' ->
  classification_le d d'.
Proof.
  unfold visit.
  destruct n as [m | s | e];
    try (intros H; injection H as <-; apply classification_le_refl).
  - destruct s;
      try (intros H; injection H as <-; apply classification_le_refl).
    + intros H; injection H as <-. apply import_names_le.
    + intros H; injection H as <-. apply add_module_dependency_le.
  - destruct e as [id [ | | ] | | | ];
      try (intros H; injection H as <-; apply classification_le_refl).
    apply resolve_name_le.
Qed.

Lemma visit_all_le (obj : py_object) (ns : list node) :
  forall d d', visit_nodes obj ns d = inr d' -> classification_le d d'.
Proof.
  induction ns as [|n ns IH]; intros d d'; simpl.
  - intros H; injection H as <-. apply classification_le_refl.
  - destruct (visit _ _ obj d n) as [e | d1] eqn:Hv; [discriminate | ].
    intros H. eapply classification_le_trans; [ | eapply IH; eassumption].
    eapply visit_le; eassumption.
Qed.

Lemma import_classified_mono (n : node) (d d' : dependencies) :
  classification_le d d' -> import_classified n d -> import_classified n d'.
Proof.
  intros Hle. destruct n as [m | s | e]; cbn [import_classified]; auto.
  destruct s; auto.
  - intros H a Ha.
    exact (classified_mono (Some (alias_name a)) d d' Hle (H a Ha)).
  - exact (classified_mono _ d d' Hle).
Qed.

Lemma visit_classifies (obj : py_object) (d d' : dependencies) (n : node) :
  visit stdlib_module_names sys_modules obj d n = inr d' ->
  import_classified n d'.
Proof.
  unfold visit, import_classified.
  destruct n as [m | s | e]; auto. destruct s; auto.
  - intros H; injection H as <-. intros a Ha.
    now apply import_names_classified.
  - intros H; injection H as <-. apply add_module_dependency_classifies.
Qed.

Lemma visit_all_classifies (obj : py_object) (ns : list node) (n : node) :
  In n ns ->
  forall d d', visit_nodes obj ns d = inr d' -> import_classified n d'.
Proof.
  induction ns as [|n0 ns IH]; intros Hin d d'; [destruct Hin | ]. simpl.
  destruct (visit _ _ obj d n0) as [e | d1] eqn:Hv; [discriminate | ].
  intros Hrest. destruct Hin as [-> | Hin]; [ | eapply IH; eassumption].
  eapply import_classified_mono; [eapply visit_all_le; eassumption | ].
  eapply visit_classifies; eassumption.
Qed.

(** X15: when the analyzer returns a classification for source text,
    every import statement of the text is accounted for, wherever it
    stands in the tree: each module named by an [import] statement and
    the module of each [from ... import] statement is listed as
    standard library when the registry has its name and as imported
    otherwise; the absent module of a relative import is listed as the
    imported module None. *)
Theorem imports_are_classified (obj : py_object) (source_code : string)
    (tree : module_) (d : dependencies) (w w' : world)
    (Hparse : ast_parse source_code = inr tree)
    (Hrun : analyzer obj (PyStr source_code) w = (inr (Some d), w')) :
  (forall names a,
      In (NStmt (Import names)) (preorder (NModule tree)) ->
      In a names ->
      module_classified stdlib_module_names (Some (alias_name a)) d)
  /\ (forall module names level,
        In (NStmt (ImportFrom module names level)) (preorder (NModule tree)) ->
        module_classified stdlib_module_names module d).
Proof.
  apply analyzer_some in Hrun as (tree' & Htree & Hv).
  simpl in Htree. rewrite Hparse in Htree. injection Htree as <-.
  split.
  - intros names a Hin Ha. apply walk_In in Hin.
    exact (visit_all_classifies obj _ _ Hin _ _ Hv a Ha).
  - intros module names level Hin. apply walk_In in Hin.
    exact (visit_all_classifies obj _ _ Hin _ _ Hv).
Qed.

(** *** The classification is exact *)

Local Abbreviation exact :=
  (exact_classification stdlib_module_names sys_modules).
Local Abbreviation names := (names_module sys_modules).

(** What visiting the node [n] adds to the classification [d]. *)
Local Abbreviation adds obj n d d' :=
  ((forall id, id ∈ local d'
               <-> id ∈ local d
                   \/ (n = NExpr (Name id Load)
                       /\ local_binding sys_modules obj id))
   /\ (forall x, x ∈ imported d'
                 <-> x ∈ imported d
                     \/ (names obj n x
                         /\ ~ registered stdlib_module_names x))
   /\ (forall m, m ∈ stdlib d'
                 <-> m ∈ stdlib d
                     \/ (names obj n (Some m) /\ m ∈ stdlib_module_names)
                     \/ (n = NExpr (Name m Load) /\ builtin_read obj m))).

Lemma not_registered (n : string) :
  ~ registered stdlib_module_names (Some n) <-> n ∉ stdlib_module_names.
Proof.
  unfold registered. split.
  - intros H Hn. apply H. eauto.
  - intros H (m & Hm & Hin). congruence.
Qed.

Lemma not_registered_none : ~ registered stdlib_module_names None.
Proof. intros (m & Hm & _). discriminate. Qed.

(** What one module name adds to a classification. *)
Lemma add_module_dependency_spec (name : option string) (d : dependencies) :
  let d' := add_module_dependency stdlib_module_names name d in
  local d' = local d
  /\ (forall x, x ∈ imported d'
                <-> x ∈ imported d
                    \/ (x = name /\ ~ registered stdlib_module_names x))
  /\ (forall m, m ∈ stdlib d'
                <-> m ∈ stdlib d
                    \/ (Some m = name /\ m ∈ stdlib_module_names)).
Proof.
  unfold add_module_dependency.
  destruct name as [n | ]; [destruct (bool_decide _) eqn:Hn | ]; simpl.
  - apply bool_decide_eq_true in Hn.
    split; [reflexivity | split].
    + intros x. split; [auto | ].
      intros [H | [-> H]]; [exact H | ].
      exfalso. apply H. exists n. auto.
    + intros m. rewrite elem_of_union, elem_of_singleton. split.
      * intros [-> | H]; auto.
      * intros [H | [H _]]; [auto | left; congruence].
  - apply bool_decide_eq_false in Hn.
    split; [reflexivity | split].
    + intros x. rewrite elem_of_union, elem_of_singleton. split.
      * intros [-> | H]; [ | auto]. right. split; [reflexivity | ].
        now apply not_registered.
      * intros [H | [H _]]; auto.
    + intros m. split; [auto | ].
      intros [H | [H Hin]]; [exact H | ]. congruence.
  - split; [reflexivity | split].
    + intros x. rewrite elem_of_union, elem_of_singleton. split.
      * intros [-> | H]; [ | auto]. right. split; [reflexivity | ].
        apply not_registered_none.
      * intros [H | [H _]]; auto.
    + intros m. split; [auto | ].
      intros [H | [H _]]; [exact H | discriminate].
Qed.

Lemma import_names_spec (aliases : list alias) :
  forall d,
    let d' :=
      fold_left
        (fun d a =>
           add_module_dependency stdlib_module_names (Some (alias_name a)) d)
        aliases d in
    local d' = local d
    /\ (forall x, x ∈ imported d'
                  <-> x ∈ imported d
                      \/ ((exists a, In a aliases /\ x = Some (alias_name a))
                          /\ ~ registered stdlib_module_names x))
    /\ (forall m, m ∈ stdlib d'
                  <-> m ∈ stdlib d
                      \/ ((exists a, In a aliases
                                     /\ Some m = Some (alias_name a))
                          /\ m ∈ stdlib_module_names)).
Proof.
  induction aliases as [|a aliases IH]; intros d; cbn [fold_left].
  - split; [reflexivity | split]; intros x; split; auto;
      intros [H | [(a & [] & _) _]]; exact H.
  - destruct (IH (add_module_dependency stdlib_module_names
                    (Some (alias_name a)) d)) as (Hl & Hi & Hs).
    destruct (add_module_dependency_spec (Some (alias_name a)) d)
      as (Hl1 & Hi1 & Hs1).
    cbv zeta in *. split; [congruence | split].
    + intros x. rewrite Hi, Hi1. clear. cbn [In]. firstorder congruence.
    + intros m. rewrite Hs, Hs1. clear. cbn [In]. firstorder congruence.
Qed.

(** A node that is neither an import nor a name read adds nothing. *)
Lemma adds_nothing (obj : py_object) (n : node) (d : dependencies) :
  (forall x, ~ names obj n x) ->
  (forall id, n = NExpr (Name id Load) ->
              ~ local_binding sys_modules obj id /\ ~ builtin_read obj id) ->
  adds obj n d d.
Proof.
  intros Hno Hne. split; [ | split]; intros x; split; auto.
  - intros [H | [H Hl]]; [exact H | ]. now apply Hne in H.
  - intros [H | [H _]]; [exact H | now apply Hno in H].
  - intros [H | [[H _] | [H Hb]]];
      [exact H | now apply Hno in H | now apply Hne in H].
Qed.

(** What a name read adds to a classification. *)
Lemma resolve_name_spec (obj : py_object) (id : string)
    (d d' : dependencies) :
  resolve_name stdlib_module_names sys_modules obj id d = inr d' ->
  adds obj (NExpr (Name id Load)) d d'.
Proof.
  unfold resolve_name.
  destruct (dunder_module obj) as [m | ] eqn:Hm.
  - assert (Hnb : forall x, ~ builtin_read obj x)
      by (intros x (Hx & _); congruence).
    destruct (sys_modules !! m) as [module | ] eqn:Hmod.
    2: { intros H; injection H as <-. apply adds_nothing.
         - intros x (n & _ & (m' & module' & attr' & Hm' & Hmod' & _)).
           congruence.
         - intros id' _. split; [ | apply Hnb].
           intros (m' & module' & attr' & Hm' & Hmod' & _). congruence. }
    destruct (module_attrs module !! id) as [attr | ] eqn:Hattr.
    2: { intros H; injection H as <-. apply adds_nothing.
         - intros x (n & _ & (m' & module' & attr' & Hm' & Hmod' & Ha' & _)).
           congruence.
         - intros id' Hid. injection Hid as <-. split; [ | apply Hnb].
           intros (m' & module' & attr' & Hm' & Hmod' & Ha' & _).
           congruence. }
    assert (Hbind : forall n,
               module_binding sys_modules obj id n
               <-> kind attr = KModule /\ dunder_name attr = Some n).
    { intros n. split.
      - intros (m' & module' & attr' & Hm' & Hmod' & Ha' & Hk & Hn).
        assert (m' = m) as -> by congruence.
        assert (module' = module) as -> by congruence.
        assert (attr' = attr) as -> by congruence. auto.
      - intros [Hk Hn]. exists m, module, attr. auto. }
    assert (Hlocal : local_binding sys_modules obj id
                     <-> (kind attr = KFunction \/ kind attr = KClass)
                         /\ dunder_module attr = Some (module_name module)).
    { split.
      - intros (m' & module' & attr' & Hm' & Hmod' & Ha' & Hk & Hown).
        assert (m' = m) as -> by congruence.
        assert (module' = module) as -> by congruence.
        assert (attr' = attr) as -> by congruence. auto.
      - intros [Hk Hown]. exists m, module, attr. auto. }
    assert (Hnames : forall x,
               names obj (NExpr (Name id Load)) x
               <-> kind attr = KModule /\ x = dunder_name attr
                   /\ is_Some (dunder_name attr)).
    { intros x. cbn [names_module]. split.
      - intros (n & -> & Hb). apply Hbind in Hb as [Hk Hn].
        rewrite Hn. eauto.
      - intros (Hk & -> & (n & Hn)). exists n. split; [exact Hn | ].
        apply Hbind. auto. }
    assert (Hdef :
              (kind attr = KFunction \/ kind attr = KClass) ->
              (if bool_decide (dunder_module attr = Some (module_name module))
               then inr (Dependencies ({[id]} ∪ local d) (imported d)
                           (stdlib d))
               else inr d) = (inr d' : exn + dependencies) ->
              adds obj (NExpr (Name id Load)) d d').
    { intros Hk.
      assert (Hno : forall x, ~ names obj (NExpr (Name id Load)) x).
      { intros x Hx. apply Hnames in Hx as (Hk' & _).
        destruct Hk as [Hk | Hk]; congruence. }
      destruct (bool_decide _) eqn:Hown.
      - apply bool_decide_eq_true in Hown. intros H; injection H as <-.
        cbn [local imported stdlib]. split; [ | split].
        + intros id0. rewrite elem_of_union, elem_of_singleton. split.
          * intros [-> | H]; [ | auto]. right. split; [reflexivity | ].
            apply Hlocal. auto.
          * intros [H | [H _]]; [auto | ]. injection H as <-. auto.
        + intros x. split; [auto | ].
          intros [H | [H _]]; [exact H | now apply Hno in H].
        + intros m0. split; [auto | ].
          intros [H | [[H _] | [_ H]]];
            [exact H | now apply Hno in H | now apply Hnb in H].
      - apply bool_decide_eq_false in Hown. intros H; injection H as <-.
        apply adds_nothing; [exact Hno | ].
        intros id' Hid. injection Hid as <-. split; [ | apply Hnb].
        intros H. apply Hlocal in H as [_ H]. contradiction. }
    destruct (kind attr) eqn:Hk;
      try (apply Hdef; auto);
      try (intros H; injection H as <-; apply adds_nothing;
           [ intros x Hx; apply Hnames in Hx as (Hk' & _); discriminate
           | intros id' Hid; injection Hid as <-; split; [ | apply Hnb];
             intros Hb; apply Hlocal in Hb as [[Hk' | Hk'] _];
             discriminate ]).
    destruct (dunder_name attr) as [n | ] eqn:Hn; [ | discriminate].
    intros H.
    assert (Hd' : d' = add_module_dependency stdlib_module_names (Some n) d)
      by congruence.
    rewrite Hd'. clear H Hd'.
    destruct (add_module_dependency_spec (Some n) d) as (Hl & Hi & Hs).
    cbv zeta in *.
    split; [ | split].
    + intros id0. rewrite Hl. split; [auto | ].
      intros [H | [Hid H]]; [exact H | ]. injection Hid as <-.
      apply Hlocal in H as [[Hk' | Hk'] _]; discriminate.
    + intros x. rewrite Hi, Hnames. split.
      * intros [H | [-> H]]; eauto 8.
      * intros [H | [(_ & -> & _) H]]; auto.
    + intros m0. rewrite Hs, Hnames. split.
      * intros [H | [H Hin]]; [auto | ]. right. left. eauto 8.
      * intros [H | [[(_ & H & _) Hin] | [_ H]]];
          [auto | auto | now apply Hnb in H].
  - assert (Hno : forall x, ~ names obj (NExpr (Name id Load)) x).
    { intros x (n & _ & (m' & module' & attr' & Hm' & _)). congruence. }
    assert (Hnl : forall x, ~ local_binding sys_modules obj x).
    { intros x (m' & module' & attr' & Hm' & _). congruence. }
    destruct (dict_get id (dir obj)) as [attr | ] eqn:Hattr.
    2: { intros H; injection H as <-. apply adds_nothing; [exact Hno | ].
         intros id' Hid. injection Hid as <-. split; [apply Hnl | ].
         intros (_ & attr' & Ha' & _). congruence. }
    assert (Hread : builtin_read obj id
                    <-> attr_getattr_error attr = None
                        /\ attr_module attr = Some "builtins").
    { split.
      - intros (_ & attr' & Ha' & He & Hb).
        assert (attr' = attr) as -> by congruence. auto.
      - intros [He Hb]. split; [exact Hm | eauto]. }
    destruct (attr_getattr_error attr) as [e | ] eqn:He.
    { destruct (is_attribute_error e); [ | discriminate].
      intros H; injection H as <-. apply adds_nothing; [exact Hno | ].
      intros id' Hid. injection Hid as <-. split; [apply Hnl | ].
      intros H. apply Hread in H as [H _]. discriminate. }
    destruct (bool_decide (attr_module attr = Some "builtins")) eqn:Hb.
    + apply bool_decide_eq_true in Hb. intros H; injection H as <-.
      cbn [local imported stdlib]. split; [ | split].
      * intros id0. split; [auto | ].
        intros [H | [_ H]]; [exact H | now apply Hnl in H].
      * intros x. split; [auto | ].
        intros [H | [H _]]; [exact H | now apply Hno in H].
      * intros m0. rewrite elem_of_union, elem_of_singleton. split.
        -- intros [-> | H]; [ | auto]. right. right.
           split; [reflexivity | ]. apply Hread. auto.
        -- intros [H | [[H _] | [H _]]];
             [auto | now apply Hno in H | ]. injection H as <-. auto.
    + apply bool_decide_eq_false in Hb. intros H; injection H as <-.
      apply adds_nothing; [exact Hno | ].
      intros id' Hid. injection Hid as <-. split; [apply Hnl | ].
      intros H. apply Hread in H as [_ H]. contradiction.
Qed.

(** What one node adds to a classification. *)
Lemma visit_spec (obj : py_object) (d d' : dependencies) (n : node) :
  visit stdlib_module_names sys_modules obj d n = inr d' ->
  adds obj n d d'.
Proof.
  unfold visit.
  destruct n as [m | s | e].
  - intros H; injection H as <-.
    apply adds_nothing; [intros x [] | discriminate].
  - destruct s as [ | | | | | aliases | module aliases level | ];
      try (intros H; injection H as <-;
           apply adds_nothing; [intros x [] | discriminate]).
    + intros H. apply (inj inr) in H. subst d'.
      destruct (import_names_spec aliases d) as (Hl & Hi & Hs).
      cbv zeta in *. split; [ | split].
      * intros id. rewrite Hl. split; [auto | ].
        intros [H | [H _]]; [exact H | discriminate].
      * intros x. rewrite Hi. reflexivity.
      * intros m. rewrite Hs. cbn [names_module]. split.
        -- intros [H | H]; auto.
        -- intros [H | [H | [H _]]]; [auto | auto | discriminate].
    + intros H. apply (inj inr) in H. subst d'.
      destruct (add_module_dependency_spec module d) as (Hl & Hi & Hs).
      cbv zeta in *. split; [ | split].
      * intros id. rewrite Hl. split; [auto | ].
        intros [H | [H _]]; [exact H | discriminate].
      * intros x. rewrite Hi. cbn [names_module]. reflexivity.
      * intros m. rewrite Hs. cbn [names_module]. split.
        -- intros [H | H]; auto.
        -- intros [H | [H | [H _]]]; [auto | auto | discriminate].
  - destruct e as [id [ | | ] | | | ];
      try (intros H; injection H as <-;
           apply adds_nothing; [intros x [] | discriminate]).
    apply resolve_name_spec.
Qed.

Lemma exact_empty (obj : py_object) : exact obj [] (Dependencies ∅ ∅ ∅).
Proof.
  split; [ | split]; intros x; cbn [local imported stdlib]; split.
  - intros H. now apply not_elem_of_empty in H.
  - intros [[] _].
  - intros H. now apply not_elem_of_empty in H.
  - intros [(n & [] & _) _].
  - intros H. now apply not_elem_of_empty in H.
  - intros [[(n & [] & _) _] | [[] _]].
Qed.

Lemma exact_step (obj : py_object) (ns : list node) (n : node)
    (d d' : dependencies) :
  exact obj ns d -> adds obj n d d' -> exact obj (ns ++ [n]) d'.
Proof.
  intros (Hl & Hi & Hs) (Hl' & Hi' & Hs').
  split; [ | split].
  - intros id. rewrite Hl', Hl, in_app_iff. cbn [In]. split.
    + intros [[H Hb] | [-> Hb]]; auto.
    + intros [[H | [H | []]] Hb]; auto.
  - intros x. rewrite Hi', Hi. split.
    + intros [[(n0 & Hin & Hn) Hr] | [Hn Hr]].
      * split; [ | exact Hr]. exists n0. rewrite in_app_iff. auto.
      * split; [ | exact Hr]. exists n. rewrite in_app_iff. cbn. auto.
    + intros [(n0 & Hin & Hn) Hr].
      apply in_app_iff in Hin as [Hin | [<- | []]]; eauto 8.
  - intros m. rewrite Hs', Hs. split.
    + intros [[[(n0 & Hin & Hn) Hr] | [Hin Hb]] | [[Hn Hr] | [-> Hb]]].
      * left. split; [ | exact Hr]. exists n0. rewrite in_app_iff. auto.
      * right. rewrite in_app_iff. auto.
      * left. split; [ | exact Hr]. exists n. rewrite in_app_iff. cbn. auto.
      * right. rewrite in_app_iff. cbn. auto.
    + intros [[(n0 & Hin & Hn) Hr] | [Hin Hb]].
      * apply in_app_iff in Hin as [Hin | [<- | []]]; eauto 10.
      * apply in_app_iff in Hin as [Hin | [<- | []]]; eauto 10.
Qed.

Lemma visit_all_exact (obj : py_object) (ns : list node) :
  forall seen d d',
    exact obj seen d -> visit_nodes obj ns d = inr d' ->
    exact obj (seen ++ ns) d'.
Proof.
  induction ns as [|n ns IH]; intros seen d d' Hd; simpl.
  - intros H; injection H as <-. now rewrite app_nil_r.
  - destruct (visit _ _ obj d n) as [e | d1] eqn:Hv; [discriminate | ].
    intros H.
    replace (seen ++ n :: ns) with ((seen ++ [n]) ++ ns)
      by now rewrite <- app_assoc.
    eapply IH; [ | exact H].
    eapply exact_step; [exact Hd | ]. now apply visit_spec.
Qed.

Lemma exact_same_nodes (obj : py_object) (ns ns' : list node)
    (d : dependencies) :
  (forall n, In n ns <-> In n ns') -> exact obj ns d -> exact obj ns' d.
Proof.
  intros Hsame (Hl & Hi & Hs). split; [ | split].
  - intros id. rewrite Hl, Hsame. reflexivity.
  - intros x. rewrite Hi. split; intros [(n & Hin & Hn) Hr];
      (split; [exists n; split; [now apply Hsame | exact Hn] | exact Hr]).
  - intros m. rewrite Hs, Hsame. split;
      (intros [[(n & Hin & Hn) Hr] | H]; [left | now right]);
      (split; [exists n; split; [now apply Hsame | exact Hn] | exact Hr]).
Qed.

(** X25: the classification the analyzer returns for source text is
    exact with respect to the nodes of the tree, wherever they stand.
    A name is listed as local exactly when the source reads it and the
    owning module binds it to a function or class of its own.  A
    module is listed as imported exactly when the registry does not
    have it and an [import] statement names it, a [from ... import]
    statement takes from it (None for a relative import without
    module) or a name that is read is bound to it in the owning
    module.  A name is listed as standard library exactly when it is
    such a module and the registry has it, or when the source reads it
    and the object, having no owning module, has it as an attribute
    from the builtin namespace.  Names that are only assigned to count
    for nothing. *)
Theorem classification_is_exact (obj : py_object) (source_code : string)
    (tree : module_) (d : dependencies) (w w' : world)
    (Hparse : ast_parse source_code = inr tree)
    (Hrun : analyzer obj (PyStr source_code) w = (inr (Some d), w')) :
  exact_classification stdlib_module_names sys_modules obj
    (preorder (NModule tree)) d.
Proof.
  apply analyzer_some in Hrun as (tree' & Htree & Hv).
  simpl in Htree. rewrite Hparse in Htree. injection Htree as <-.
  apply exact_same_nodes with (ns := walk (NModule tree)).
  - intros n. apply walk_In.
  - exact (visit_all_exact obj _ [] _ _ (exact_empty obj) Hv).
Qed.

End Runtime.

Lemma classification_is_sound_witness :
  get_object_dependencies Samples.deps_parse Samples.deps_registry
    Samples.deps_modules Scenario.printable Samples.live_h
       (PyStr Samples.deps_text)
    (Scenario.fresh [])
  = (inr (Some Samples.deps_result), Scenario.fresh [])
  /\ (forall n, Some n ∈ imported Samples.deps_result ->
        n ∉ Samples.deps_registry)
  /\ (forall id, id ∈ local Samples.deps_result ->
        local_binding Samples.deps_modules Samples.live_h id)
  /\ (forall n, n ∈ stdlib Samples.deps_result ->
        n ∈ Samples.deps_registry \/ builtin_attribute Samples.live_h n).
Proof.
  assert (Hrun : get_object_dependencies Samples.deps_parse
                   Samples.deps_registry Samples.deps_modules
                   Scenario.printable Samples.live_h
                   (PyStr Samples.deps_text) (Scenario.fresh [])
                 = (inr (Some Samples.deps_result), Scenario.fresh []))
    by (vm_compute; reflexivity).
  split; [exact Hrun | ].
  exact (classification_is_sound Samples.deps_parse Samples.deps_registry
           Samples.deps_modules Scenario.printable Samples.live_h
       (PyStr Samples.deps_text)
           Samples.deps_result (Scenario.fresh []) (Scenario.fresh []) Hrun).
Defined.

Lemma imports_are_classified_witness :
  Samples.deps_parse Samples.deps_text = inr Samples.deps_tree
  /\ get_object_dependencies Samples.deps_parse Samples.deps_registry
       Samples.deps_modules Scenario.printable Samples.live_h
       (PyStr Samples.deps_text)
       (Scenario.fresh [])
     = (inr (Some Samples.deps_result), Scenario.fresh [])
  /\ (forall names a,
        In (NStmt (Import names)) (preorder (NModule Samples.deps_tree)) ->
        In a names ->
        module_classified Samples.deps_registry (Some (alias_name a))
          Samples.deps_result)
  /\ (forall module names level,
        In (NStmt (ImportFrom module names level))
          (preorder (NModule Samples.deps_tree)) ->
        module_classified Samples.deps_registry module Samples.deps_result).
Proof.
  assert (Hparse : Samples.deps_parse Samples.deps_text
                   = inr Samples.deps_tree) by reflexivity.
  assert (Hrun : get_object_dependencies Samples.deps_parse
                   Samples.deps_registry Samples.deps_modules
                   Scenario.printable Samples.live_h
                   (PyStr Samples.deps_text) (Scenario.fresh [])
                 = (inr (Some Samples.deps_result), Scenario.fresh []))
    by (vm_compute; reflexivity).
  split; [exact Hparse | split; [exact Hrun | ]].
  exact (imports_are_classified Samples.deps_parse Samples.deps_registry
           Samples.deps_modules Scenario.printable Samples.live_h
           Samples.deps_text
           Samples.deps_tree Samples.deps_result (Scenario.fresh [])
           (Scenario.fresh []) Hparse Hrun).
Defined.

Lemma classification_is_exact_witness :
  Samples.deps_parse Samples.deps_text = inr Samples.deps_tree
  /\ get_object_dependencies Samples.deps_parse Samples.deps_registry
       Samples.deps_modules Scenario.printable Samples.live_h
       (PyStr Samples.deps_text) (Scenario.fresh [])
     = (inr (Some Samples.deps_result), Scenario.fresh [])
  /\ exact_classification Samples.deps_registry Samples.deps_modules
       Samples.live_h (preorder (NModule Samples.deps_tree))
       Samples.deps_result.
Proof.
  assert (Hparse : Samples.deps_parse Samples.deps_text
                   = inr Samples.deps_tree) by reflexivity.
  assert (Hrun : get_object_dependencies Samples.deps_parse
                   Samples.deps_registry Samples.deps_modules
                   Scenario.printable Samples.live_h
                   (PyStr Samples.deps_text) (Scenario.fresh [])
                 = (inr (Some Samples.deps_result), Scenario.fresh []))
    by (vm_compute; reflexivity).
  split; [exact Hparse | split; [exact Hrun | ]].
  exact (classification_is_exact Samples.deps_parse Samples.deps_registry
           Samples.deps_modules Scenario.printable Samples.live_h
           Samples.deps_text Samples.deps_tree Samples.deps_result
           (Scenario.fresh []) (Scenario.fresh []) Hparse Hrun).
Defined.

(** Source text with a null byte: the ValueError of [ast.parse] is not
    of the [except] clause and leaves the analyzer. *)
Example analyzer_null_byte_example :
  get_object_dependencies (fun _ => inl ValueError_null_bytes)
    Samples.deps_registry Samples.deps_modules Scenario.printable
    Samples.live_h (PyStr Samples.deps_text) (Scenario.fresh [])
  = (inl ValueError_null_bytes, Scenario.fresh []).
Proof. reflexivity. Qed.

(** An object whose [__repr__] raises, handed source that is not
    text: the TypeError is caught, and the message cannot be built. *)
Example analyzer_unprintable_example :
  get_object_dependencies Samples.deps_parse Samples.deps_registry
    Samples.deps_modules Samples.unprintable Samples.live_w
    (PyStrList ["f"]) (Scenario.fresh [])
  = (inl ZeroDivisionError, Scenario.fresh []).
Proof. reflexivity. Qed.

End AnalyzerFacts.

(** ** The metadata extractor, beyond the batch loop *)

Module ExtractorFacts.
Import Ast ReturnPyObjectInfo Stated Observed EffectFacts AstFacts
  EnumerationFacts ExtractionFacts.

Section Runtime.

Variable ast_parse : string -> exn + module_.
Variable stdlib_module_names : gset string.
Variable sys_modules : gmap string py_module.
Variable import_ : string -> exn + py_module.
Variable stem : string -> string.
Variable format_error : py_object -> option exn.

Local Abbreviation batch :=
  (get_meta_data ast_parse stdlib_module_names sys_modules import_ stem
     format_error).
Local Abbreviation enumeration :=
  (get_user_defined_objects ast_parse import_ stem).
Local Abbreviation first_notice_fails :=
  (first_notice_error ast_parse stdlib_module_names sys_modules
     format_error).

(** How the batch ends, stage by stage. *)
Lemma batch_outcome (file_path : string) (obj_names : option (list string))
    (w : world) :
  match files w !! file_path with
  | None => batch file_path obj_names w = (inl (FileNotFoundError file_path), w)
  | Some text =>
      match ast_parse text with
      | inl e => batch file_path obj_names w = (inl e, w)
      | inr tree =>
          match import_ (stem file_path) with
          | inl e => batch file_path obj_names w = (inl e, w)
          | inr module =>
              let items :=
                select_objects obj_names
                  (List.filter (fun o => hasattr_module module (fst o))
                     (enumerate_objects tree)) in
              exists out,
                batch file_path obj_names w
                = (match first_notice_fails module file_path items with
                   | Some e => inl e
                   | None =>
                       inr (flat_map
                              (contribution ast_parse stdlib_module_names
                                 sys_modules format_error module file_path)
                              items)
                   end,
                   World (files w) (stdout w ++ out) (writes w))
          end
      end
  end.
Proof.
  destruct (files w !! file_path) as [text | ] eqn:Hread.
  2: { unfold get_meta_data, get_user_defined_objects, bind, read_file.
       now rewrite Hread. }
  destruct (ast_parse text) as [e | tree] eqn:Hparse.
  { unfold get_meta_data, get_user_defined_objects, bind, read_file, lift,
      ast_parse_arg.
    now rewrite Hread, Hparse. }
  destruct (import_ (stem file_path)) as [e | module] eqn:Himport.
  { unfold get_meta_data, get_user_defined_objects, bind, read_file, lift,
      ast_parse_arg.
    rewrite Hread, Hparse. simpl. now rewrite Himport. }
  pose proof (get_user_defined_objects_result ast_parse import_ stem
                file_path text tree module w Hread Hparse Himport) as Henum.
  destruct (batch_run ast_parse stdlib_module_names sys_modules import_ stem
              format_error file_path obj_names _ module w w Henum Himport)
    as (out & Hrun & _).
  exists out. exact Hrun.
Qed.

(** The batch leaves the files alone, and returns only for a file it
    could read. *)
Lemma batch_cases (file_path : string) (obj_names : option (list string))
    (w : world) :
  exists r out,
    batch file_path obj_names w
    = (r, World (files w) (stdout w ++ out) (writes w))
    /\ match r with
       | inr _ => exists text, files w !! file_path = Some text
       | inl _ => True
       end.
Proof.
  pose proof (batch_outcome file_path obj_names w) as H.
  destruct (files w !! file_path) as [text | ];
    [ | exists (inl (FileNotFoundError file_path)), [];
        now rewrite world_eta].
  destruct (ast_parse text) as [e | tree];
    [exists (inl e), []; now rewrite world_eta | ].
  destruct (import_ (stem file_path)) as [e | module];
    [exists (inl e), []; now rewrite world_eta | ].
  destruct H as (out & H). do 2 eexists. split; [exact H | ].
  destruct (first_notice_fails _ _ _); eauto.
Qed.


(** *** The selection of requested names *)

Lemma dict_get_set {V} (key k : string) (v : V) (d : list (string * V)) :
  dict_get key (dict_set k v d)
  = if String.eqb key k then Some v else dict_get key d.
Proof.
  induction d as [|[k0 v0] d IH]; simpl.
  - reflexivity.
  - destruct (String.eqb_spec k k0) as [-> | Hne]; simpl.
    + destruct (String.eqb_spec key k0); reflexivity.
    + rewrite IH. destruct (String.eqb_spec key k0) as [-> | ].
      * destruct (String.eqb_spec k0 k) as [-> | ]; [contradiction | ].
        reflexivity.
      * reflexivity.
Qed.

Lemma dict_set_keys_list {V} (k : string) (v : V) (d : list (string * V)) :
  dict_keys (dict_set k v d)
  = if existsb (String.eqb k) (dict_keys d) then dict_keys d
    else dict_keys d ++ [k].
Proof.
  unfold dict_keys. induction d as [|[k0 v0] d IH]; simpl.
  - reflexivity.
  - destruct (String.eqb_spec k k0) as [-> | Hne]; simpl.
    + reflexivity.
    + rewrite IH. now destruct (existsb (String.eqb k) (map fst d)).
Qed.

Lemma filter_filter_pointwise {A} (p q r : A -> bool) (l : list A) :
  (forall x, p x = q x && r x) ->
  List.filter p l = List.filter q (List.filter r l).
Proof.
  intros H. induction l as [|x l IH]; simpl; [reflexivity | ].
  rewrite H. destruct (r x); simpl.
  - rewrite andb_true_r. destruct (q x); now rewrite IH.
  - rewrite andb_false_r. exact IH.
Qed.

Lemma existsb_eqb_app (x k : string) (l : list string) :
  existsb (String.eqb x) (l ++ [k])
  = existsb (String.eqb x) l || String.eqb x k.
Proof. rewrite existsb_app. simpl. now rewrite orb_false_r. Qed.

Lemma restrict_from_keys (all_objects : list (string * object_type))
    (obj_names : list string) :
  forall d : list (string * object_type),
    dict_keys
      (fold_left
         (fun d key =>
            match dict_get key all_objects with
            | Some v => dict_set key v d
            | None => d
            end)
         obj_names d)
    = dict_keys d
        ++ List.filter
             (fun key => negb (existsb (String.eqb key) (dict_keys d)))
             (first_occurrences
                (List.filter
                   (fun key => bool_decide (is_Some (dict_get key all_objects)))
                   obj_names)).
Proof.
  induction obj_names as [|k obj_names IH]; intros d; cbn [fold_left].
  - simpl. now rewrite app_nil_r.
  - cbn [List.filter].
    destruct (dict_get k all_objects) as [v | ] eqn:Hk.
    2: { rewrite bool_decide_eq_false_2 by (intros [? ?]; discriminate).
         apply IH. }
    rewrite bool_decide_eq_true_2 by eauto.
    rewrite IH, dict_set_keys_list. cbn [first_occurrences List.filter].
    destruct (existsb (String.eqb k) (dict_keys d)) eqn:Hin; cbn [negb].
    + f_equal. apply filter_filter_pointwise. intros x.
      destruct (String.eqb_spec x k) as [-> | ]; simpl.
      * now rewrite Hin.
      * now rewrite andb_true_r.
    + rewrite <- app_assoc. cbn [app]. do 2 f_equal.
      apply filter_filter_pointwise. intros x.
      rewrite existsb_eqb_app, negb_orb. reflexivity.
Qed.

Lemma restrict_from_get (all_objects : list (string * object_type))
    (obj_names : list string) (name : string) :
  forall d : list (string * object_type),
    dict_get name
      (fold_left
         (fun d key =>
            match dict_get key all_objects with
            | Some v => dict_set key v d
            | None => d
            end)
         obj_names d)
    = match (if existsb (String.eqb name) obj_names
             then dict_get name all_objects else None) with
      | Some v => Some v
      | None => dict_get name d
      end.
Proof.
  induction obj_names as [|k obj_names IH]; intros d; cbn [fold_left existsb].
  - reflexivity.
  - rewrite IH.
    destruct (String.eqb_spec name k) as [-> | Hne]; cbn [orb].
    + destruct (dict_get k all_objects) as [v | ] eqn:Hk;
        destruct (existsb (String.eqb k) obj_names); try reflexivity.
      rewrite dict_get_set, String.eqb_refl. reflexivity.
    + destruct (dict_get k all_objects) as [v | ]; [ | reflexivity].
      rewrite dict_get_set.
      destruct (String.eqb_spec name k); [contradiction | reflexivity].
Qed.

(** X17: the restriction of a batch to requested names keeps, for each
    requested name that was enumerated, the enumerated entry, and
    nothing else; the entries stand in the order in which the caller
    first listed their names, not in the order of the file, a name
    listed twice gives one entry, and a name that was not enumerated is
    dropped without notice. *)
Theorem selection_follows_request (obj_names : list string)
    (all_objects : list (string * object_type)) :
  dict_keys (restrict_objects obj_names all_objects)
  = first_occurrences
      (List.filter
         (fun key => bool_decide (is_Some (dict_get key all_objects)))
         obj_names)
  /\ forall name,
       dict_get name (restrict_objects obj_names all_objects)
       = if existsb (String.eqb name) obj_names
         then dict_get name all_objects
         else None.
Proof.
  unfold restrict_objects. split.
  - rewrite restrict_from_keys. simpl.
    induction (first_occurrences _) as [|x l IH]; simpl; congruence.
  - intros name. rewrite restrict_from_get.
    now destruct (if existsb (String.eqb name) obj_names
                  then dict_get name all_objects else None).
Qed.

(** *** The attributes of a class *)

Lemma class_attribute_cases (attributes : list (string * string))
    (a : string * py_attr) :
  class_attribute attributes a
  = if data_attribute a
    then match attr_str_error (snd a) with
         | Some e => inl e
         | None => inr (dict_set (fst a) (attr_str (snd a)) attributes)
         end
    else if negb (startswith_underscore (fst a))
         then match attr_getattr_error (snd a) with
              | Some e => if is_attribute_error e then inr attributes else inl e
              | None => inr attributes
              end
         else inr attributes.
Proof.
  destruct a as [attr_name attr_value]. unfold data_attribute. simpl.
  destruct (startswith_underscore attr_name); simpl; [reflexivity | ].
  destruct (attr_getattr_error attr_value); [reflexivity | ].
  destruct (attr_kind attr_value); reflexivity.
Qed.

Lemma class_attribute_returns (attributes attributes' : list (string * string))
    (a : string * py_attr) :
  class_attribute attributes a = inr attributes' ->
  attributes'
  = if data_attribute a
    then dict_set (fst a) (attr_str (snd a)) attributes
    else attributes.
Proof.
  rewrite class_attribute_cases.
  destruct (data_attribute a).
  - destruct (attr_str_error (snd a)); [discriminate | congruence].
  - destruct (negb (startswith_underscore (fst a))); [ | congruence].
    destruct (attr_getattr_error (snd a)) as [e | ]; [ | congruence].
    destruct (is_attribute_error e); [congruence | discriminate].
Qed.

Lemma class_attributes_keys (l : list (string * py_attr)) :
  forall (acc attributes : list (string * string)) (name : string),
    loop class_attribute l acc = inr attributes ->
    In name (dict_keys attributes)
    <-> In name (dict_keys acc)
        \/ exists attr, In (name, attr) l /\ data_attribute (name, attr) = true.
Proof.
  induction l as [|a l IH]; intros acc attributes name; cbn [loop].
  - intros [= <-]. split; [auto | intros [H | (attr & [] & _)]; exact H].
  - destruct (class_attribute acc a) as [e | acc'] eqn:Ha; [discriminate | ].
    apply class_attribute_returns in Ha. intros Hloop.
    rewrite (IH _ _ name Hloop). subst acc'.
    destruct (data_attribute a) eqn:Hd.
    + rewrite dict_set_keys. split.
      * intros [[-> | H] | (attr & Hin & Hd')].
        -- right. exists (snd a). destruct a; simpl. split; [now left | exact Hd].
        -- now left.
        -- right. exists attr. split; [now right | exact Hd'].
      * intros [H | (attr & [-> | Hin] & Hd')].
        -- left. now right.
        -- left. now left.
        -- right. eauto.
    + split.
      * intros [H | (attr & Hin & Hd')]; [now left | ].
        right. exists attr. split; [now right | exact Hd'].
      * intros [H | (attr & [-> | Hin] & Hd')]; [now left | congruence | ].
        right. eauto.
Qed.

Lemma class_attributes_values (l : list (string * py_attr)) :
  forall (acc attributes : list (string * string)) (name value : string),
    loop class_attribute l acc = inr attributes ->
    dict_get name attributes = Some value ->
    dict_get name acc = Some value
    \/ exists attr,
         In (name, attr) l /\ data_attribute (name, attr) = true
         /\ value = attr_str attr.
Proof.
  induction l as [|a l IH]; intros acc attributes name value; cbn [loop].
  - intros [= <-]. auto.
  - destruct (class_attribute acc a) as [e | acc'] eqn:Ha; [discriminate | ].
    apply class_attribute_returns in Ha. intros Hloop H.
    apply (IH _ _ _ _ Hloop) in H as [H | (attr & Hin & Hd)].
    2: { right. exists attr. split; [now right | exact Hd]. }
    subst acc'.
    destruct (data_attribute a) eqn:Hd; [ | now left].
    rewrite dict_get_set in H.
    destruct (String.eqb_spec name (fst a)) as [-> | ]; [ | now left].
    injection H as <-. right. exists (snd a).
    destruct a; simpl. split; [now left | split; [exact Hd | reflexivity]].
Qed.

(** The loop over the attributes raises only what reading a public
    attribute raises (an AttributeError apart) or what formatting its
    value raises. *)
Lemma class_attributes_raise (l : list (string * py_attr)) (e : exn) :
  forall acc : list (string * string),
    loop class_attribute l acc = inl e ->
    exists name attr,
      In (name, attr) l
      /\ startswith_underscore name = false
      /\ ((attr_getattr_error attr = Some e /\ is_attribute_error e = false)
          \/ (data_attribute (name, attr) = true
              /\ attr_str_error attr = Some e)).
Proof.
  induction l as [|a l IH]; intros acc; cbn [loop]; [discriminate | ].
  destruct (class_attribute acc a) as [e' | acc'] eqn:Ha.
  - intros [= ->]. rewrite class_attribute_cases in Ha.
    destruct a as [name attr]. exists name, attr. split; [now left | ].
    cbn [fst snd] in Ha.
    destruct (data_attribute (name, attr)) eqn:Hd.
    + split.
      * unfold data_attribute in Hd. cbn [fst] in Hd.
        destruct (startswith_underscore name); [discriminate | reflexivity].
      * right. split; [reflexivity | ].
        destruct (attr_str_error attr); [congruence | discriminate].
    + destruct (startswith_underscore name); [discriminate | ].
      split; [reflexivity | left]. cbn [negb] in Ha.
      destruct (attr_getattr_error attr) as [e0 | ]; [ | discriminate].
      destruct (is_attribute_error e0) eqn:He0; [discriminate | ].
      injection Ha as ->. auto.
  - intros H. apply IH in H as (name & attr & Hin & Hrest).
    exists name, attr. split; [now right | exact Hrest].
Qed.

(** X18: the attributes reported for a class, when the loop over them
    returns, are exactly the names of [dir] that do not start with an
    underscore and whose value is neither None nor a method nor a
    function; each is reported with the string of such a value.  So methods and plain functions of the
    class never appear among its attributes, and neither does any
    private or dunder name. *)
Theorem class_attributes_are_public_data (obj : py_object)
    (attributes : list (string * string))
    (Hattributes : get_class_attributes obj = inr attributes) :
  (forall name,
      In name (dict_keys attributes)
      <-> exists attr,
            In (name, attr) (dir obj) /\ data_attribute (name, attr) = true)
  /\ (forall name value,
        dict_get name attributes = Some value ->
        exists attr,
          In (name, attr) (dir obj) /\ data_attribute (name, attr) = true
          /\ value = attr_str attr).
Proof.
  unfold get_class_attributes in Hattributes. split.
  - intros name. rewrite (class_attributes_keys _ _ _ name Hattributes).
    split; [intros [[] | H]; exact H | intros H; now right].
  - intros name value H.
    apply (class_attributes_values _ _ _ _ _ Hattributes) in H as [H | H];
      [discriminate | exact H].
Qed.

(** *** The record of one object *)

Local Abbreviation extractor :=
  (get_object_metadata ast_parse stdlib_module_names sys_modules
     format_error).
Local Abbreviation outcome :=
  (metadata_outcome ast_parse stdlib_module_names sys_modules format_error).
Local Abbreviation analysed :=
  (analysis ast_parse stdlib_module_names sys_modules).
Local Abbreviation analyzer_fails :=
  (analyzer_error ast_parse stdlib_module_names sys_modules format_error).

(** The stages of the extraction that can fail, in the order in which
    they run. *)
Local Abbreviation class_part obj :=
  (match kind obj with
   | KClass =>
       match get_class_attributes obj with
       | inl e => inl e
       | inr attributes => inr (Some attributes)
       end
   | _ => inr None
   end : exn + option (list (string * string))).

Local Abbreviation function_part obj :=
  (match kind obj with
   | KFunction =>
       match get_function_parameters obj with
       | inl e => inl e
       | inr recorded =>
           match signature obj with
           | None => inl TypeError_unsupported_callable
           | Some sig =>
               match get_function_return_type obj with
               | inl e => inl e
               | inr return_type => inr (Some (recorded, sig, return_type))
               end
           end
       end
   | _ => inr None
   end : exn + option (list py_parameter * py_signature * option string)).

Local Abbreviation dependencies_part obj :=
  (match getsource obj with
   | Some (String c rest) =>
       match analysed obj (PyStr (String c rest)) with
       | inr d => inr (Some d)
       | inl e =>
           if analyzer_catches e
           then match format_error obj with
                | Some e' => inl e'
                | None => inr None
                end
           else inl e
       end
   | _ => inr None
   end : exn + option dependencies).

Lemma outcome_stages (obj : py_object) (file_path : string) :
  outcome obj file_path
  = match dunder_name obj with
    | None => inl (AttributeError "__name__")
    | Some name =>
        match class_part obj with
        | inl e => inl e
        | inr attributes =>
            match function_part obj with
            | inl e => inl e
            | inr func =>
                match dependencies_part obj with
                | inl e => inl e
                | inr deps =>
                    inr (MetaData name (getdoc obj) file_path
                           (match getsourcelines obj with
                            | Some (_, start_line_number) =>
                                Some start_line_number
                            | None => None
                            end)
                           (match getsourcelines obj with
                            | Some (source_lines, start_line_number) =>
                                Some (start_line_number + length source_lines
                                      - 1)
                            | None => None
                            end)
                           (match kind obj with
                            | KClass => class_
                            | _ => function_
                            end)
                           (dunder_module obj) (getsource obj) attributes
                           (option_map (fun f => fst (fst f)) func)
                           (option_map (fun f => snd (fst f)) func)
                           (option_map snd func)
                           deps)
                end
            end
        end
    end.
Proof.
  unfold metadata_outcome, get_object_metadata.
  destruct (dunder_name obj) as [name | ]; [ | reflexivity].
  assert (Hdeps :
            forall w,
              (match getsource obj with
               | Some (String c rest) =>
                   get_object_dependencies ast_parse stdlib_module_names
                     sys_modules format_error obj (PyStr (String c rest))
               | _ => ret None
               end) w
              = (dependencies_part obj,
                 snd ((match getsource obj with
                       | Some (String c rest) =>
                           get_object_dependencies ast_parse
                             stdlib_module_names sys_modules format_error obj
                             (PyStr (String c rest))
                       | _ => ret None
                       end) w))).
  { intros w. destruct (getsource obj) as [[|c rest] | ]; try reflexivity.
    rewrite (analyzer_run ast_parse stdlib_module_names sys_modules
               format_error obj (PyStr (String c rest)) w).
    cbn [snd].
    destruct (analysed obj (PyStr (String c rest))) as [e | d];
      [destruct (analyzer_catches e); [destruct (format_error obj) | ] | ];
      reflexivity. }
  unfold lift, bind, ret, raise in *.
  destruct (kind obj) eqn:Hk; cbv beta iota;
    try (rewrite Hdeps; destruct (dependencies_part obj);
         destruct (getsourcelines obj) as [[? ?] | ]; reflexivity).
  - destruct (get_function_parameters obj) as [e | recorded];
      [reflexivity | ].
    destruct (signature obj) as [sig | ]; [ | reflexivity].
    destruct (get_function_return_type obj) as [e | return_type];
      [reflexivity | ].
    cbv beta iota.
    rewrite Hdeps; destruct (dependencies_part obj);
      destruct (getsourcelines obj) as [[? ?] | ]; reflexivity.
  - destruct (get_class_attributes obj) as [e | attributes];
      [reflexivity | ].
    cbv beta iota.
    rewrite Hdeps; destruct (dependencies_part obj);
      destruct (getsourcelines obj) as [[? ?] | ]; reflexivity.
Qed.

(** The cause to name, and the cause that was named. *)
Local Ltac pick_cause :=
  first
    [ reflexivity | discriminate | eassumption
    | eexists; reflexivity
    | match goal with H : _ <-> _ |- _ => apply H; reflexivity end
    | intros _; pick_cause
    | split; pick_cause
    | left; pick_cause
    | right; pick_cause ].

Local Ltac settle_cause :=
  repeat match goal with
         | H : _ /\ _ |- _ => destruct H
         | H : _ \/ _ |- _ => destruct H
         | H : exists _, _ |- _ => destruct H
         | H : ?x = ?x -> _ |- _ => specialize (H eq_refl)
         | H : ?P -> _, H' : ?P |- _ => specialize (H H')
         end;
  first
    [ congruence
    | match goal with
      | H : (?a = ?b) <-> _ |- _ =>
          assert (a = b) by (apply H; eauto); congruence
      end ].

Lemma dependencies_part_fails (obj : py_object) (e : exn) :
  dependencies_part obj = inl e
  <-> exists c rest,
        getsource obj = Some (String c rest)
        /\ analyzer_fails obj (PyStr (String c rest)) = Some e.
Proof.
  unfold analyzer_error.
  destruct (getsource obj) as [[|c rest] | ].
  - split; [discriminate | intros (c & rest & H & _); discriminate].
  - split.
    + intros H. exists c, rest. split; [reflexivity | ].
      destruct (analysed obj (PyStr (String c rest))) as [e0 | d];
        [ | discriminate].
      destruct (analyzer_catches e0);
        [destruct (format_error obj); [congruence | discriminate]
        | congruence].
    + intros (c' & rest' & [= <- <-] & H).
      destruct (analysed obj (PyStr (String c rest))) as [e0 | d];
        [ | discriminate].
      destruct (analyzer_catches e0);
        [destruct (format_error obj); [congruence | discriminate]
        | congruence].
  - split; [discriminate | intros (c & rest & H & _); discriminate].
Qed.


Lemma collect_parameters_spec (ps : list py_parameter) :
  forall acc l,
    collect_parameters ps acc = inr l ->
    exists recorded,
      l = acc ++ recorded
      /\ starts recorded ps
      /\ Forall (fun p => param_error p = None) recorded
      /\ (Forall (fun p => param_error p = None) ps -> recorded = ps).
Proof.
  induction ps as [|p ps IH]; intros acc l; cbn [collect_parameters].
  - intros [= <-]. exists []. rewrite app_nil_r.
    repeat split; [now exists [] | constructor].
  - destruct (param_error p) as [e | ] eqn:Hp.
    + destruct (is_value_or_type_error e); [ | discriminate].
      intros [= <-]. exists []. rewrite app_nil_r.
      repeat split; [now exists (p :: ps) | constructor | ].
      intros H. inversion H; congruence.
    + intros H. apply IH in H as (recorded & -> & (rest & ->) & Hok & Hall).
      exists (p :: recorded). rewrite <- app_assoc.
      repeat split; [now exists rest | now constructor | ].
      intros H. inversion H; subst. f_equal. auto.
Qed.


End Runtime.

(** *** The names the regex enumerator reports *)

Lemma span_fst_forall (p : ascii -> bool) (s : string) :
  string_forallb p (fst (span p s)) = true.
Proof.
  induction s as [|c s IH]; simpl; [reflexivity | ].
  destruct (p c) eqn:Hc; [ | reflexivity].
  destruct (span p s) as [a b]. simpl in *. now rewrite Hc, IH.
Qed.

Lemma match_here_name (s name : string) (len : nat) :
  match_here s = Some (name, len) ->
  name <> "" /\ string_forallb is_word name = true.
Proof.
  unfold match_here.
  destruct (match strip_prefix "def" s with
            | Some r => Some (r, 3)
            | None =>
                match strip_prefix "class" s with
                | Some r => Some (r, 5)
                | None => None
                end
            end) as [[r k] | ]; [ | discriminate].
  destruct (span is_space r) as [spaces r'].
  pose proof (span_fst_forall is_word r') as Hword.
  destruct (span is_word r') as [name' rest].
  destruct spaces; [discriminate | ].
  destruct name'; [discriminate | ].
  intros [= <- _]. split; [discriminate | exact Hword].
Qed.

Lemma findall_scan_anchored (content : string) :
  forall (bol : bool) (skip : nat) (m : string),
    In m (findall_scan content bol skip) ->
    exists s len,
      In s ((if bol then [content] else []) ++ after_newlines content)
      /\ match_here s = Some (m, len).
Proof.
  induction content as [|c rest IH]; intros bol skip m; [intros [] | ].
  assert (Hrest : forall skip',
             In m (findall_scan rest (Ascii.eqb c "010"%char) skip') ->
             exists s len,
               In s ((if bol then [String c rest] else [])
                       ++ after_newlines (String c rest))
               /\ match_here s = Some (m, len)).
  { intros skip' H. apply IH in H as (s & len & Hin & Hm).
    exists s, len. split; [ | exact Hm].
    apply in_or_app. right. cbn [after_newlines].
    destruct (Ascii.eqb c "010"%char); [exact Hin | ].
    exact Hin. }
  destruct skip as [|k]; cbn [findall_scan]; [ | apply Hrest].
  destruct bol; cbv beta iota; [ | apply Hrest].
  destruct (match_here (String c rest)) as [[name len] | ] eqn:Hm;
    [ | apply Hrest].
  intros [<- | H]; [ | eapply Hrest; eassumption].
  exists (String c rest), len. split; [now left | exact Hm].
Qed.

Lemma findall_scan_length (content : string) :
  forall (bol : bool) (skip : nat),
    length (findall_scan content bol skip)
    <= length ((if bol then [content] else []) ++ after_newlines content).
Proof.
  induction content as [|c rest IH]; intros bol skip; [simpl; lia | ].
  assert (Hrest : forall skip',
             length (findall_scan rest (Ascii.eqb c "010"%char) skip')
             <= length (after_newlines (String c rest))).
  { intros skip'. specialize (IH (Ascii.eqb c "010"%char) skip').
    cbn [after_newlines]. destruct (Ascii.eqb c "010"%char); exact IH. }
  rewrite length_app.
  destruct skip as [|k]; cbn [findall_scan]; [ | specialize (Hrest k); lia].
  destruct bol; cbv beta iota; [ | specialize (Hrest 0); lia].
  destruct (match_here (String c rest)) as [[name len] | ].
  - specialize (Hrest (len - 1)). cbn [length]. lia.
  - specialize (Hrest 0). lia.
Qed.

(** X21: what the regex enumerator reports for a file that is read
    and holds ASCII text (where the character classes of the pattern
    are those of the model).  It returns two lists and changes
    nothing.  Every name in either list is a non-empty run of word
    characters captured where a line starts with [def] or [class] and
    white space (so an indented definition, a method for instance, is
    never reported), and there are at most as many names as the text
    has line starts. *)
Theorem regex_names_start_lines (file_path : string) (w : world)
    (content : string)
    (Hread : files w !! file_path = Some content)
    (Hascii : string_forallb is_ascii content = true) :
  exists functions classes,
    get_primary_functions_and_classes_regex file_path w
    = (inr (functions, classes), w)
    /\ Forall
         (fun name =>
            name <> ""
            /\ string_forallb is_word name = true
            /\ exists s len,
                 In s (line_starts content)
                 /\ match_here s = Some (name, len))
         (functions ++ classes)
    /\ length functions + length classes <= length (line_starts content).
Proof.
  unfold get_primary_functions_and_classes_regex, bind, read_file, ret.
  rewrite Hread. rewrite RegexFacts.classify_matches_partition.
  do 2 eexists. split; [reflexivity | ]. split.
  - apply List.Forall_forall. intros name Hin.
    assert (Hfound : In name (findall content)).
    { apply in_app_or in Hin as [H | H]; now apply filter_In in H. }
    apply findall_scan_anchored in Hfound as (s & len & Hs & Hm).
    destruct (match_here_name _ _ _ Hm) as [Hne Hword].
    split; [exact Hne | split; [exact Hword | ]]. eauto.
  - rewrite List.filter_length.
    apply (findall_scan_length content true 0).
Qed.

(** *** The enumeration *)

Lemma last_of_app {A} (a b : list A) :
  last_of (a ++ b)
  = match last_of b with Some x => Some x | None => last_of a end.
Proof.
  unfold last_of. rewrite rev_app_distr.
  destruct (rev b); reflexivity.
Qed.

Lemma record_def_get (objects : list (string * object_type)) (n : node)
    (name : string) :
  dict_get name (record_def objects n)
  = match last_of (definitions_of name [n]) with
    | Some t => Some t
    | None => dict_get name objects
    end.
Proof.
  unfold definitions_of. cbn [flat_map]. rewrite app_nil_r.
  destruct n as [m | s | e]; try reflexivity.
  destruct s; try reflexivity; cbn [record_def]; rewrite dict_get_set;
    rewrite String.eqb_sym; destruct (String.eqb _ name); reflexivity.
Qed.

Lemma fold_record_def_get (l : list node) (name : string) :
  forall objects : list (string * object_type),
    dict_get name (fold_left record_def l objects)
    = match last_of (definitions_of name l) with
      | Some t => Some t
      | None => dict_get name objects
      end.
Proof.
  induction l as [|n l IH]; intros objects; cbn [fold_left].
  - reflexivity.
  - rewrite IH, record_def_get.
    replace (definitions_of name (n :: l))
      with (definitions_of name [n] ++ definitions_of name l)
      by (unfold definitions_of; cbn [flat_map]; now rewrite app_nil_r).
    rewrite last_of_app.
    now destruct (last_of (definitions_of name l)).
Qed.

Lemma dict_set_NoDup {V} (k : string) (v : V) (d : list (string * V)) :
  List.NoDup (dict_keys d) -> List.NoDup (dict_keys (dict_set k v d)).
Proof.
  unfold dict_keys. induction d as [|[k0 v0] d IH]; simpl; intros Hd.
  - constructor; [intros [] | constructor].
  - inversion Hd as [|? ? Hnot Hd']; subst.
    destruct (String.eqb_spec k k0) as [-> | Hne]; simpl.
    + constructor; assumption.
    + constructor; [ | now apply IH].
      intros Hin. apply (dict_set_keys k k0 v d) in Hin as [-> | Hin];
        [now apply Hne | now apply Hnot].
Qed.

Lemma fold_record_def_NoDup (l : list node) :
  forall objects : list (string * object_type),
    List.NoDup (dict_keys objects) ->
    List.NoDup (dict_keys (fold_left record_def l objects)).
Proof.
  induction l as [|n l IH]; intros objects Hd; cbn [fold_left]; [exact Hd | ].
  apply IH. destruct n as [m | s | e]; try exact Hd.
  destruct s; try exact Hd; now apply dict_set_NoDup.
Qed.

Lemma filter_keys_NoDup {V} (p : string -> bool) (d : list (string * V)) :
  List.NoDup (dict_keys d) ->
  List.NoDup (dict_keys (List.filter (fun o => p (fst o)) d)).
Proof.
  unfold dict_keys. induction d as [|[k0 v0] d IH]; simpl; intros Hd.
  - constructor.
  - inversion Hd as [|? ? Hnot Hd']; subst.
    destruct (p k0); simpl; [ | now apply IH].
    constructor; [ | now apply IH].
    intros Hin. apply Hnot. apply in_map_iff in Hin as (o & Ho & Hin).
    apply filter_In in Hin as [Hin _]. apply in_map_iff. eauto.
Qed.

Lemma filter_keys_get {V} (p : string -> bool) (d : list (string * V))
    (name : string) :
  dict_get name (List.filter (fun o => p (fst o)) d)
  = if p name then dict_get name d else None.
Proof.
  induction d as [|[k0 v0] d IH]; simpl.
  - now destruct (p name).
  - destruct (p k0) eqn:Hk0; simpl; rewrite IH;
      destruct (String.eqb_spec name k0) as [-> | ]; try reflexivity.
    + now rewrite Hk0.
    + now rewrite Hk0.
Qed.

Section Enumeration.

Variable ast_parse : string -> exn + module_.
Variable import_ : string -> exn + py_module.
Variable stem : string -> string.

(** X22: what the enumeration of a file returns once the file is
    read, parsed and loaded: a dictionary without repeated names that
    has an entry for a name exactly when some definition of the tree
    has that name and the loaded module has an attribute of that name;
    the kind recorded is that of the last definition of the name that
    the breadth-first walk meets, whatever the module binds the name
    to.  The world is left as it was. *)
Theorem enumeration_records_last_definition
    (file_path text : string) (tree : module_) (module : py_module)
    (w : world)
    (Hread : files w !! file_path = Some text)
    (Hparse : ast_parse text = inr tree)
    (Himport : import_ (stem file_path) = inr module) :
  exists objects,
    get_user_defined_objects ast_parse import_ stem file_path w
    = (inr objects, w)
    /\ List.NoDup (dict_keys objects)
    /\ forall name,
         dict_get name objects
         = if hasattr_module module name
           then last_of (definitions_of name (walk (NModule tree)))
           else None.
Proof.
  eexists. split; [ | split].
  - exact (get_user_defined_objects_result ast_parse import_ stem file_path
             text tree module w Hread Hparse Himport).
  - apply (filter_keys_NoDup (hasattr_module module)).
    apply fold_record_def_NoDup. constructor.
  - intros name.
    rewrite (filter_keys_get (hasattr_module module)).
    unfold enumerate_objects. rewrite fold_record_def_get.
    now destruct (last_of (definitions_of name (walk (NModule tree)))).
Qed.

End Enumeration.

(** *** The comparison of the two enumerators *)

Section Comparison.

Import Comparison.

Variable ast_parse : string -> exn + module_.
Variable stdlib_module_names : gset string.
Variable sys_modules : gmap string py_module.
Variable import_ : string -> exn + py_module.
Variable stem : string -> string.
Variable format_error : py_object -> option exn.

Lemma py_set_of_strings (names : list string) :
  forall acc, exists s, py_set (map VStr names) acc = inr s.
Proof.
  induction names as [|n names IH]; intros acc; simpl; eauto.
Qed.

(** X23: the comparison of the two enumerators never returns.  When
    the metadata batch raises, that error reaches the caller; when the
    batch returns, the regex enumerator reads the same file and its
    result, a pair of lists, is handed to [set], which raises
    TypeError (a list cannot be hashed).  No file is written either
    way. *)
Theorem comparison_never_returns (filepath : string) (w : world) :
  exists e w',
    missing_funcs_in_get_meta_data ast_parse stdlib_module_names sys_modules
      import_ stem format_error filepath w = (inl e, w')
    /\ files w' = files w /\ writes w' = writes w
    /\ match get_meta_data ast_parse stdlib_module_names sys_modules import_
               stem format_error filepath None w with
       | (inl e0, _) => e = Raised e0
       | (inr _, _) => e = TypeError_unhashable_list
       end.
Proof.
  unfold missing_funcs_in_get_meta_data.
  destruct (batch_cases ast_parse stdlib_module_names sys_modules import_
              stem format_error filepath None w)
    as ([e0 | items] & out & -> & Hread).
  - eauto 6.
  - destruct Hread as (text & Hread).
    destruct (py_set_of_strings (map md_name items) ∅) as (names & Hnames).
    rewrite map_map in Hnames. rewrite Hnames.
    unfold get_primary_functions_and_classes_regex, bind, read_file, ret.
    cbn [files]. rewrite Hread.
    destruct (classify_matches (findall text)) as [functions classes].
    cbn [py_set]. eauto 6.
Qed.

End Comparison.

Lemma class_attributes_are_public_data_witness :
  get_class_attributes Samples.live_class = inr [("x", "1")]
  /\ (forall name,
        In name (dict_keys [("x", "1")])
        <-> exists attr,
              In (name, attr) (dir Samples.live_class)
              /\ data_attribute (name, attr) = true)
  /\ (forall name value,
        dict_get name [("x", "1")] = Some value ->
        exists attr,
          In (name, attr) (dir Samples.live_class)
          /\ data_attribute (name, attr) = true
          /\ value = attr_str attr).
Proof.
  assert (H : get_class_attributes Samples.live_class = inr [("x", "1")])
    by reflexivity.
  split; [exact H | ].
  exact (class_attributes_are_public_data Samples.live_class [("x", "1")] H).
Defined.


Lemma regex_names_start_lines_witness :
  let w := Scenario.fresh [("m.py", Scenario.meta_text)] in
  files w !! "m.py" = Some Scenario.meta_text
  /\ string_forallb is_ascii Scenario.meta_text = true
  /\ exists functions classes,
       get_primary_functions_and_classes_regex "m.py" w
       = (inr (functions, classes), w)
       /\ Forall
            (fun name =>
               name <> ""
               /\ string_forallb is_word name = true
               /\ exists s len,
                    In s (line_starts Scenario.meta_text)
                    /\ match_here s = Some (name, len))
            (functions ++ classes)
       /\ length functions + length classes
          <= length (line_starts Scenario.meta_text).
Proof.
  intros w.
  assert (Hread : files w !! "m.py" = Some Scenario.meta_text)
    by (vm_compute; reflexivity).
  assert (Hascii : string_forallb is_ascii Scenario.meta_text = true)
    by (vm_compute; reflexivity).
  split; [exact Hread | split; [exact Hascii | ]].
  exact (regex_names_start_lines "m.py" w Scenario.meta_text Hread Hascii).
Defined.

Lemma enumeration_records_last_definition_witness :
  let w := Scenario.fresh [("m.py", Scenario.meta_text)] in
  files w !! "m.py" = Some Scenario.meta_text
  /\ Scenario.meta_parse Scenario.meta_text = inr Scenario.meta_tree
  /\ Scenario.meta_import (Scenario.meta_stem "m.py") = inr Scenario.live_m
  /\ exists objects,
       get_user_defined_objects Scenario.meta_parse Scenario.meta_import
         Scenario.meta_stem "m.py" w = (inr objects, w)
       /\ List.NoDup (dict_keys objects)
       /\ forall name,
            dict_get name objects
            = if hasattr_module Scenario.live_m name
              then last_of
                     (definitions_of name
                        (walk (NModule Scenario.meta_tree)))
              else None.
Proof.
  intros w.
  assert (Hread : files w !! "m.py" = Some Scenario.meta_text)
    by (vm_compute; reflexivity).
  assert (Hparse : Scenario.meta_parse Scenario.meta_text
                   = inr Scenario.meta_tree) by (vm_compute; reflexivity).
  assert (Himport : Scenario.meta_import (Scenario.meta_stem "m.py")
                    = inr Scenario.live_m) by reflexivity.
  repeat (split; [assumption | ]).
  exact (enumeration_records_last_definition Scenario.meta_parse
           Scenario.meta_import Scenario.meta_stem "m.py" Scenario.meta_text
           Scenario.meta_tree Scenario.live_m w Hread Hparse Himport).
Defined.

End ExtractorFacts.
